(** * IOSSM mailbox driver (drivers/ddr/altera/iossm_mailbox.c)

    A shallow embedding of the mailbox transport [io96b_mb_req], the
    interface enumerator [io96b_mb_init], the calibration code
    ([io96b_cal_status], [init_mem_cal], [trig_mem_cal]) and the property
    queries ([get_mem_technology], [get_mem_width_info],
    [ecc_enable_status]), together with the calibration block of
    [sdram_mmr_init_full].

    The hardware is an arbitrary state machine answering register reads and
    writes; every function returns, besides its result, the list of register
    accesses it performed, in program order.  Console output ([printf],
    [debug]) and delays ([udelay], [schedule]) change neither the control
    flow nor the registers and are left out. *)

From Stdlib Require Import ZArith Lia String.
From stdpp Require Import base list.

Local Open Scope Z_scope.

(** ** Machine integers *)

Definition u8 (x : Z) : Z := x mod 2 ^ 8.
Definition u16 (x : Z) : Z := x mod 2 ^ 16.
Definition u32 (x : Z) : Z := x mod 2 ^ 32.
Definition u64 (x : Z) : Z := x mod 2 ^ 64.

(** [BIT], [GENMASK] and [FIELD_GET] of linux/bits.h and linux/bitfield.h. *)
Definition BIT (n : Z) : Z := Z.shiftl 1 n.
Definition GENMASK (h l : Z) : Z := Z.shiftl (Z.ones (h - l + 1)) l.
Definition bf_shf (mask : Z) : Z := Z.log2 (Z.land mask (- mask)).
Definition FIELD_GET (mask reg : Z) : Z := Z.shiftr (Z.land reg mask) (bf_shf mask).

(** errno values *)
Definition EPERM : Z := 1.
Definition ENOEXEC : Z := 8.
Definition ETIMEDOUT : Z := 110.

(** iossm_mailbox.c, lines 20-24 *)
Definition MAX_RETRY_COUNT : nat := 3.
Definition NUM_CMD_RESPONSE_DATA : nat := 3.
Definition INTF_IP_TYPE_MASK : Z := GENMASK 31 29.
Definition INTF_INSTANCE_ID_MASK : Z := GENMASK 28 24.
Definition IO96B0_PLL_A_MASK : Z := BIT 0.
Definition IO96B0_PLL_B_MASK : Z := BIT 1.
Definition IO96B1_PLL_A_MASK : Z := BIT 2.
Definition IO96B1_PLL_B_MASK : Z := BIT 3.
Definition DDR_CSR_CLKGEN_LOCKED_IO96B0_MASK : Z := BIT 16.
Definition DDR_CSR_CLKGEN_LOCKED_IO96B1_MASK : Z := BIT 17.

(** supported DDR type list *)
Definition ddr_type_list : list string :=
  ["DDR4"; "DDR5"; "DDR5_RDIMM"; "LPDDR4"; "LPDDR5"; "QDRIV"; "UNKNOWN"]%string.

(** ** The header iossm_mailbox.h

    The register offsets, bit masks, command numbers and time-outs come from
    iossm_mailbox.h and the platform headers, which are not part of the
    sources at hand.  They are parameters of the development. *)
Class iossm_header := {
  IOSSM_CMD_REQ_OFFSET : Z;
  IOSSM_CMD_PARAM_0_OFFSET : Z;
  IOSSM_CMD_PARAM_1_OFFSET : Z;
  IOSSM_CMD_PARAM_2_OFFSET : Z;
  IOSSM_CMD_PARAM_3_OFFSET : Z;
  IOSSM_CMD_PARAM_4_OFFSET : Z;
  IOSSM_CMD_PARAM_5_OFFSET : Z;
  IOSSM_CMD_PARAM_6_OFFSET : Z;
  IOSSM_CMD_RESPONSE_STATUS_OFFSET : Z;
  IOSSM_CMD_RESPONSE_DATA_0_OFFSET : Z;
  IOSSM_CMD_RESPONSE_DATA_1_OFFSET : Z;
  IOSSM_CMD_RESPONSE_DATA_2_OFFSET : Z;
  IOSSM_STATUS_OFFSET : Z;
  IOSSM_STATUS_COMMAND_RESPONSE_READY : Z;
  IOSSM_STATUS_CAL_SUCCESS : Z;
  IOSSM_STATUS_CAL_FAIL : Z;
  INTF_MEM_CAL_STATUS_SUCCESS : Z;
  IOSSM_CMD_RESPONSE_DATA_SHORT : Z -> Z;
  CMD_GET_SYS_INFO : Z;
  CMD_GET_MEM_INFO : Z;
  CMD_TRIG_CONTROLLER_OP : Z;
  CMD_TRIG_MEM_CAL_OP : Z;
  GET_MEM_INTF_INFO : Z;
  GET_MEM_TECHNOLOGY : Z;
  GET_MEM_WIDTH_INFO : Z;
  ECC_ENABLE_STATUS : Z;
  TRIG_MEM_CAL : Z;
  GET_MEM_CAL_STATUS : Z;
  TIMEOUT : Z;
  TIMEOUT_60000MS : Z;
  SOCFPGA_SYSMGR_ADDRESS : Z;
  SYSMGR_SOC64_BOOT_SCRATCH_COLD8 : Z;
  ALT_SYSMGR_SCRATCH_REG_8_DDR_DBE_MASK : Z
}.

(** ** The controller data (struct io96b_info of iossm_mailbox.h)

    C arrays are lists; their length is the capacity the header gives them
    ([MAX_MEM_INTERFACES_SUPPORTED], [MAX_IO96B_SUPPORTED]). *)
Record io96b_mb_ctrl := {
  num_mem_interface : Z;
  ip_type : list Z;
  ip_instance_id : list Z
}.

Record io96b_instance := {
  size : Z;
  io96b_csr_addr : Z;
  cal_status : bool;
  mb_ctrl : io96b_mb_ctrl
}.

Record io96b_info := {
  num_instance : Z;
  overall_cal_status : bool;
  ddr_type : string;
  ecc_status : bool;
  overall_size : Z;
  io96b : list io96b_instance;
  ckgen_lock : bool;
  io96b_pll : Z
}.

Definition set_mb_ctrl (m : io96b_mb_ctrl) (x : io96b_instance) : io96b_instance :=
  {| size := size x; io96b_csr_addr := io96b_csr_addr x;
     cal_status := cal_status x; mb_ctrl := m |}.

Definition set_cal_status (b : bool) (x : io96b_instance) : io96b_instance :=
  {| size := size x; io96b_csr_addr := io96b_csr_addr x;
     cal_status := b; mb_ctrl := mb_ctrl x |}.

Definition set_size (n : Z) (x : io96b_instance) : io96b_instance :=
  {| size := n; io96b_csr_addr := io96b_csr_addr x;
     cal_status := cal_status x; mb_ctrl := mb_ctrl x |}.

Definition set_io96b (l : list io96b_instance) (c : io96b_info) : io96b_info :=
  {| num_instance := num_instance c; overall_cal_status := overall_cal_status c;
     ddr_type := ddr_type c; ecc_status := ecc_status c;
     overall_size := overall_size c; io96b := l;
     ckgen_lock := ckgen_lock c; io96b_pll := io96b_pll c |}.

Definition set_overall_cal_status (b : bool) (c : io96b_info) : io96b_info :=
  {| num_instance := num_instance c; overall_cal_status := b;
     ddr_type := ddr_type c; ecc_status := ecc_status c;
     overall_size := overall_size c; io96b := io96b c;
     ckgen_lock := ckgen_lock c; io96b_pll := io96b_pll c |}.

Definition set_ddr_type (t : string) (c : io96b_info) : io96b_info :=
  {| num_instance := num_instance c; overall_cal_status := overall_cal_status c;
     ddr_type := t; ecc_status := ecc_status c;
     overall_size := overall_size c; io96b := io96b c;
     ckgen_lock := ckgen_lock c; io96b_pll := io96b_pll c |}.

Definition set_ecc_status (b : bool) (c : io96b_info) : io96b_info :=
  {| num_instance := num_instance c; overall_cal_status := overall_cal_status c;
     ddr_type := ddr_type c; ecc_status := b;
     overall_size := overall_size c; io96b := io96b c;
     ckgen_lock := ckgen_lock c; io96b_pll := io96b_pll c |}.

Definition set_overall_size (n : Z) (c : io96b_info) : io96b_info :=
  {| num_instance := num_instance c; overall_cal_status := overall_cal_status c;
     ddr_type := ddr_type c; ecc_status := ecc_status c;
     overall_size := n; io96b := io96b c;
     ckgen_lock := ckgen_lock c; io96b_pll := io96b_pll c |}.

Record io96b_mb_resp := {
  cmd_resp_status : Z;
  cmd_resp_data : list Z
}.

(** ** Register access *)

Inductive event : Type :=
  | EvRead (addr val : Z)
  | EvWrite (addr val : Z).

(** The hardware behind the registers.  [dev_polls d t] is the number of
    further polls of a busy-wait that fit into a time-out of [t] ms when the
    wait starts in state [d]. *)
Record device := {
  dstate : Type;
  dev_readl : dstate -> Z -> Z * dstate;
  dev_writel : dstate -> Z -> Z -> dstate;
  dev_polls : dstate -> Z -> nat
}.

(** What a call can come to: it returns, it ends in [hang()], or it leaves
    the bounds of an array (undefined behaviour in C). *)
Inductive outcome (A : Type) : Type :=
  | Ret (a : A)
  | Hang
  | Undef.
Arguments Ret {A} a.
Arguments Hang {A}.
Arguments Undef {A}.

Inductive ctl (S : Type) : Type :=
  | Continue (s : S)
  | Break (s : S)
  | GotoErr (s : S).
Arguments Continue {S} s.
Arguments Break {S} s.
Arguments GotoErr {S} s.

(** How a loop with a [goto err] in its body ends. *)
Inductive flow (S : Type) : Type :=
  | Done (s : S)
  | Err (s : S).
Arguments Done {S} s.
Arguments Err {S} s.

Section Driver.
Context (dev : device).
Context {hdr : iossm_header}.

Definition M (A : Type) : Type := dstate dev -> outcome A * dstate dev * list event.

Definition mret {A} (a : A) : M A := fun d => (Ret a, d, []).

Definition mbind {A B} (m : M A) (f : A -> M B) : M B := fun d =>
  match m d with
  | (Ret a, d1, t1) => let '(r, d2, t2) := f a d1 in (r, d2, t1 ++ t2)
  | (Hang, d1, t1) => (Hang, d1, t1)
  | (Undef, d1, t1) => (Undef, d1, t1)
  end.

Definition hang {A} : M A := fun d => (Hang, d, []).
Definition undef {A} : M A := fun d => (Undef, d, []).

Notation "'do' x <- m ;; k" := (mbind m (fun x => k))
  (at level 10, x name, m at level 99, k at level 200, only parsing).
Notation "'do' ' p <- m ;; k" := (mbind m (fun x => let 'p := x in k))
  (at level 10, p pattern, m at level 99, k at level 200, only parsing).

Definition readl (addr : Z) : M Z := fun d =>
  let '(v, d1) := dev_readl dev d addr in (Ret (u32 v), d1, [EvRead addr (u32 v)]).

Definition writel (val addr : Z) : M unit := fun d =>
  (Ret tt, dev_writel dev d addr (u32 val), [EvWrite addr (u32 val)]).

(** Element [i] of a C array; outside the array the behaviour is undefined. *)
Definition idx {A} (l : list A) (i : nat) : M A :=
  match l !! i with
  | Some a => mret a
  | None => undef
  end.

(** [for (i = i0; i < i0 + n; i++) body], the body never leaving the loop. *)
Fixpoint for_range {S} (body : nat -> S -> M S) (i0 n : nat) (s : S) : M S :=
  match n with
  | O => mret s
  | Datatypes.S n' => do s1 <- body i0 s ;; for_range body (Datatypes.S i0) n' s1
  end.

(** The same with [break] and [goto err] in the body. *)
Fixpoint for_ctl {S} (body : nat -> S -> M (ctl S)) (i0 n : nat) (s : S) : M (flow S) :=
  match n with
  | O => mret (Done s)
  | Datatypes.S n' =>
      do c <- body i0 s ;;
      match c with
      | Continue s1 => for_ctl body (Datatypes.S i0) n' s1
      | Break s1 => mret (Done s1)
      | GotoErr s1 => mret (Err s1)
      end
  end.

(** Modelled from the spec: [wait_for_bit_le32] of include/wait_bit.h, the
    wait-for-bit primitive of the register access layer: it polls the
    register until all bits of [mask] are set (or all clear, when [set] is
    false) and gives up with [-ETIMEDOUT] once the time-out has passed. *)
Fixpoint wait_for_bit_poll (polls : nat) (reg mask : Z) (set : bool) : M Z :=
  do val <- readl reg ;;
  let val := if set then val else u32 (Z.lnot val) in
  if Z.land val mask =? mask then mret 0
  else match polls with
       | O => mret (- ETIMEDOUT)
       | Datatypes.S p => wait_for_bit_poll p reg mask set
       end.

Definition wait_for_bit_le32 (reg mask : Z) (set : bool) (timeout_ms : Z) : M Z :=
  fun d => wait_for_bit_poll (dev_polls dev d timeout_ms) reg mask set d.

(** Modelled from the spec: [clrbits_le32] of asm/io.h, a read of the
    register followed by a write of the value with the bits cleared. *)
Definition clrbits_le32 (addr clear : Z) : M unit :=
  do v <- readl addr ;; writel (Z.land v (u32 (Z.lnot clear))) addr.

(** ** The mailbox transport *)

Definition reg (io96b_csr_addr offset : Z) : Z := u64 (io96b_csr_addr + offset).

(** The body of the [switch] of lines 132-163. *)
Definition write_cmd_param (io96b_csr_addr : Z)
    (cmd_param_0 cmd_param_1 cmd_param_2 cmd_param_3
     cmd_param_4 cmd_param_5 cmd_param_6 : Z) (i : nat) : M unit :=
  match i with
  | 0%nat => if cmd_param_0 =? 0 then mret tt
             else writel cmd_param_0 (reg io96b_csr_addr IOSSM_CMD_PARAM_0_OFFSET)
  | 1%nat => if cmd_param_1 =? 0 then mret tt
             else writel cmd_param_1 (reg io96b_csr_addr IOSSM_CMD_PARAM_1_OFFSET)
  | 2%nat => if cmd_param_2 =? 0 then mret tt
             else writel cmd_param_2 (reg io96b_csr_addr IOSSM_CMD_PARAM_2_OFFSET)
  | 3%nat => if cmd_param_3 =? 0 then mret tt
             else writel cmd_param_3 (reg io96b_csr_addr IOSSM_CMD_PARAM_3_OFFSET)
  | 4%nat => if cmd_param_4 =? 0 then mret tt
             else writel cmd_param_4 (reg io96b_csr_addr IOSSM_CMD_PARAM_4_OFFSET)
  | 5%nat => if cmd_param_5 =? 0 then mret tt
             else writel cmd_param_5 (reg io96b_csr_addr IOSSM_CMD_PARAM_5_OFFSET)
  | 6%nat => if cmd_param_6 =? 0 then mret tt
             else writel cmd_param_6 (reg io96b_csr_addr IOSSM_CMD_PARAM_6_OFFSET)
  | _ => mret tt
  end.

(** The body of the [switch] of lines 195-219. *)
Definition read_resp_data (io96b_csr_addr : Z) (i : nat) (data : list Z) : M (list Z) :=
  match i with
  | 0%nat => do v <- readl (reg io96b_csr_addr IOSSM_CMD_RESPONSE_DATA_0_OFFSET) ;;
             mret (<[i := v]> data)
  | 1%nat => do v <- readl (reg io96b_csr_addr IOSSM_CMD_RESPONSE_DATA_1_OFFSET) ;;
             mret (<[i := v]> data)
  | 2%nat => do v <- readl (reg io96b_csr_addr IOSSM_CMD_RESPONSE_DATA_2_OFFSET) ;;
             mret (<[i := v]> data)
  | _ => mret data
  end.

Definition cmd_req_word (ip_type instance_id usr_cmd_type usr_cmd_opcode : Z) : Z :=
  Z.lor (Z.lor (Z.lor (u32 (Z.shiftl usr_cmd_opcode 0)) (u32 (Z.shiftl usr_cmd_type 16)))
               (u32 (Z.shiftl instance_id 24)))
        (u32 (Z.shiftl ip_type 29)).

(** [io96b_mb_req], lines 106-236.  The response structure of the caller
    goes in as [resp]; the result is the return value with the structure as
    the call leaves it. *)
Definition io96b_mb_req (io96b_csr_addr ip_type instance_id usr_cmd_type usr_cmd_opcode
    cmd_param_0 cmd_param_1 cmd_param_2 cmd_param_3 cmd_param_4 cmd_param_5 cmd_param_6
    resp_data_len : Z) (resp : io96b_mb_resp) : M (Z * io96b_mb_resp) :=
  (* Initialized zeros for responses *)
  let data := foldl (fun d i => <[i := 0]> d) (cmd_resp_data resp) (seq 0 NUM_CMD_RESPONSE_DATA) in
  let resp := {| cmd_resp_status := 0; cmd_resp_data := data |} in
  (* Ensure CMD_REQ is cleared before write any command request *)
  do ret <- wait_for_bit_le32 (reg io96b_csr_addr IOSSM_CMD_REQ_OFFSET) (GENMASK 31 0)
           false TIMEOUT ;;
  if negb (ret =? 0) then mret (ret, resp)
  else
    (* Write CMD_PARAM_* *)
    do _ <- for_range (fun i _ => write_cmd_param io96b_csr_addr cmd_param_0 cmd_param_1
                                 cmd_param_2 cmd_param_3 cmd_param_4 cmd_param_5
                                 cmd_param_6 i) 0 6 tt ;;
    (* Write CMD_REQ (IP_TYPE, IP_INSTANCE_ID, CMD_TYPE and CMD_OPCODE) *)
    let cmd_req := cmd_req_word ip_type instance_id usr_cmd_type usr_cmd_opcode in
    do _ <- writel cmd_req (reg io96b_csr_addr IOSSM_CMD_REQ_OFFSET) ;;
    (* Read CMD_RESPONSE_READY in CMD_RESPONSE_STATUS *)
    do ret <- wait_for_bit_le32 (reg io96b_csr_addr IOSSM_CMD_RESPONSE_STATUS_OFFSET)
             IOSSM_STATUS_COMMAND_RESPONSE_READY true TIMEOUT ;;
    if negb (ret =? 0) then
      do _ <- readl (reg io96b_csr_addr IOSSM_CMD_RESPONSE_STATUS_OFFSET) ;;
      mret (ret, resp)
    else
      (* read CMD_RESPONSE_STATUS *)
      do st <- readl (reg io96b_csr_addr IOSSM_CMD_RESPONSE_STATUS_OFFSET) ;;
      (* read CMD_RESPONSE_DATA_* *)
      do data <- for_range (read_resp_data io96b_csr_addr) 0 (Z.to_nat resp_data_len)
                (cmd_resp_data resp) ;;
      do st <- readl (reg io96b_csr_addr IOSSM_CMD_RESPONSE_STATUS_OFFSET) ;;
      (* write CMD_RESPONSE_READY = 0 *)
      do _ <- clrbits_le32 (reg io96b_csr_addr IOSSM_CMD_RESPONSE_STATUS_OFFSET)
             IOSSM_STATUS_COMMAND_RESPONSE_READY ;;
      do _ <- readl (reg io96b_csr_addr IOSSM_CMD_RESPONSE_STATUS_OFFSET) ;;
      mret (ret, {| cmd_resp_status := st; cmd_resp_data := data |}).

(** A [struct io96b_mb_resp usr_resp;] local to a function.  Its contents
    are indeterminate in C; [io96b_mb_req] overwrites all of it before any
    use. *)
Definition usr_resp_decl : io96b_mb_resp :=
  {| cmd_resp_status := 0; cmd_resp_data := replicate NUM_CMD_RESPONSE_DATA 0 |}.

(** [l[i] = v] on a C array. *)
Definition store {A} (l : list A) (i : nat) (v : A) : M (list A) :=
  if decide (i < length l)%nat then mret (<[i := v]> l) else undef.

(** ** The interface enumerator *)

(** The body of the loop of lines 268-282. *)
Definition mb_init_intf (usr_resp : io96b_mb_resp) (k : nat) (s : nat * io96b_mb_ctrl)
    : M (nat * io96b_mb_ctrl) :=
  let '(j, mb) := s in
  do word <- idx (cmd_resp_data usr_resp) k ;;
  let ip_type_ret := u8 (FIELD_GET INTF_IP_TYPE_MASK word) in
  let instance_id_ret := u8 (FIELD_GET INTF_INSTANCE_ID_MASK word) in
  if negb (ip_type_ret =? 0) then
    do types <- store (ip_type mb) j ip_type_ret ;;
    do ids <- store (ip_instance_id mb) j instance_id_ret ;;
    mret (Datatypes.S j, {| num_mem_interface := num_mem_interface mb;
                            ip_type := types; ip_instance_id := ids |})
  else mret (j, mb).

(** The body of the loop of lines 249-283, for instance [i]. *)
Definition mb_init_instance (i : nat) (io96b_ctrl : io96b_info) : M io96b_info :=
  do inst <- idx (io96b io96b_ctrl) i ;;
  (* Get memory interface IP type and instance ID (IP identifier) *)
  do r <- io96b_mb_req (io96b_csr_addr inst) 0 0 CMD_GET_SYS_INFO GET_MEM_INTF_INFO
            0 0 0 0 0 0 0 2 usr_resp_decl ;;
  let '(ret, usr_resp) := r in
  if negb (ret =? 0) then hang
  else
    (* Retrieve number of memory interface(s) *)
    let n := Z.land (IOSSM_CMD_RESPONSE_DATA_SHORT (cmd_resp_status usr_resp)) 3 in
    let mb := {| num_mem_interface := n; ip_type := ip_type (mb_ctrl inst);
                 ip_instance_id := ip_instance_id (mb_ctrl inst) |} in
    (* Retrieve memory interface IP type and instance ID (IP identifier) *)
    do r <- for_range (mb_init_intf usr_resp) 0 (Z.to_nat n) (0%nat, mb) ;;
    mret (set_io96b (<[i := set_mb_ctrl (snd r) inst]> (io96b io96b_ctrl)) io96b_ctrl).

Definition io96b_mb_init (io96b_ctrl : io96b_info) : M io96b_info :=
  for_range mb_init_instance 0 (Z.to_nat (num_instance io96b_ctrl)) io96b_ctrl.

(** ** Calibration *)

Definition ECC_INTSTATUS_SERR : Z := SOCFPGA_SYSMGR_ADDRESS + 0x9C.
Definition ECC_INISTATUS_DERR : Z := SOCFPGA_SYSMGR_ADDRESS + 0xA0.

Definition is_ddr_csr_clkgen_locked (io96b_pll : Z) : M Z :=
  do ret <- (if negb (FIELD_GET IO96B0_PLL_A_MASK io96b_pll =? 0)
             then wait_for_bit_le32 ECC_INTSTATUS_SERR DDR_CSR_CLKGEN_LOCKED_IO96B0_MASK
                    true TIMEOUT
             else mret 0) ;;
  if negb (ret =? 0) then mret ret else
  do ret <- (if negb (FIELD_GET IO96B0_PLL_B_MASK io96b_pll =? 0)
             then wait_for_bit_le32 ECC_INISTATUS_DERR DDR_CSR_CLKGEN_LOCKED_IO96B0_MASK
                    true TIMEOUT
             else mret ret) ;;
  if negb (ret =? 0) then mret ret else
  do ret <- (if negb (FIELD_GET IO96B1_PLL_A_MASK io96b_pll =? 0)
             then wait_for_bit_le32 ECC_INTSTATUS_SERR DDR_CSR_CLKGEN_LOCKED_IO96B1_MASK
                    true TIMEOUT
             else mret ret) ;;
  if negb (ret =? 0) then mret ret else
  if negb (FIELD_GET IO96B1_PLL_B_MASK io96b_pll =? 0)
  then wait_for_bit_le32 ECC_INISTATUS_DERR DDR_CSR_CLKGEN_LOCKED_IO96B1_MASK true TIMEOUT
  else mret ret.

(** The [do ... while] of lines 292-305; [polls] is the number of rounds
    left before the timer passes [TIMEOUT_60000MS]. *)
Fixpoint cal_status_poll (polls : nat) (status_addr : Z) : M (Z * Z) :=
  match polls with
  | O => hang
  | Datatypes.S p =>
      do a <- readl status_addr ;;
      do b <- readl status_addr ;;
      let cal_success := Z.land a IOSSM_STATUS_CAL_SUCCESS in
      let cal_fail := Z.land b IOSSM_STATUS_CAL_FAIL in
      if (cal_success =? 0) && (cal_fail =? 0) then cal_status_poll p status_addr
      else mret (cal_success, cal_fail)
  end.

Definition io96b_cal_status (addr : Z) : M Z := fun d =>
  (do r <- cal_status_poll (Datatypes.S (dev_polls dev d TIMEOUT_60000MS))
             (reg addr IOSSM_STATUS_OFFSET) ;;
   let '(cal_success, cal_fail) := r in
   if negb (cal_success =? 0) && (cal_fail =? 0) then mret 0 else mret (- EPERM)) d.

(** The body of the loop of lines 333-344. *)
Definition init_mem_cal_instance (i : nat) (s : io96b_info * Z) : M (io96b_info * Z) :=
  let '(io96b_ctrl, count) := s in
  do inst <- idx (io96b io96b_ctrl) i ;;
  do ret <- io96b_cal_status (io96b_csr_addr inst) ;;
  if negb (ret =? 0) then hang
  else mret (set_io96b (<[i := set_cal_status true inst]> (io96b io96b_ctrl)) io96b_ctrl,
             count + 1).

Definition init_mem_cal (io96b_ctrl : io96b_info) : M io96b_info :=
  (* Initialize overall calibration status *)
  let io96b_ctrl := set_overall_cal_status false io96b_ctrl in
  do _ <- (if ckgen_lock io96b_ctrl then
             do ret <- is_ddr_csr_clkgen_locked (io96b_pll io96b_ctrl) ;;
             if negb (ret =? 0) then hang else mret tt
           else mret tt) ;;
  (* Check initial calibration status for the assigned IO96B *)
  do r <- for_range init_mem_cal_instance 0 (Z.to_nat (num_instance io96b_ctrl))
            (io96b_ctrl, 0) ;;
  let '(io96b_ctrl, count) := r in
  if count =? num_instance io96b_ctrl
  then mret (set_overall_cal_status true io96b_ctrl)
  else mret io96b_ctrl.

(** The body of the retry loop of lines 377-408, for interface [j] of the
    instance [inst]. *)
Definition trig_mem_cal_retry (inst : io96b_instance) (j : nat) (k : nat)
    (s : io96b_mb_resp * bool * Z) : M (ctl (io96b_mb_resp * bool * Z)) :=
  let '(usr_resp, recal_success, ret) := s in
  do cal_stat_offset <- idx (cmd_resp_data usr_resp) j ;;
  do v <- readl (reg (io96b_csr_addr inst) cal_stat_offset) ;;
  let cal_stat := u8 v in
  if cal_stat =? INTF_MEM_CAL_STATUS_SUCCESS then mret (Break (usr_resp, true, ret))
  else
    do ip <- idx (ip_type (mb_ctrl inst)) j ;;
    do id <- idx (ip_instance_id (mb_ctrl inst)) j ;;
    do r <- io96b_mb_req (io96b_csr_addr inst) ip id CMD_TRIG_MEM_CAL_OP TRIG_MEM_CAL
              0 0 0 0 0 0 0 2 usr_resp ;;
    let '(ret, usr_resp) := r in
    if negb (ret =? 0) then mret (GotoErr (usr_resp, recal_success, ret))
    else
      do r <- io96b_mb_req (io96b_csr_addr inst) 0 0 CMD_TRIG_MEM_CAL_OP GET_MEM_CAL_STATUS
                0 0 0 0 0 0 0 2 usr_resp ;;
      let '(ret, usr_resp) := r in
      if negb (ret =? 0) then mret (GotoErr (usr_resp, recal_success, ret))
      else mret (Continue (usr_resp, recal_success, ret)).

(** The body of the loop of lines 365-415, for interface [j]. *)
Definition trig_mem_cal_intf (inst : io96b_instance) (j : nat) (s : io96b_mb_resp * Z)
    : M (ctl (io96b_mb_resp * Z)) :=
  let '(usr_resp, ret) := s in
  (* Get the memory calibration status for memory interface *)
  do r <- io96b_mb_req (io96b_csr_addr inst) 0 0 CMD_TRIG_MEM_CAL_OP GET_MEM_CAL_STATUS
            0 0 0 0 0 0 0 2 usr_resp ;;
  let '(ret, usr_resp) := r in
  if negb (ret =? 0) then mret (GotoErr (usr_resp, ret))
  else
    (* Re-calibration first memory interface with failed calibration *)
    do f <- for_ctl (trig_mem_cal_retry inst j) 0 MAX_RETRY_COUNT (usr_resp, false, ret) ;;
    match f with
    | Err (usr_resp, _, ret) => mret (GotoErr (usr_resp, ret))
    | Done (usr_resp, recal_success, ret) =>
        if negb recal_success then mret (GotoErr (usr_resp, - EPERM))
        else mret (Continue (usr_resp, ret))
    end.

(** The body of the loop of lines 363-422, for instance [i]. *)
Definition trig_mem_cal_instance (i : nat) (s : io96b_info * io96b_mb_resp * Z * Z)
    : M (ctl (io96b_info * io96b_mb_resp * Z * Z)) :=
  let '(io96b_ctrl, usr_resp, ret, count) := s in
  do inst <- idx (io96b io96b_ctrl) i ;;
  if negb (cal_status inst) then
    do f <- for_ctl (trig_mem_cal_intf inst) 0
              (Z.to_nat (num_mem_interface (mb_ctrl inst))) (usr_resp, ret) ;;
    match f with
    | Err (usr_resp, ret) => mret (GotoErr (io96b_ctrl, usr_resp, ret, count))
    | Done (usr_resp, ret) =>
        let inst := set_cal_status true inst in
        let io96b_ctrl := set_io96b (<[i := inst]> (io96b io96b_ctrl)) io96b_ctrl in
        let io96b_ctrl := set_overall_cal_status (cal_status inst) io96b_ctrl in
        mret (Continue (io96b_ctrl, usr_resp, ret, count + 1))
    end
  else mret (Continue s).

(** [trig_mem_cal], lines 353-429: the return value and the controller data
    as the call leaves them. *)
Definition trig_mem_cal (io96b_ctrl : io96b_info) : M (Z * io96b_info) :=
  do f <- for_ctl trig_mem_cal_instance 0 (Z.to_nat (num_instance io96b_ctrl))
            (io96b_ctrl, usr_resp_decl, 0, 0) ;;
  match f with
  | Done (io96b_ctrl, _, ret, _) => mret (ret, io96b_ctrl)
  | Err (io96b_ctrl, _, ret, _) => mret (ret, io96b_ctrl)
  end.

(** ** Property queries *)

(** The body of the inner loop of lines 442-464. *)
Definition get_mem_technology_intf (inst : io96b_instance) (j : nat) (s : io96b_info * Z)
    : M (ctl (io96b_info * Z)) :=
  let '(io96b_ctrl, ret) := s in
  do ip <- idx (ip_type (mb_ctrl inst)) j ;;
  do id <- idx (ip_instance_id (mb_ctrl inst)) j ;;
  do r <- io96b_mb_req (io96b_csr_addr inst) ip id CMD_GET_MEM_INFO GET_MEM_TECHNOLOGY
            0 0 0 0 0 0 0 0 usr_resp_decl ;;
  let '(ret, usr_resp) := r in
  if negb (ret =? 0) then mret (GotoErr (io96b_ctrl, ret))
  else
    let ddr_type_ret :=
      u8 (Z.land (IOSSM_CMD_RESPONSE_DATA_SHORT (cmd_resp_status usr_resp)) (GENMASK 2 0)) in
    do io96b_ctrl <-
      (if String.eqb (ddr_type io96b_ctrl) "UNKNOWN" then
         do t <- idx ddr_type_list (Z.to_nat ddr_type_ret) ;;
         mret (set_ddr_type t io96b_ctrl)
       else mret io96b_ctrl) ;;
    do t <- idx ddr_type_list (Z.to_nat ddr_type_ret) ;;
    if negb (String.eqb t (ddr_type io96b_ctrl))
    then mret (GotoErr (io96b_ctrl, - ENOEXEC))
    else mret (Continue (io96b_ctrl, ret)).

(** The body of the outer loop of lines 441-465. *)
Definition get_mem_technology_instance (i : nat) (s : io96b_info * Z)
    : M (ctl (io96b_info * Z)) :=
  do inst <- idx (io96b (fst s)) i ;;
  do f <- for_ctl (get_mem_technology_intf inst) 0
            (Z.to_nat (num_mem_interface (mb_ctrl inst))) s ;;
  match f with
  | Done s1 => mret (Continue s1)
  | Err s1 => mret (GotoErr s1)
  end.

(** [get_mem_technology], lines 431-469.  The type is the string the
    pointer [ddr_type] points to: the entries of [ddr_type_list] are
    pairwise different strings, so two of them are the same pointer exactly
    when they are the same string. *)
Definition get_mem_technology (io96b_ctrl : io96b_info) : M (Z * io96b_info) :=
  (* Initialize ddr type *)
  do t <- idx ddr_type_list 6 ;;
  let io96b_ctrl := set_ddr_type t io96b_ctrl in
  (* Get and ensure all memory interface(s) same DDR type *)
  do f <- for_ctl get_mem_technology_instance 0
            (Z.to_nat (num_instance io96b_ctrl)) (io96b_ctrl, 0) ;;
  match f with
  | Done (io96b_ctrl, ret) => mret (ret, io96b_ctrl)
  | Err (io96b_ctrl, ret) => mret (ret, io96b_ctrl)
  end.

(** The body of the inner loop of lines 481-493. *)
Definition get_mem_width_info_intf (inst : io96b_instance) (j : nat) (s : Z * Z)
    : M (ctl (Z * Z)) :=
  let '(memory_size, ret) := s in
  do ip <- idx (ip_type (mb_ctrl inst)) j ;;
  do id <- idx (ip_instance_id (mb_ctrl inst)) j ;;
  do r <- io96b_mb_req (io96b_csr_addr inst) ip id CMD_GET_MEM_INFO GET_MEM_WIDTH_INFO
            0 0 0 0 0 0 0 2 usr_resp_decl ;;
  let '(ret, usr_resp) := r in
  if negb (ret =? 0) then mret (GotoErr (memory_size, ret))
  else
    do word <- idx (cmd_resp_data usr_resp) 1 ;;
    mret (Continue (u16 (memory_size + Z.land word (GENMASK 7 0)), ret)).

(** The body of the outer loop of lines 479-504. *)
Definition get_mem_width_info_instance (i : nat) (s : io96b_info * Z * Z)
    : M (ctl (io96b_info * Z * Z)) :=
  let '(io96b_ctrl, total_memory_size, ret) := s in
  do inst <- idx (io96b io96b_ctrl) i ;;
  do f <- for_ctl (get_mem_width_info_intf inst) 0
            (Z.to_nat (num_mem_interface (mb_ctrl inst))) (0, ret) ;;
  match f with
  | Err (_, ret) => mret (GotoErr (io96b_ctrl, total_memory_size, ret))
  | Done (memory_size, ret) =>
      if memory_size =? 0 then mret (GotoErr (io96b_ctrl, total_memory_size, - ENOEXEC))
      else
        let io96b_ctrl :=
          set_io96b (<[i := set_size memory_size inst]> (io96b io96b_ctrl)) io96b_ctrl in
        mret (Continue (io96b_ctrl, u16 (total_memory_size + memory_size), ret))
  end.

(** [get_mem_width_info], lines 471-516. *)
Definition get_mem_width_info (io96b_ctrl : io96b_info) : M (Z * io96b_info) :=
  (* Get all memory interface(s) total memory size on all instance(s) *)
  do f <- for_ctl get_mem_width_info_instance 0 (Z.to_nat (num_instance io96b_ctrl))
            (io96b_ctrl, 0, 0) ;;
  match f with
  | Err (io96b_ctrl, _, ret) => mret (ret, io96b_ctrl)
  | Done (io96b_ctrl, total_memory_size, ret) =>
      if total_memory_size =? 0 then mret (- ENOEXEC, io96b_ctrl)
      else mret (ret, set_overall_size total_memory_size io96b_ctrl)
  end.

(** The body of the inner loop of lines 530-554; the state carries
    [ecc_stat_set] next to the controller data. *)
Definition ecc_enable_status_intf (inst : io96b_instance) (j : nat)
    (s : io96b_info * bool * Z) : M (ctl (io96b_info * bool * Z)) :=
  let '(io96b_ctrl, ecc_stat_set, ret) := s in
  do ip <- idx (ip_type (mb_ctrl inst)) j ;;
  do id <- idx (ip_instance_id (mb_ctrl inst)) j ;;
  do r <- io96b_mb_req (io96b_csr_addr inst) ip id CMD_TRIG_CONTROLLER_OP ECC_ENABLE_STATUS
            0 0 0 0 0 0 0 0 usr_resp_decl ;;
  let '(ret, usr_resp) := r in
  if negb (ret =? 0) then mret (GotoErr (io96b_ctrl, ecc_stat_set, ret))
  else
    let ecc_stat :=
      negb (Z.land (IOSSM_CMD_RESPONSE_DATA_SHORT (cmd_resp_status usr_resp)) (GENMASK 1 0)
            =? 0) in
    let io96b_ctrl :=
      if negb ecc_stat_set then set_ecc_status ecc_stat io96b_ctrl else io96b_ctrl in
    if negb (Bool.eqb ecc_stat (ecc_status io96b_ctrl))
    then mret (GotoErr (io96b_ctrl, true, - ENOEXEC))
    else mret (Continue (io96b_ctrl, true, ret)).

(** The body of the outer loop of lines 529-555. *)
Definition ecc_enable_status_instance (i : nat) (s : io96b_info * bool * Z)
    : M (ctl (io96b_info * bool * Z)) :=
  do inst <- idx (io96b (fst (fst s))) i ;;
  do f <- for_ctl (ecc_enable_status_intf inst) 0
            (Z.to_nat (num_mem_interface (mb_ctrl inst))) s ;;
  match f with
  | Done s1 => mret (Continue s1)
  | Err s1 => mret (GotoErr s1)
  end.

(** [ecc_enable_status], lines 518-561. *)
Definition ecc_enable_status (io96b_ctrl : io96b_info) : M (Z * io96b_info) :=
  (* Initialize ECC status *)
  let io96b_ctrl := set_ecc_status false io96b_ctrl in
  (* Get and ensure all memory interface(s) same ECC status *)
  do f <- for_ctl ecc_enable_status_instance 0 (Z.to_nat (num_instance io96b_ctrl))
            (io96b_ctrl, false, 0) ;;
  match f with
  | Done (io96b_ctrl, _, ret) => mret (ret, io96b_ctrl)
  | Err (io96b_ctrl, _, ret) => mret (ret, io96b_ctrl)
  end.

(** ** The calibration block of [sdram_mmr_init_full] *)

(** [ddr_ecc_dbe_status], lines 883-892. *)
Definition ddr_ecc_dbe_status : M bool :=
  do v <- readl (SOCFPGA_SYSMGR_ADDRESS + SYSMGR_SOC64_BOOT_SCRATCH_COLD8) ;;
  mret (negb (Z.land v ALT_SYSMGR_SCRATCH_REG_8_DDR_DBE_MASK =? 0)).

(** Lines 968-971: every instance is marked as not calibrated; then the
    overall flag is and-ed with the flag of [io96b[i]], [i] being what the
    loop left in it, the number of instances. *)
Definition dbe_recal_flags (io96b_ctrl : io96b_info) : M io96b_info :=
  do l <- for_range (fun i l => do inst <- idx l i ;;
                                mret (<[i := set_cal_status false inst]> l))
            0 (Z.to_nat (num_instance io96b_ctrl)) (io96b io96b_ctrl) ;;
  let io96b_ctrl := set_io96b l io96b_ctrl in
  let i := Z.to_nat (num_instance io96b_ctrl) in
  do inst <- idx (io96b io96b_ctrl) i ;;
  mret (set_overall_cal_status (overall_cal_status io96b_ctrl && cal_status inst)
          io96b_ctrl).

(** Lines 966-978 of [sdram_mmr_init_full]. *)
Definition sdram_mmr_init_full_recal (io96b_ctrl : io96b_info) : M io96b_info :=
  (* Need to trigger re-calibration for DDR DBE *)
  do dbe <- ddr_ecc_dbe_status ;;
  do io96b_ctrl <- (if dbe then dbe_recal_flags io96b_ctrl else mret io96b_ctrl) ;;
  (* Trigger re-calibration if calibration failed *)
  if negb (overall_cal_status io96b_ctrl) then init_mem_cal io96b_ctrl
  else mret io96b_ctrl.

End Driver.

Arguments M dev A : clear implicits.

(** ** Hardware models for running the driver *)

(** One choice of the constants of the header. *)
#[local] Instance sample_header : iossm_header := {|
  IOSSM_CMD_REQ_OFFSET := 0x43C;
  IOSSM_CMD_PARAM_0_OFFSET := 0x438;
  IOSSM_CMD_PARAM_1_OFFSET := 0x434;
  IOSSM_CMD_PARAM_2_OFFSET := 0x430;
  IOSSM_CMD_PARAM_3_OFFSET := 0x42C;
  IOSSM_CMD_PARAM_4_OFFSET := 0x428;
  IOSSM_CMD_PARAM_5_OFFSET := 0x424;
  IOSSM_CMD_PARAM_6_OFFSET := 0x420;
  IOSSM_CMD_RESPONSE_STATUS_OFFSET := 0x45C;
  IOSSM_CMD_RESPONSE_DATA_0_OFFSET := 0x458;
  IOSSM_CMD_RESPONSE_DATA_1_OFFSET := 0x454;
  IOSSM_CMD_RESPONSE_DATA_2_OFFSET := 0x450;
  IOSSM_STATUS_OFFSET := 0x400;
  IOSSM_STATUS_COMMAND_RESPONSE_READY := BIT 0;
  IOSSM_STATUS_CAL_SUCCESS := BIT 0;
  IOSSM_STATUS_CAL_FAIL := BIT 1;
  INTF_MEM_CAL_STATUS_SUCCESS := 1;
  IOSSM_CMD_RESPONSE_DATA_SHORT := fun data => Z.shiftr (Z.land data (GENMASK 31 16)) 16;
  CMD_GET_SYS_INFO := 1;
  CMD_GET_MEM_INFO := 2;
  CMD_TRIG_CONTROLLER_OP := 4;
  CMD_TRIG_MEM_CAL_OP := 5;
  GET_MEM_INTF_INFO := 0x0001;
  GET_MEM_TECHNOLOGY := 0x0002;
  GET_MEM_WIDTH_INFO := 0x0004;
  ECC_ENABLE_STATUS := 0x0102;
  TRIG_MEM_CAL := 0x000a;
  GET_MEM_CAL_STATUS := 0x000b;
  TIMEOUT := 120000;
  TIMEOUT_60000MS := 60000;
  SOCFPGA_SYSMGR_ADDRESS := 0x10D12000;
  SYSMGR_SOC64_BOOT_SCRATCH_COLD8 := 0x220;
  ALT_SYSMGR_SCRATCH_REG_8_DDR_DBE_MASK := BIT 31
|}.

(** A scripted device: the state is the list of the values the coming reads
    return, whatever the address; writes are ignored; a read past the end
    of the script returns 0; no busy-wait polls a second time. *)
Definition script_dev : device := {|
  dstate := list Z;
  dev_readl := fun d _ => match d with [] => (0, []) | v :: d' => (v, d') end;
  dev_writel := fun d _ _ => d;
  dev_polls := fun _ _ => 0%nat
|}.

(** A register file with a sequencer behind the mailbox at [base]: a
    register holds the last value written to it, except that a write of the
    request register starts a command, which completes at once: the request
    register stays idle and the status register shows [status]. *)
Definition mbox_dev (base status : Z) : device := {|
  dstate := Z -> Z;
  dev_readl := fun d a => (d a, d);
  dev_writel := fun d a v => fun a' =>
    if a =? reg base IOSSM_CMD_REQ_OFFSET then
      if a' =? reg base IOSSM_CMD_RESPONSE_STATUS_OFFSET then status else d a'
    else if a' =? a then v else d a';
  dev_polls := fun _ _ => 0%nat
|}.

(** ** Reading traces *)

Definition is_write_to (a : Z) (e : event) : bool :=
  match e with
  | EvWrite a' _ => a' =? a
  | EvRead _ _ => false
  end.

Definition is_read_of (a : Z) (e : event) : bool :=
  match e with
  | EvRead a' _ => a' =? a
  | EvWrite _ _ => false
  end.

Definition ev_val (e : event) : Z :=
  match e with
  | EvRead _ v => v
  | EvWrite _ v => v
  end.

Definition ev_addr (e : event) : Z :=
  match e with
  | EvRead a _ => a
  | EvWrite a _ => a
  end.

(** The values written to the register at [a], in the order of the writes. *)
Definition writes_to (a : Z) (t : list event) : list Z :=
  ev_val <$> List.filter (is_write_to a) t.

(** The values read from the register at [a], in the order of the reads. *)
Definition reads_of (a : Z) (t : list event) : list Z :=
  ev_val <$> List.filter (is_read_of a) t.

(** The offsets of the mailbox registers. *)
Definition mailbox_offsets `{iossm_header} : list Z :=
  [IOSSM_CMD_REQ_OFFSET;
   IOSSM_CMD_PARAM_0_OFFSET; IOSSM_CMD_PARAM_1_OFFSET; IOSSM_CMD_PARAM_2_OFFSET;
   IOSSM_CMD_PARAM_3_OFFSET; IOSSM_CMD_PARAM_4_OFFSET; IOSSM_CMD_PARAM_5_OFFSET;
   IOSSM_CMD_PARAM_6_OFFSET;
   IOSSM_CMD_RESPONSE_STATUS_OFFSET;
   IOSSM_CMD_RESPONSE_DATA_0_OFFSET; IOSSM_CMD_RESPONSE_DATA_1_OFFSET;
   IOSSM_CMD_RESPONSE_DATA_2_OFFSET].

(** The mailbox registers of the instance at [base]. *)
Definition mailbox_regs `{iossm_header} (base : Z) : list Z :=
  reg base <$> mailbox_offsets.

(** ** Further functions of the driver

    [bist_mem_init_start] of the mailbox driver, and of the SDRAM driver
    that follows it in the file the progress flag ([is_ddr_init_hang],
    [ddr_init_inprogress]), the sideband manager
    ([config_mpfe_sideband_mgr]), [update_io96b_assigned_to_hps] and the
    IO96B branch of [populate_ddr_handoff]. *)

(** Constants of iossm_mailbox.h and of the platform headers that the
    functions below use; like the others they are parameters. *)
Class platform_header := {
  BIST_MEM_INIT_START : Z;
  BIST_MEM_INIT_STATUS : Z;
  SOCFPGA_F2SDRAM_MGR_ADDRESS : Z;
  ALT_SYSMGR_SCRATCH_REG_8_DDR_PROGRESS_MASK : Z;
  ALT_SYSMGR_SCRATCH_REG_8_OCRAM_DBE_MASK : Z;
  ALT_SYSMGR_SCRATCH_REG_8_IO96B_HPS_MASK : Z;
  MAX_IO96B_SUPPORTED : Z;
  FDT_ADDR_T_NONE : Z
}.

Definition EINVAL : Z := 22.

(** [FIELD_PREP] of linux/bitfield.h, the counterpart of [FIELD_GET]. *)
Definition FIELD_PREP (mask val : Z) : Z := Z.land (Z.shiftl val (bf_shf mask)) mask.

Definition set_num_instance (n : Z) (c : io96b_info) : io96b_info :=
  {| num_instance := n; overall_cal_status := overall_cal_status c;
     ddr_type := ddr_type c; ecc_status := ecc_status c;
     overall_size := overall_size c; io96b := io96b c;
     ckgen_lock := ckgen_lock c; io96b_pll := io96b_pll c |}.

Definition set_io96b_csr_addr (a : Z) (x : io96b_instance) : io96b_instance :=
  {| size := size x; io96b_csr_addr := a;
     cal_status := cal_status x; mb_ctrl := mb_ctrl x |}.

(** lines 656-669 *)
Definition F2SDRAM_SIDEBAND_FLAGOUTSET0 : Z := 0x50.
Definition F2SDRAM_SIDEBAND_FLAGOUTSTATUS0 : Z := 0x58.
Definition SIDEBANDMGR_FLAGOUTSET0_REG_MULTICHANNEL : Z := BIT 4.
Definition SIDEBANDMGR_FLAGOUTSET0_REG_INTERLEAVING : Z := BIT 5.

Section DriverMore.
Context (dev : device).
Context {hdr : iossm_header} {plat : platform_header}.

Notation "'do' x <- m ;; k" := (mbind dev m (fun x => k))
  (at level 10, x name, m at level 99, k at level 200, only parsing).

Definition SIDEBANDMGR_FLAGOUTSET0_REG : Z :=
  SOCFPGA_F2SDRAM_MGR_ADDRESS + F2SDRAM_SIDEBAND_FLAGOUTSET0.
Definition SIDEBANDMGR_FLAGOUTSTATUS0_REG : Z :=
  SOCFPGA_F2SDRAM_MGR_ADDRESS + F2SDRAM_SIDEBAND_FLAGOUTSTATUS0.

(** Modelled from the spec: [setbits_le32] of asm/io.h, a read of the
    register followed by a write of the value with the bits set. *)
Definition setbits_le32 (addr set : Z) : M dev unit :=
  do v <- readl dev addr ;; writel dev (Z.lor v set) addr.

(** [is_ddr_init_hang], lines 687-697. *)
Definition is_ddr_init_hang : M dev bool :=
  do v <- readl dev (SOCFPGA_SYSMGR_ADDRESS + SYSMGR_SOC64_BOOT_SCRATCH_COLD8) ;;
  mret dev (negb (Z.land v ALT_SYSMGR_SCRATCH_REG_8_DDR_PROGRESS_MASK =? 0)).

(** [ddr_init_inprogress], lines 699-709. *)
Definition ddr_init_inprogress (start : bool) : M dev unit :=
  if start then
    setbits_le32 (SOCFPGA_SYSMGR_ADDRESS + SYSMGR_SOC64_BOOT_SCRATCH_COLD8)
      ALT_SYSMGR_SCRATCH_REG_8_DDR_PROGRESS_MASK
  else
    clrbits_le32 dev (SOCFPGA_SYSMGR_ADDRESS + SYSMGR_SOC64_BOOT_SCRATCH_COLD8)
      ALT_SYSMGR_SCRATCH_REG_8_DDR_PROGRESS_MASK.

(** [update_io96b_assigned_to_hps], lines 736-745. *)
Definition update_io96b_assigned_to_hps (num_io96b_instance : Z) : M dev unit :=
  do reg <- readl dev (SOCFPGA_SYSMGR_ADDRESS + SYSMGR_SOC64_BOOT_SCRATCH_COLD8) ;;
  let reg := Z.land reg (u32 (Z.lnot ALT_SYSMGR_SCRATCH_REG_8_IO96B_HPS_MASK)) in
  writel dev
    (Z.lor reg (FIELD_PREP ALT_SYSMGR_SCRATCH_REG_8_IO96B_HPS_MASK (u8 num_io96b_instance)))
    (SOCFPGA_SYSMGR_ADDRESS + SYSMGR_SOC64_BOOT_SCRATCH_COLD8).

(** The body of the loop of lines 821-833 of [populate_ddr_handoff];
    [dev_read_addr_index i] is what the device tree gives for the register
    block [i] of the device, [handoff_table] the handoff words read at the
    start of the function.  The state is the controller data and [count]. *)
Definition populate_io96b_slot (dev_read_addr_index : Z -> Z) (handoff_table : list Z)
    (i : nat) (s : io96b_info * Z) : M dev (ctl (io96b_info * Z)) :=
  let '(io96b_ctrl, count) := s in
  let addr := dev_read_addr_index (Z.of_nat i + 1) in
  if addr =? FDT_ADDR_T_NONE then mret dev (GotoErr (io96b_ctrl, count))
  else
    do w <- idx dev handoff_table 1 ;;
    if negb (Z.land w (BIT (Z.of_nat i)) =? 0) then
      do inst <- idx dev (io96b io96b_ctrl) i ;;
      mret dev (Continue
                  (set_io96b (<[i := set_io96b_csr_addr addr inst]> (io96b io96b_ctrl))
                     io96b_ctrl,
                   u8 (count + 1)))
    else mret dev (Continue s).

(** The IO96B branch of [populate_ddr_handoff], lines 819-840: what the
    function does to the controller data and returns when the handoff says
    that the memory is DDR. *)
Definition populate_ddr_handoff_io96b (dev_read_addr_index : Z -> Z) (handoff_table : list Z)
    (io96b_ctrl : io96b_info) : M dev (Z * io96b_info) :=
  (* Assign IO96B CSR base address if it is valid *)
  do f <- for_ctl dev (populate_io96b_slot dev_read_addr_index handoff_table) 0
            (Z.to_nat MAX_IO96B_SUPPORTED) (io96b_ctrl, 0) ;;
  match f with
  | Err (io96b_ctrl, _) => mret dev (- EINVAL, io96b_ctrl)
  | Done (io96b_ctrl, count) =>
      let io96b_ctrl := set_num_instance count io96b_ctrl in
      do _ <- update_io96b_assigned_to_hps count ;;
      mret dev (0, io96b_ctrl)
  end.

(** [hps_ocram_dbe_status], lines 872-881. *)
Definition hps_ocram_dbe_status : M dev bool :=
  do v <- readl dev (SOCFPGA_SYSMGR_ADDRESS + SYSMGR_SOC64_BOOT_SCRATCH_COLD8) ;;
  mret dev (negb (Z.land v ALT_SYSMGR_SCRATCH_REG_8_OCRAM_DBE_MASK =? 0)).

(** [config_mpfe_sideband_mgr], lines 844-870; the argument is
    [plat->multichannel_interleaving]. *)
Definition config_mpfe_sideband_mgr (multichannel_interleaving : bool) : M dev Z :=
  let mask := if multichannel_interleaving
              then SIDEBANDMGR_FLAGOUTSET0_REG_INTERLEAVING
              else SIDEBANDMGR_FLAGOUTSET0_REG_MULTICHANNEL in
  do _ <- setbits_le32 SIDEBANDMGR_FLAGOUTSET0_REG mask ;;
  do reg <- readl dev SIDEBANDMGR_FLAGOUTSTATUS0_REG ;;
  if Z.land reg mask =? SIDEBANDMGR_FLAGOUTSET0_REG_INTERLEAVING then mret dev 0
  else if Z.land reg mask =? SIDEBANDMGR_FLAGOUTSET0_REG_MULTICHANNEL then mret dev 0
  else mret dev (- 1).

(** The [while] loop of lines 602-624 for one interface; [polls] is the
    number of further rounds that fit before the timer passes [TIMEOUT].
    The result is [bist_success] with the response structure. *)
Fixpoint bist_status_poll (polls : nat) (io96b_csr_addr ip id : Z)
    (usr_resp : io96b_mb_resp) : M dev (bool * io96b_mb_resp) :=
  do r <- io96b_mb_req dev io96b_csr_addr ip id CMD_TRIG_CONTROLLER_OP BIST_MEM_INIT_STATUS
            0 0 0 0 0 0 0 0 usr_resp ;;
  let usr_resp := snd r in
  let bist_success :=
    negb (Z.land (IOSSM_CMD_RESPONSE_DATA_SHORT (cmd_resp_status usr_resp)) (BIT 0) =? 0) in
  if bist_success then mret dev (true, usr_resp)
  else match polls with
       | O => mret dev (false, usr_resp)
       | Datatypes.S p => bist_status_poll p io96b_csr_addr ip id usr_resp
       end.

(** The body of the inner loop of lines 572-625. *)
Definition bist_mem_init_start_intf (inst : io96b_instance) (j : nat)
    (s : io96b_mb_resp * Z) : M dev (ctl (io96b_mb_resp * Z)) :=
  let '(usr_resp, ret) := s in
  do ip <- idx dev (ip_type (mb_ctrl inst)) j ;;
  do id <- idx dev (ip_instance_id (mb_ctrl inst)) j ;;
  (* Start memory initialization BIST on full memory address *)
  do r <- io96b_mb_req dev (io96b_csr_addr inst) ip id CMD_TRIG_CONTROLLER_OP
            BIST_MEM_INIT_START 0x40 0 0 0 0 0 0 0 usr_resp ;;
  let '(ret, usr_resp) := r in
  if negb (ret =? 0) then mret dev (GotoErr (usr_resp, ret))
  else
    let bist_start :=
      negb (Z.land (IOSSM_CMD_RESPONSE_DATA_SHORT (cmd_resp_status usr_resp)) (BIT 0) =? 0) in
    if negb bist_start then mret dev (GotoErr (usr_resp, - ENOEXEC))
    else
      (* Polling for the initiated memory initialization BIST status *)
      do r <- (fun d => bist_status_poll (dev_polls dev d TIMEOUT) (io96b_csr_addr inst)
                          ip id usr_resp d) ;;
      let '(bist_success, usr_resp) := r in
      if bist_success then mret dev (Continue (usr_resp, ret))
      else mret dev (GotoErr (usr_resp, - ETIMEDOUT)).

(** The body of the outer loop of lines 571-628. *)
Definition bist_mem_init_start_instance (io96b_ctrl : io96b_info) (i : nat)
    (s : io96b_mb_resp * Z) : M dev (ctl (io96b_mb_resp * Z)) :=
  do inst <- idx dev (io96b io96b_ctrl) i ;;
  do f <- for_ctl dev (bist_mem_init_start_intf inst) 0
            (Z.to_nat (num_mem_interface (mb_ctrl inst))) s ;;
  match f with
  | Done s1 => mret dev (Continue s1)
  | Err s1 => mret dev (GotoErr s1)
  end.

(** [bist_mem_init_start], lines 563-632. *)
Definition bist_mem_init_start (io96b_ctrl : io96b_info) : M dev Z :=
  (* Full memory initialization BIST performed on all memory interface(s) *)
  do f <- for_ctl dev (bist_mem_init_start_instance io96b_ctrl) 0
            (Z.to_nat (num_instance io96b_ctrl)) (usr_resp_decl, 0) ;;
  match f with
  | Done (_, ret) => mret dev ret
  | Err (_, ret) => mret dev ret
  end.

End DriverMore.

(** One choice of the further constants. *)
#[local] Instance sample_platform : platform_header := {|
  BIST_MEM_INIT_START := 0x0201;
  BIST_MEM_INIT_STATUS := 0x0202;
  SOCFPGA_F2SDRAM_MGR_ADDRESS := 0x18001000;
  ALT_SYSMGR_SCRATCH_REG_8_DDR_PROGRESS_MASK := BIT 30;
  ALT_SYSMGR_SCRATCH_REG_8_OCRAM_DBE_MASK := BIT 29;
  ALT_SYSMGR_SCRATCH_REG_8_IO96B_HPS_MASK := GENMASK 28 27;
  MAX_IO96B_SUPPORTED := 2;
  FDT_ADDR_T_NONE := 2 ^ 64 - 1
|}.

(** A plain register file: a register holds the last value written to it. *)
Definition regfile_dev : device := {|
  dstate := Z -> Z;
  dev_readl := fun d a => (d a, d);
  dev_writel := fun d a v => fun a' => if a' =? a then v else d a';
  dev_polls := fun _ _ => 0%nat
|}.

(** ** Vocabulary of the specifications *)

Section Runs.
Context (dev : device) {hdr : iossm_header}.

(** A trace of polls of the register at [a]. *)
Definition polls_of (a : Z) (t : list event) : Prop :=
  Forall (fun e => exists v, e = EvRead a v /\ 0 <= v < 2 ^ 32) t.

(** What the parameter loop of lines 131-164 writes. *)
Definition param_event (base p off : Z) : list event :=
  if p =? 0 then [] else [EvWrite (reg base off) (u32 p)].

Definition param_trace (base p0 p1 p2 p3 p4 p5 : Z) : list event :=
  param_event base p0 IOSSM_CMD_PARAM_0_OFFSET ++
  param_event base p1 IOSSM_CMD_PARAM_1_OFFSET ++
  param_event base p2 IOSSM_CMD_PARAM_2_OFFSET ++
  param_event base p3 IOSSM_CMD_PARAM_3_OFFSET ++
  param_event base p4 IOSSM_CMD_PARAM_4_OFFSET ++
  param_event base p5 IOSSM_CMD_PARAM_5_OFFSET.

(** The registers the data loop of lines 194-220 reads. *)
Definition data_regs (base : Z) : list Z :=
  [reg base IOSSM_CMD_RESPONSE_DATA_0_OFFSET; reg base IOSSM_CMD_RESPONSE_DATA_1_OFFSET;
   reg base IOSSM_CMD_RESPONSE_DATA_2_OFFSET].

Definition data_reads (base : Z) (t : list event) : Prop :=
  Forall (fun e => exists a v, e = EvRead a v /\ a ∈ data_regs base) t.

(** The response structure after the zeroing of lines 117-119. *)
Definition zeroed (resp : io96b_mb_resp) : io96b_mb_resp :=
  {| cmd_resp_status := 0;
     cmd_resp_data := foldl (fun d i => <[i := 0]> d) (cmd_resp_data resp)
                        (seq 0 NUM_CMD_RESPONSE_DATA) |}.

Definition ack_value (v : Z) : Z :=
  u32 (Z.land v (u32 (Z.lnot IOSSM_STATUS_COMMAND_RESPONSE_READY))).

(** The three ways a mailbox request can go, with the register accesses of
    each: the request register never becomes idle; the command is sent and
    no response becomes ready; the command is sent, the response is read
    and acknowledged. *)
Inductive mb_req_run (base ip id ty op p0 p1 p2 p3 p4 p5 len : Z) (resp : io96b_mb_resp)
    (d : dstate dev) : outcome (Z * io96b_mb_resp) * dstate dev * list event -> Prop :=
  | mb_not_ready d1 t1 :
      wait_for_bit_le32 dev (reg base IOSSM_CMD_REQ_OFFSET) (GENMASK 31 0) false TIMEOUT d
        = (Ret (- ETIMEDOUT), d1, t1) ->
      polls_of (reg base IOSSM_CMD_REQ_OFFSET) t1 ->
      mb_req_run base ip id ty op p0 p1 p2 p3 p4 p5 len resp d
        (Ret (- ETIMEDOUT, zeroed resp), d1, t1)
  | mb_timeout d1 t0 t2 v d3 :
      wait_for_bit_le32 dev (reg base IOSSM_CMD_REQ_OFFSET) (GENMASK 31 0) false TIMEOUT d
        = (Ret 0, d1, t0 ++ [EvRead (reg base IOSSM_CMD_REQ_OFFSET) 0]) ->
      polls_of (reg base IOSSM_CMD_REQ_OFFSET) t0 ->
      polls_of (reg base IOSSM_CMD_RESPONSE_STATUS_OFFSET) t2 ->
      mb_req_run base ip id ty op p0 p1 p2 p3 p4 p5 len resp d
        (Ret (- ETIMEDOUT, zeroed resp), d3,
         (t0 ++ [EvRead (reg base IOSSM_CMD_REQ_OFFSET) 0]) ++
         param_trace base p0 p1 p2 p3 p4 p5 ++
         [EvWrite (reg base IOSSM_CMD_REQ_OFFSET) (u32 (cmd_req_word ip id ty op))] ++
         t2 ++ [EvRead (reg base IOSSM_CMD_RESPONSE_STATUS_OFFSET) v])
  | mb_success d1 t0 t2 st0 dx dy td l' st v v' dr d3 :
      wait_for_bit_le32 dev (reg base IOSSM_CMD_REQ_OFFSET) (GENMASK 31 0) false TIMEOUT d
        = (Ret 0, d1, t0 ++ [EvRead (reg base IOSSM_CMD_REQ_OFFSET) 0]) ->
      polls_of (reg base IOSSM_CMD_REQ_OFFSET) t0 ->
      polls_of (reg base IOSSM_CMD_RESPONSE_STATUS_OFFSET) t2 ->
      for_range dev (read_resp_data dev base) 0 (Z.to_nat len) (cmd_resp_data (zeroed resp)) dx
        = (Ret l', dy, td) ->
      0 <= st < 2 ^ 32 ->
      dev_readl dev dr (reg base IOSSM_CMD_RESPONSE_STATUS_OFFSET)
        = (fst (dev_readl dev dr (reg base IOSSM_CMD_RESPONSE_STATUS_OFFSET)), d3) ->
      v' = u32 (fst (dev_readl dev dr (reg base IOSSM_CMD_RESPONSE_STATUS_OFFSET))) ->
      (exists dq, dr = dev_writel dev dq (reg base IOSSM_CMD_RESPONSE_STATUS_OFFSET)
                      (ack_value v)) ->
      mb_req_run base ip id ty op p0 p1 p2 p3 p4 p5 len resp d
        (Ret (0, {| cmd_resp_status := st; cmd_resp_data := l' |}), d3,
         (t0 ++ [EvRead (reg base IOSSM_CMD_REQ_OFFSET) 0]) ++
         param_trace base p0 p1 p2 p3 p4 p5 ++
         [EvWrite (reg base IOSSM_CMD_REQ_OFFSET) (u32 (cmd_req_word ip id ty op))] ++
         t2 ++ [EvRead (reg base IOSSM_CMD_RESPONSE_STATUS_OFFSET) st0] ++ td ++
         [EvRead (reg base IOSSM_CMD_RESPONSE_STATUS_OFFSET) st;
          EvRead (reg base IOSSM_CMD_RESPONSE_STATUS_OFFSET) v;
          EvWrite (reg base IOSSM_CMD_RESPONSE_STATUS_OFFSET) (ack_value v);
          EvRead (reg base IOSSM_CMD_RESPONSE_STATUS_OFFSET) v']).

(** The status register keeps what is written to it: a read that follows a
    write of [v] returns [v]. *)
Definition status_holds (base : Z) : Prop :=
  forall dq v,
    u32 (fst (dev_readl dev (dev_writel dev dq (reg base IOSSM_CMD_RESPONSE_STATUS_OFFSET) v)
                (reg base IOSSM_CMD_RESPONSE_STATUS_OFFSET))) = u32 v.

(** The fields of a word of the GET_MEM_INTF_INFO response, lines 269-271. *)
Definition intf_ip_type (word : Z) : Z := u8 (FIELD_GET INTF_IP_TYPE_MASK word).
Definition intf_instance_id (word : Z) : Z := u8 (FIELD_GET INTF_INSTANCE_ID_MASK word).

(** The word describes an interface that is there: its IP type is not 0. *)
Definition intf_present (word : Z) : bool := negb (intf_ip_type word =? 0).

(** The first [n] rounds of a loop, from index [i0] on, when each of them
    runs to its end without [break] and without [goto err]: the state, the
    hardware and the trace after them. *)
Fixpoint rounds {S} (body : nat -> S -> M dev (ctl S)) (i0 n : nat) (s : S)
    (d : dstate dev) : option (S * dstate dev * list event) :=
  match n with
  | O => Some (s, d, [])
  | Datatypes.S n' =>
      match body i0 s d with
      | (Ret (Continue s1), d1, t1) =>
          match rounds body (Datatypes.S i0) n' s1 d1 with
          | Some (s2, d2, t2) => Some (s2, d2, t1 ++ t2)
          | None => None
          end
      | _ => None
      end
  end.

(** A trigger-calibration command: a write of the request register of the
    instance at [base] whose opcode field (the low 16 bits) is TRIG_MEM_CAL. *)
Definition is_trigger (base : Z) (e : event) : bool :=
  match e with
  | EvWrite a w => (a =? reg base IOSSM_CMD_REQ_OFFSET) && (u16 w =? u16 TRIG_MEM_CAL)
  | EvRead _ _ => false
  end.

Definition trigger_count (base : Z) (t : list event) : nat :=
  length (List.filter (is_trigger base) t).

(** The next read of the live calibration status of interface [j], at the
    offset the last status query returned, reports success. *)
Definition live_success (inst : io96b_instance) (j : nat) (usr_resp : io96b_mb_resp)
    (d : dstate dev) : bool :=
  match cmd_resp_data usr_resp !! j with
  | Some cal_stat_offset =>
      u8 (u32 (fst (dev_readl dev d (reg (io96b_csr_addr inst) cal_stat_offset))))
        =? INTF_MEM_CAL_STATUS_SUCCESS
  | None => false
  end.

(** The read of the live calibration status itself, as a trace. *)
Definition live_read (inst : io96b_instance) (j : nat) (usr_resp : io96b_mb_resp)
    (d : dstate dev) : list event :=
  match cmd_resp_data usr_resp !! j with
  | Some cal_stat_offset =>
      [EvRead (reg (io96b_csr_addr inst) cal_stat_offset)
         (u32 (fst (dev_readl dev d (reg (io96b_csr_addr inst) cal_stat_offset))))]
  | None => []
  end.

(** The size fields the instance at [base] reported: the low 8 bits of the
    values read from its second response data register, in order. *)
Definition widths_read (base : Z) (t : list event) : list Z :=
  (fun word => Z.land word (GENMASK 7 0))
    <$> reads_of (reg base IOSSM_CMD_RESPONSE_DATA_1_OFFSET) t.

Definition Zsum (l : list Z) : Z := foldr Z.add 0 l.

(** The mailbox registers of the instances in [l], one instance after the
    other. *)
Definition all_mailbox_regs (l : list io96b_instance) : list Z :=
  concat ((fun inst => mailbox_regs (io96b_csr_addr inst)) <$> l).

(** Every access of the trace goes to one of the registers in [regs]. *)
Definition within (regs : list Z) (t : list event) : Prop :=
  Forall (fun e => ev_addr e ∈ regs) t.

End Runs.

#[global] Arguments u8 : simpl never.
#[global] Arguments u16 : simpl never.
#[global] Arguments u32 : simpl never.
#[global] Arguments u64 : simpl never.
#[global] Arguments reg : simpl never.
#[global] Arguments FIELD_GET : simpl never.
#[global] Arguments intf_ip_type : simpl never.
#[global] Arguments intf_instance_id : simpl never.
#[global] Arguments intf_present : simpl never.

(** ** Inputs for running the driver *)

(** The overall flag the controller data should carry: every instance in
    use has passed calibration. *)
Definition all_cal_passed (io96b_ctrl : io96b_info) : bool :=
  forallb cal_status (take (Z.to_nat (num_instance io96b_ctrl)) (io96b io96b_ctrl)).

(** What [script_dev] has to answer to the reads of a request that
    succeeds: the request register idle, the status ready, then the status
    word [st], [data] for the data registers, and the status three times
    more (second read, read of [clrbits_le32], last read). *)
Definition ok_reads (st : Z) (data : list Z) : list Z :=
  [0; 1; st] ++ data ++ [st; st; st].

(** A status word with short-data field [short] and the ready bit. *)
Definition status_word (short : Z) : Z := Z.lor (Z.shiftl short 16) 1.

Definition sample_mb_ctrl (n : Z) : io96b_mb_ctrl :=
  {| num_mem_interface := n; ip_type := [1; 1; 1]; ip_instance_id := [0; 1; 2] |}.

Definition sample_instance (base : Z) (cal : bool) (n : Z) : io96b_instance :=
  {| size := 0; io96b_csr_addr := base; cal_status := cal; mb_ctrl := sample_mb_ctrl n |}.

Definition sample_ctrl (overall : bool) (l : list io96b_instance) (n : Z) : io96b_info :=
  {| num_instance := n; overall_cal_status := overall; ddr_type := "";
     ecc_status := false; overall_size := 0; io96b := l;
     ckgen_lock := false; io96b_pll := 0 |}.

(** What [script_dev] has to answer to a retry round that fails: a live
    status of 0, then a trigger command and a status query that succeed,
    the query returning the offset [off] for the first interface. *)
Definition failed_round (off : Z) : list Z :=
  [0] ++ ok_reads (status_word 1) [0; 0] ++ ok_reads (status_word 0) [off; 0].

(** Two instances, neither calibrated, one interface each: the first
    recovers at its first read, the second never does. *)
Definition recal_ctrl : io96b_info :=
  sample_ctrl false [sample_instance 0x1000 false 1; sample_instance 0x2000 false 1] 2.

Definition recal_script : list Z :=
  ok_reads (status_word 0) [0x400; 0] ++ [1] ++
  ok_reads (status_word 0) [0x400; 0] ++
  failed_round 0x400 ++ failed_round 0x400 ++ failed_round 0x400.

(** One instance in use, calibrated, and a second slot of the array that is
    not in use and happens to hold a set flag. *)
Definition dbe_ctrl : io96b_info :=
  sample_ctrl true [sample_instance 0x1000 true 1; sample_instance 0 true 0] 1.

(** Two interfaces of one instance; the first reports the type code 6
    ("UNKNOWN"), the second the code 0 ("DDR4"). *)
Definition tech_ctrl : io96b_info := sample_ctrl true [sample_instance 0x1000 true 2] 1.

Definition tech_script (first second : Z) : list Z :=
  ok_reads (status_word first) [] ++ ok_reads (status_word second) [].

(** A response to GET_MEM_INTF_INFO that counts two interfaces; the first
    data word has IP type 1 and instance id 2, the second IP type 0. *)
Definition intf_script : list Z := ok_reads (status_word 2) [0x22000000; 0x03000000].

Definition intf_resp : io96b_mb_resp :=
  {| cmd_resp_status := status_word 2; cmd_resp_data := [0x22000000; 0x03000000; 0] |}.

(** An instance whose table holds left-over values. *)
Definition intf_instance : io96b_instance :=
  {| size := 0; io96b_csr_addr := 0x1000; cal_status := false;
     mb_ctrl := {| num_mem_interface := 0; ip_type := [7; 7; 7];
                   ip_instance_id := [9; 9; 9] |} |}.

Definition intf_ctrl : io96b_info := sample_ctrl false [intf_instance] 1.

(** An instance with three interfaces of sizes 8, 8 and 4 and one with a
    single interface of size 6. *)
Definition width_ctrl : io96b_info :=
  sample_ctrl true [sample_instance 0x1000 true 3; sample_instance 0x2000 true 1] 2.

Definition width_script : list Z :=
  ok_reads (status_word 0) [0; 8] ++ ok_reads (status_word 0) [0; 8] ++
  ok_reads (status_word 0) [0; 4] ++ ok_reads (status_word 0) [0; 6].

(** One instance that is not calibrated, with one interface: the first
    two reads of the live status fail, the third succeeds. *)
Definition retry_ctrl : io96b_info := sample_ctrl false [sample_instance 0x1000 false 1] 1.

Definition retry_resp : io96b_mb_resp :=
  {| cmd_resp_status := status_word 0; cmd_resp_data := [0x400; 0; 0] |}.

Definition retry_script : list Z :=
  ok_reads (status_word 0) [0x400; 0] ++ failed_round 0x400 ++ failed_round 0x400 ++ [1].

Definition width_result : io96b_info :=
  set_overall_size 26
    (set_io96b [set_size 20 (sample_instance 0x1000 true 3);
                set_size 6 (sample_instance 0x2000 true 1)] width_ctrl).

Definition retry_inst : io96b_instance := sample_instance 0x1000 false 1.

(** ** Inputs for the further functions *)

(** A request with the parameters 0, 2 and 5 given. *)
Definition param_run : outcome (Z * io96b_mb_resp) * list Z * list event :=
  io96b_mb_req script_dev 0x1000 3 5 2 4 0x40 0 9 0 0 7 0 2 usr_resp_decl
    (ok_reads (status_word 0) [7; 8]).

(** The instance of [retry_ctrl] after a calibration that passed. *)
Definition cal_result : io96b_info :=
  set_overall_cal_status true
    (set_io96b [set_cal_status true (sample_instance 0x1000 false 1)] retry_ctrl).

(** [recal_ctrl] after the first instance has recovered. *)
Definition recal_result : io96b_info :=
  set_overall_cal_status true
    (set_io96b [set_cal_status true (sample_instance 0x1000 false 1);
                sample_instance 0x2000 false 1] recal_ctrl).

(** The BIST on the two interfaces of [tech_ctrl]: each start command is
    answered with the start bit, each first status command with the
    success bit. *)
Definition bist_script : list Z :=
  ok_reads (status_word 1) [] ++ ok_reads (status_word 1) [] ++
  ok_reads (status_word 1) [] ++ ok_reads (status_word 1) [].

(** [intf_ctrl] after the enumeration answered by [intf_script]. *)
Definition intf_result : io96b_info :=
  set_io96b
    [set_mb_ctrl {| num_mem_interface := 2; ip_type := [1; 7; 7];
                    ip_instance_id := [2; 9; 9] |} intf_instance] intf_ctrl.

(** A handoff that enables the second instance only; register block [i]
    of the device is at [0x1000 * i]. *)
Definition handoff_words : list Z := [0; 2; 0; 0; 0].

Definition handoff_addr (i : Z) : Z := 0x1000 * i.

Definition handoff_ctrl : io96b_info :=
  sample_ctrl false [sample_instance 0 false 0; sample_instance 0 false 0] 0.

Definition handoff_result : io96b_info :=
  set_num_instance 1
    (set_io96b [sample_instance 0 false 0; sample_instance 0x2000 false 0] handoff_ctrl).

(** The same handoff with the first instance enabled as well, on a device
    tree that lacks the second register block. *)
Definition handoff_words_both : list Z := [0; 3; 0; 0; 0].

Definition handoff_addr_short (i : Z) : Z := if i =? 1 then 0x1000 else FDT_ADDR_T_NONE.

Definition handoff_partial : io96b_info :=
  set_io96b [sample_instance 0x1000 false 0; sample_instance 0 false 0] handoff_ctrl.

(** ** Further vocabulary *)

Section MoreRuns.
Context (dev : device).

(** The register at [a] keeps what is written to it: a read that follows a
    write of [v] returns [v]. *)
Definition reg_holds (a : Z) : Prop :=
  forall d v, u32 (fst (dev_readl dev (dev_writel dev d a v) a)) = u32 v.

(** The run does not end in [hang]. *)
Definition no_hang {A} (r : outcome A * dstate dev * list event) : Prop :=
  fst (fst r) <> Hang.

End MoreRuns.

(** ** The enumeration *)

Section Enumeration.
Context (dev : device) {hdr : iossm_header}.

(** The interface count of a GET_MEM_INTF_INFO response: the low two bits
    of the short data of its status word. *)
Definition intf_count (usr_resp : io96b_mb_resp) : Z :=
  Z.land (IOSSM_CMD_RESPONSE_DATA_SHORT (cmd_resp_status usr_resp)) 3.

(** Those of the first [intf_count] data words of the response that
    describe an interface that is there. *)
Definition intf_found (usr_resp : io96b_mb_resp) : list Z :=
  List.filter intf_present (take (Z.to_nat (intf_count usr_resp)) (cmd_resp_data usr_resp)).

(** The mailbox table of the instance [inst] once the response [usr_resp]
    has been worked in: the count of the response, and the pairs of the
    words found, from slot 0 on, over what the tables held. *)
Definition intf_table (inst : io96b_instance) (usr_resp : io96b_mb_resp) : io96b_mb_ctrl :=
  {| num_mem_interface := intf_count usr_resp;
     ip_type := list_inserts 0 (intf_ip_type <$> intf_found usr_resp) (ip_type (mb_ctrl inst));
     ip_instance_id :=
       list_inserts 0 (intf_instance_id <$> intf_found usr_resp)
         (ip_instance_id (mb_ctrl inst)) |}.

(** The instance with that table. *)
Definition intf_recorded (inst : io96b_instance) (usr_resp : io96b_mb_resp) : io96b_instance :=
  set_mb_ctrl (intf_table inst usr_resp) inst.

(** The hardware answers the GET_MEM_INTF_INFO command of each of the
    instances [l], one after the other from the state [d]: the responses,
    the state after the last and the register accesses. *)
Fixpoint intf_info_answers (l : list io96b_instance) (d : dstate dev)
    : option (list io96b_mb_resp * dstate dev * list event) :=
  match l with
  | [] => Some ([], d, [])
  | inst :: l' =>
      match io96b_mb_req dev (io96b_csr_addr inst) 0 0 CMD_GET_SYS_INFO GET_MEM_INTF_INFO
              0 0 0 0 0 0 0 2 usr_resp_decl d with
      | (Ret (ret, usr_resp), d1, t1) =>
          if ret =? 0 then
            match intf_info_answers l' d1 with
            | Some (rs, d2, t2) => Some (usr_resp :: rs, d2, t1 ++ t2)
            | None => None
            end
          else None
      | _ => None
      end
  end.

(** The interfaces that the rest of the driver works on: the first
    [num_mem_interface] pairs of the table. *)
Definition interfaces_in_use (mb : io96b_mb_ctrl) : list (Z * Z) :=
  take (Z.to_nat (num_mem_interface mb)) (zip (ip_type mb) (ip_instance_id mb)).

End Enumeration.

(** The slots that the handoff word [w] enables, among the first [n]. *)
Definition enabled_slots (w : Z) (n : nat) : list nat :=
  List.filter (fun i => Z.testbit w (Z.of_nat i)) (seq 0 n).

(** ** The calibration retry, as the specification words it

    For each memory interface of an instance that is not calibrated: query
    the calibration status, whose response gives the offset of the
    interface's live status; then, up to three times, read the live
    status; on success the interface is recovered; otherwise send a trigger
    command addressed to the interface and query the status again.  The
    definitions below say what the hardware answers in such an exchange;
    they are given by the transport [io96b_mb_req] and the register reads
    alone. *)

Section Recalibration.
Context (dev : device) {hdr : iossm_header}.

(** The hardware after the read of the live status of interface [j]. *)
Definition live_after (inst : io96b_instance) (j : nat) (usr_resp : io96b_mb_resp)
    (d : dstate dev) : dstate dev :=
  match cmd_resp_data usr_resp !! j with
  | Some cal_stat_offset => snd (dev_readl dev d (reg (io96b_csr_addr inst) cal_stat_offset))
  | None => d
  end.

(** A failed attempt on interface [j]: the live status, at the offset that
    the last status response [usr_resp] gives, does not report success; the
    trigger command addressed to the interface and the status query after
    it are both answered.  The result is the response to that query, the
    hardware after it and the register accesses of the attempt. *)
Definition failed_attempt (inst : io96b_instance) (j : nat) (usr_resp : io96b_mb_resp)
    (d : dstate dev) : option (io96b_mb_resp * dstate dev * list event) :=
  match ip_type (mb_ctrl inst) !! j, ip_instance_id (mb_ctrl inst) !! j with
  | Some ip, Some id =>
      if live_success dev inst j usr_resp d then None
      else
        match cmd_resp_data usr_resp !! j with
        | None => None
        | Some _ =>
            match io96b_mb_req dev (io96b_csr_addr inst) ip id CMD_TRIG_MEM_CAL_OP TRIG_MEM_CAL
                    0 0 0 0 0 0 0 2 usr_resp (live_after inst j usr_resp d) with
            | (Ret (ret1, r1), d2, t2) =>
                if ret1 =? 0 then
                  match io96b_mb_req dev (io96b_csr_addr inst) 0 0 CMD_TRIG_MEM_CAL_OP
                          GET_MEM_CAL_STATUS 0 0 0 0 0 0 0 2 r1 d2 with
                  | (Ret (ret2, r2), d3, t3) =>
                      if ret2 =? 0
                      then Some (r2, d3, live_read dev inst j usr_resp d ++ t2 ++ t3)
                      else None
                  | _ => None
                  end
                else None
            | _ => None
            end
        end
  | _, _ => None
  end.

(** [k] failed attempts in a row. *)
Fixpoint failed_attempts (inst : io96b_instance) (j : nat) (k : nat)
    (usr_resp : io96b_mb_resp) (d : dstate dev)
    : option (io96b_mb_resp * dstate dev * list event) :=
  match k with
  | O => Some (usr_resp, d, [])
  | Datatypes.S k' =>
      match failed_attempt inst j usr_resp d with
      | Some (r1, d1, t1) =>
          match failed_attempts inst j k' r1 d1 with
          | Some (r2, d2, t2) => Some (r2, d2, t1 ++ t2)
          | None => None
          end
      | None => None
      end
  end.

(** Interface [j] recovers at read [k + 1]: the status query is answered,
    [k] attempts fail, and the next read of the live status reports
    success. *)
Definition recovers (inst : io96b_instance) (j : nat) (k : nat) (usr_resp : io96b_mb_resp)
    (d : dstate dev) : option (io96b_mb_resp * dstate dev * list event) :=
  match io96b_mb_req dev (io96b_csr_addr inst) 0 0 CMD_TRIG_MEM_CAL_OP GET_MEM_CAL_STATUS
          0 0 0 0 0 0 0 2 usr_resp d with
  | (Ret (ret, r0), d1, t1) =>
      if ret =? 0 then
        match failed_attempts inst j k r0 d1 with
        | Some (rk, dk, tk) =>
            if live_success dev inst j rk dk
            then Some (rk, live_after inst j rk dk, t1 ++ tk ++ live_read dev inst j rk dk)
            else None
        | None => None
        end
      else None
  | _ => None
  end.

(** The interfaces from [j0] on recover one after the other, the first at
    read [k + 1] for the first [k] of [ks], and so on, each within the
    three reads. *)
Fixpoint interfaces_recover (inst : io96b_instance) (j0 : nat) (ks : list nat)
    (usr_resp : io96b_mb_resp) (d : dstate dev)
    : option (io96b_mb_resp * dstate dev * list event) :=
  match ks with
  | [] => Some (usr_resp, d, [])
  | k :: ks' =>
      if (k <? MAX_RETRY_COUNT)%nat then
        match recovers inst j0 k usr_resp d with
        | Some (r1, d1, t1) =>
            match interfaces_recover inst (Datatypes.S j0) ks' r1 d1 with
            | Some (r2, d2, t2) => Some (r2, d2, t1 ++ t2)
            | None => None
            end
        | None => None
        end
      else None
  end.

(** The instances [l] are passed one after the other: an instance that is
    calibrated takes no exchange; of one that is not, all the interfaces
    recover, as [kss] says for it. *)
Fixpoint instances_pass (l : list io96b_instance) (kss : list (list nat))
    (usr_resp : io96b_mb_resp) (d : dstate dev)
    : option (io96b_mb_resp * dstate dev * list event) :=
  match l, kss with
  | [], [] => Some (usr_resp, d, [])
  | inst :: l', ks :: kss' =>
      if cal_status inst then instances_pass l' kss' usr_resp d
      else if (length ks =? Z.to_nat (num_mem_interface (mb_ctrl inst)))%nat then
        match interfaces_recover inst 0 ks usr_resp d with
        | Some (r1, d1, t1) =>
            match instances_pass l' kss' r1 d1 with
            | Some (r2, d2, t2) => Some (r2, d2, t1 ++ t2)
            | None => None
            end
        | None => None
        end
      else None
  | _, _ => None
  end.

End Recalibration.

(** The runs of the retry on [script_dev].  On [retry_ctrl] the status
    query is answered, two attempts fail and the third read succeeds; on
    [recal_ctrl] the first instance recovers at its first read and the
    three attempts on the second instance all fail. *)
Definition retry_d1 : list Z := failed_round 0x400 ++ failed_round 0x400 ++ [1].

Definition retry_t1 : list event :=
  snd (io96b_mb_req script_dev 0x1000 0 0 CMD_TRIG_MEM_CAL_OP GET_MEM_CAL_STATUS
         0 0 0 0 0 0 0 2 usr_resp_decl retry_script).

Definition retry_tk : list event :=
  match failed_attempts script_dev retry_inst 0 2 retry_resp retry_d1 with
  | Some (_, _, t) => t
  | None => []
  end.

Definition recal_inst : io96b_instance := sample_instance 0x2000 false 1.

Definition recal_d0 : list Z :=
  ok_reads (status_word 0) [0x400; 0] ++
  failed_round 0x400 ++ failed_round 0x400 ++ failed_round 0x400.

Definition recal_d1 : list Z :=
  failed_round 0x400 ++ failed_round 0x400 ++ failed_round 0x400.

Definition recal_ti : list event :=
  match instances_pass script_dev (take 1 (io96b recal_ctrl)) [[0%nat]] usr_resp_decl
          recal_script with
  | Some (_, _, t) => t
  | None => []
  end.

Definition recal_t1 : list event :=
  snd (io96b_mb_req script_dev 0x2000 0 0 CMD_TRIG_MEM_CAL_OP GET_MEM_CAL_STATUS
         0 0 0 0 0 0 0 2 retry_resp recal_d0).

Definition recal_tk : list event :=
  match failed_attempts script_dev recal_inst 0 3 retry_resp recal_d1 with
  | Some (_, _, t) => t
  | None => []
  end.

(** ** Invariants of the loops *)

Section LoopFacts.
Context {hdr : iossm_header} {plat : platform_header}.

Definition short_bit0 (usr_resp : io96b_mb_resp) : bool :=
  negb (Z.land (IOSSM_CMD_RESPONSE_DATA_SHORT (cmd_resp_status usr_resp)) (BIT 0) =? 0).

Definition cal_err (ret : Z) : Prop := ret = - ETIMEDOUT \/ ret = - EPERM.

Definition query_err (ret : Z) : Prop := ret = - ETIMEDOUT \/ ret = - ENOEXEC.

(** What the instance loop of [trig_mem_cal] keeps from round to round. *)
Definition recal_done (ctrl : io96b_info) (i : nat) (s : io96b_info * io96b_mb_resp * Z * Z)
    : Prop :=
  let '(c, _, ret, _) := s in
  ret = 0 /\ num_instance c = num_instance ctrl
  /\ (forall k, (k < i)%nat -> exists x, io96b c !! k = Some x /\ cal_status x = true).

Definition recal_failed (ctrl : io96b_info) (s : io96b_info * io96b_mb_resp * Z * Z) : Prop :=
  let '(c, _, ret, _) := s in
  cal_err ret /\ num_instance c = num_instance ctrl
  /\ exists k x, (k < Z.to_nat (num_instance ctrl))%nat
       /\ io96b c !! k = Some x /\ cal_status x = false.

(** What the instance loop of [get_mem_width_info] keeps: the table is the
    old one but for the sizes, which are set in the slots below [i]. *)
Definition widths_done (ctrl : io96b_info) (i : nat) (s : io96b_info * Z * Z) : Prop :=
  let '(c, total, ret) := s in
  ret = 0 /\ 0 <= total < 2 ^ 16
  /\ c = set_io96b (io96b c) ctrl
  /\ forall k,
       match io96b ctrl !! k with
       | Some x =>
           exists sz, io96b c !! k = Some (set_size sz x)
             /\ (if decide (k < i)%nat then 0 < sz < 2 ^ 16 else sz = size x)
       | None => io96b c !! k = None
       end.

Definition widths_failed (ctrl : io96b_info) (s : io96b_info * Z * Z) : Prop :=
  let '(c, _, ret) := s in
  query_err ret /\ c = set_io96b (io96b c) ctrl
  /\ forall k,
       match io96b ctrl !! k with
       | Some x =>
           exists sz, io96b c !! k = Some (set_size sz x)
             /\ ((Z.to_nat (num_instance ctrl) <= k)%nat -> sz = size x)
       | None => io96b c !! k = None
       end.

Definition tech_kept (ctrl : io96b_info) (s : io96b_info * Z) : Prop :=
  fst s = set_ddr_type (ddr_type (fst s)) ctrl /\ ddr_type (fst s) ∈ ddr_type_list.

Definition ecc_kept (ctrl : io96b_info) (s : io96b_info * bool * Z) : Prop :=
  fst (fst s) = set_ecc_status (ecc_status (fst (fst s))) ctrl
  /\ (snd (fst s) = false -> ecc_status (fst (fst s)) = false).

Definition same_shape (mb mb' : io96b_mb_ctrl) : Prop :=
  num_mem_interface mb' = num_mem_interface mb
  /\ length (ip_type mb') = length (ip_type mb)
  /\ length (ip_instance_id mb') = length (ip_instance_id mb).

(** What the instance loop of [io96b_mb_init] keeps: after the instances
    below [i], the table is the old one with new mailbox tables of the old
    lengths in those slots. *)
Definition enumerated (ctrl : io96b_info) (i : nat) (c : io96b_info) : Prop :=
  c = set_io96b (io96b c) ctrl
  /\ forall k,
       match io96b ctrl !! k with
       | Some x =>
           exists mb, io96b c !! k = Some (set_mb_ctrl mb x)
             /\ length (ip_type mb) = length (ip_type (mb_ctrl x))
             /\ length (ip_instance_id mb) = length (ip_instance_id (mb_ctrl x))
             /\ (if decide (k < i)%nat then 0 <= num_mem_interface mb <= 3
                 else mb = mb_ctrl x)
       | None => io96b c !! k = None
       end.

(** What the loop of [populate_ddr_handoff] keeps: after the register
    blocks below [i], none of which was missing, the count is the number of
    slots enabled among them and these slots carry their addresses. *)
Definition handoff_done (dev_read_addr_index : Z -> Z) (handoff_table : list Z)
    (ctrl : io96b_info) (i : nat) (s : io96b_info * Z) : Prop :=
  let w := default 0 (handoff_table !! 1%nat) in
  snd s = u8 (Z.of_nat (length (enabled_slots w i)))
  /\ fst s = set_io96b (io96b (fst s)) ctrl
  /\ (forall j, (j < i)%nat -> dev_read_addr_index (Z.of_nat j + 1) <> FDT_ADDR_T_NONE)
  /\ forall k, io96b (fst s) !! k =
       if decide (k < i /\ Z.testbit w (Z.of_nat k) = true)%nat
       then set_io96b_csr_addr (dev_read_addr_index (Z.of_nat k + 1)) <$> io96b ctrl !! k
       else io96b ctrl !! k.

(** The loop was left at the register block [i], the first one missing. *)
Definition handoff_failed (dev_read_addr_index : Z -> Z) (handoff_table : list Z)
    (ctrl : io96b_info) (n : nat) (c : io96b_info) : Prop :=
  let w := default 0 (handoff_table !! 1%nat) in
  c = set_io96b (io96b c) ctrl
  /\ exists i, (i < n)%nat
       /\ dev_read_addr_index (Z.of_nat i + 1) = FDT_ADDR_T_NONE
       /\ (forall j, (j < i)%nat -> dev_read_addr_index (Z.of_nat j + 1) <> FDT_ADDR_T_NONE)
       /\ forall k, io96b c !! k =
            if decide (k < i /\ Z.testbit w (Z.of_nat k) = true)%nat
            then set_io96b_csr_addr (dev_read_addr_index (Z.of_nat k + 1))
                   <$> io96b ctrl !! k
            else io96b ctrl !! k.

End LoopFacts.

(** * Proofs *)

Lemma u32_range x : 0 <= u32 x < 2 ^ 32.
Proof. unfold u32. apply Z.mod_pos_bound. lia. Qed.

Lemma u32_small x : 0 <= x < 2 ^ 32 -> u32 x = x.
Proof. intros. unfold u32. apply Z.mod_small. lia. Qed.

Lemma u32_u32 x : u32 (u32 x) = u32 x.
Proof. apply u32_small, u32_range. Qed.

Lemma u32_land_ones x : u32 x = Z.land x (Z.ones 32).
Proof. unfold u32. rewrite Z.land_ones by lia. reflexivity. Qed.

Lemma u32_testbit x n : 0 <= n -> Z.testbit (u32 x) n = Z.testbit x n && (n <? 32).
Proof.
  intros Hn. rewrite u32_land_ones, Z.land_spec.
  destruct (Z.ltb_spec n 32).
  - rewrite Z.ones_spec_low by lia. reflexivity.
  - rewrite Z.ones_spec_high by lia. reflexivity.
Qed.

Lemma reg_inj base o1 o2 : reg base o1 = reg base o2 -> u64 o1 = u64 o2.
Proof.
  unfold reg, u64. intros H.
  replace o1 with ((base + o1) - base) by lia.
  replace o2 with ((base + o2) - base) by lia.
  rewrite (Zminus_mod (base + o1)), (Zminus_mod (base + o2)), H. reflexivity.
Qed.

(** The idle test of the request register: all 32 bits read as zero. *)
Lemma idle_test v : 0 <= v < 2 ^ 32 ->
  Z.land (u32 (Z.lnot v)) (GENMASK 31 0) = GENMASK 31 0 -> v = 0.
Proof.
  intros Hv H. unfold u32, Z.lnot, GENMASK in H. 
  change (Z.shiftl (Z.ones (31 - 0 + 1)) 0) with (Z.ones 32) in H.
  rewrite Z.land_ones in H by lia. rewrite Z.mod_mod in H by lia.
  change (Z.ones 32) with (2 ^ 32 - 1) in H.
  replace (Z.pred (- v)) with ((2 ^ 32 - 1 - v) + (-1) * 2 ^ 32) in H by lia.
  rewrite Z.mod_add in H by lia. rewrite Z.mod_small in H by lia. lia.
Qed.

Section Proofs.
Context (dev : device) {hdr : iossm_header}.

Lemma readl_run a d :
  exists v d', readl dev a d = (Ret v, d', [EvRead a v]) /\ 0 <= v < 2 ^ 32
    /\ dev_readl dev d a = (fst (dev_readl dev d a), d') /\ v = u32 (fst (dev_readl dev d a)).
Proof.
  unfold readl. destruct (dev_readl dev d a) as [v d'].
  exists (u32 v), d'. split; [reflexivity|]. split; [apply u32_range|]. split; reflexivity.
Qed.

Lemma wait_for_bit_poll_run n a m s d :
  exists r d' t, wait_for_bit_poll dev n a m s d = (Ret r, d', t)
    /\ polls_of a t
    /\ ((r = 0 /\ exists t0 v, t = t0 ++ [EvRead a v] /\ 0 <= v < 2 ^ 32
                  /\ Z.land (if s then v else u32 (Z.lnot v)) m = m)
        \/ r = - ETIMEDOUT).
Proof.
  revert d. induction n as [|n IH]; intros d; simpl; unfold mbind;
    destruct (readl_run a d) as (v & d1 & -> & Hv & ?);
    destruct (Z.eqb_spec (Z.land (if s then v else u32 (Z.lnot v)) m) m) as [E|E].
  - do 3 eexists. split; [reflexivity|]. split.
    + repeat constructor. eauto.
    + left. split; [reflexivity|]. exists [], v. auto.
  - do 3 eexists. split; [reflexivity|]. split.
    + repeat constructor. eauto.
    + right. reflexivity.
  - do 3 eexists. split; [reflexivity|]. split.
    + repeat constructor. eauto.
    + left. split; [reflexivity|]. exists [], v. auto.
  - destruct (IH d1) as (r & d2 & t & -> & Hp & Hr).
    do 3 eexists. split; [reflexivity|]. split.
    + constructor; eauto.
    + destruct Hr as [(-> & t0 & v' & -> & Hv' & Hb) | -> ]; [left|right; reflexivity].
      split; [reflexivity|]. exists (EvRead a v :: t0), v'. auto.
Qed.

Lemma wait_for_bit_le32_run a m s tmo d :
  exists r d' t, wait_for_bit_le32 dev a m s tmo d = (Ret r, d', t)
    /\ polls_of a t
    /\ ((r = 0 /\ exists t0 v, t = t0 ++ [EvRead a v] /\ 0 <= v < 2 ^ 32
                  /\ Z.land (if s then v else u32 (Z.lnot v)) m = m)
        \/ r = - ETIMEDOUT).
Proof. unfold wait_for_bit_le32. apply wait_for_bit_poll_run. Qed.

Lemma write_cmd_param_run base p0 p1 p2 p3 p4 p5 p6 d :
  exists d', for_range dev (fun i _ => write_cmd_param dev base p0 p1 p2 p3 p4 p5 p6 i)
               0 6 tt d = (Ret tt, d', param_trace base p0 p1 p2 p3 p4 p5).
Proof.
  unfold param_trace, param_event. cbn [for_range write_cmd_param].
  unfold mbind, writel, mret.
  destruct (p0 =? 0), (p1 =? 0), (p2 =? 0), (p3 =? 0), (p4 =? 0), (p5 =? 0);
    eexists; reflexivity.
Qed.

Lemma read_resp_data_run base i l d :
  exists l' d' t, read_resp_data dev base i l d = (Ret l', d', t)
    /\ data_reads base t /\ length l' = length l
    /\ (forall k, k <> i -> l' !! k = l !! k)
    /\ ((3 <= i)%nat -> l' = l /\ d' = d /\ t = []).
Proof.
  unfold read_resp_data, data_reads, data_regs.
  destruct i as [|[|[|i]]]; unfold mbind, mret.
  4: { exists l, d, []. repeat split; auto. }
  all: match goal with |- context [readl dev ?a ?d0] =>
         destruct (readl_run a d0) as (v & d1 & -> & Hv & _) end.
  all: do 3 eexists; split; [reflexivity|]; split;
    [repeat constructor; do 2 eexists; split; [reflexivity|rewrite !elem_of_cons; auto]|];
    split; [apply length_insert|]; split;
    [intros k Hk; apply list_lookup_insert_ne; congruence|lia].
Qed.

Lemma read_data_loop_run base n : forall i0 l d,
  exists l' d' t, for_range dev (read_resp_data dev base) i0 n l d = (Ret l', d', t)
    /\ data_reads base t /\ length l' = length l
    /\ (forall k, (k < i0 \/ i0 + n <= k)%nat -> l' !! k = l !! k)
    /\ ((3 <= i0)%nat -> l' = l /\ d' = d /\ t = []).
Proof.
  induction n as [|n IH]; intros i0 l d; simpl.
  - exists l, d, []. unfold mret. repeat split; auto; constructor.
  - unfold mbind.
    destruct (read_resp_data_run base i0 l d) as (l1 & d1 & t1 & -> & Ht1 & Hl1 & Hk1 & Hz1).
    destruct (IH (S i0) l1 d1) as (l2 & d2 & t2 & -> & Ht2 & Hl2 & Hk2 & Hz2).
    do 3 eexists. split; [reflexivity|]. split; [apply Forall_app; auto|].
    split; [congruence|]. split.
    + intros k Hk. rewrite Hk2 by lia. apply Hk1. lia.
    + intros H3. destruct (Hz1 H3) as (-> & -> & ->).
      destruct Hz2 as (-> & -> & ->); [lia|]. auto.
Qed.

Lemma for_range_split {St} (body : nat -> St -> M dev St) n m : forall i0 s d,
  for_range dev body i0 (n + m) s d =
  mbind dev (for_range dev body i0 n s) (for_range dev body (i0 + n) m) d.
Proof.
  induction n as [|n IH]; intros i0 s d; simpl.
  - unfold mbind, mret. rewrite Nat.add_0_r.
    destruct (for_range dev body i0 m s d) as [[[] ?] ?]; reflexivity.
  - unfold mbind. destruct (body i0 s d) as [[[s1| |] d1] t1]; try reflexivity.
    rewrite IH. unfold mbind. replace (i0 + S n)%nat with (S i0 + n)%nat by lia.
    destruct (for_range dev body (S i0) n s1 d1) as [[[s2| |] d2] t2]; try reflexivity.
    destruct (for_range dev body (S i0 + n) m s2 d2) as [[r3 d3] t3].
    rewrite app_assoc. reflexivity.
Qed.

Lemma mbind_ext {A B} (m : M dev A) (f g : A -> M dev B) d :
  (forall a d', f a d' = g a d') -> mbind dev m f d = mbind dev m g d.
Proof.
  intros H. unfold mbind. destruct (m d) as [[[a| |] d1] t1]; try reflexivity.
  rewrite H. reflexivity.
Qed.

(** Indices from 3 on are skipped by the data loop. *)
Lemma read_data_loop_ge3 base n l d : (3 <= n)%nat ->
  for_range dev (read_resp_data dev base) 0 n l d =
  for_range dev (read_resp_data dev base) 0 3 l d.
Proof.
  intros Hn. destruct (Nat.le_exists_sub 3 n Hn) as (m & -> & _).
  rewrite (Nat.add_comm m 3), for_range_split. unfold mbind.
  destruct (for_range dev (read_resp_data dev base) 0 3 l d) as [[[l1| |] d1] t1] eqn:E;
    try reflexivity.
  destruct (read_data_loop_run base m (0 + 3) l1 d1) as (l2 & d2 & t2 & -> & _ & _ & _ & Hz).
  destruct Hz as (-> & -> & ->); [lia|]. rewrite app_nil_r. reflexivity.
Qed.

Lemma io96b_mb_req_cases base ip id ty op p0 p1 p2 p3 p4 p5 p6 len resp d :
  mb_req_run dev base ip id ty op p0 p1 p2 p3 p4 p5 len resp d
    (io96b_mb_req dev base ip id ty op p0 p1 p2 p3 p4 p5 p6 len resp d).
Proof.
  unfold io96b_mb_req. fold (zeroed resp). unfold mbind at 1.
  destruct (wait_for_bit_le32_run (reg base IOSSM_CMD_REQ_OFFSET) (GENMASK 31 0) false
              TIMEOUT d) as (r1 & d1 & t1 & E1 & Hp1 & Hr1).
  rewrite E1.
  destruct Hr1 as [(-> & t0 & v0 & -> & Hv0 & Hb)| ->].
  2: { change (negb (- ETIMEDOUT =? 0)) with true. cbv beta iota. unfold mret.
       rewrite app_nil_r. apply mb_not_ready; auto. }
  apply idle_test in Hb; [subst v0|assumption].
  apply Forall_app in Hp1 as [Hp0 _].
  change (negb (0 =? 0)) with false. cbv beta iota. unfold mbind at 1.
  destruct (write_cmd_param_run base p0 p1 p2 p3 p4 p5 p6 d1) as (d2 & ->).
  unfold mbind at 1. unfold writel at 1.
  unfold mbind at 1.
  destruct (wait_for_bit_le32_run (reg base IOSSM_CMD_RESPONSE_STATUS_OFFSET)
              IOSSM_STATUS_COMMAND_RESPONSE_READY true TIMEOUT
              (dev_writel dev d2 (reg base IOSSM_CMD_REQ_OFFSET)
                 (u32 (cmd_req_word ip id ty op)))) as (r2 & d3 & t2 & -> & Hp2 & Hr2).
  destruct Hr2 as [(-> & _)| ->].
  - change (negb (0 =? 0)) with false. cbv beta iota. unfold mbind.
    destruct (readl_run (reg base IOSSM_CMD_RESPONSE_STATUS_OFFSET) d3)
      as (st0 & d4 & -> & Hst0 & _).
    destruct (read_data_loop_run base (Z.to_nat len) 0 (cmd_resp_data (zeroed resp)) d4)
      as (l' & d5 & td & E5 & Htd & Hl & Hk & _).
    rewrite E5.
    destruct (readl_run (reg base IOSSM_CMD_RESPONSE_STATUS_OFFSET) d5)
      as (st & d6 & -> & Hst & _).
    unfold clrbits_le32, mbind.
    destruct (readl_run (reg base IOSSM_CMD_RESPONSE_STATUS_OFFSET) d6)
      as (v & d7 & -> & Hv & _).
    unfold writel.
    destruct (readl_run (reg base IOSSM_CMD_RESPONSE_STATUS_OFFSET)
                (dev_writel dev d7 (reg base IOSSM_CMD_RESPONSE_STATUS_OFFSET)
                   (u32 (Z.land v (u32 (Z.lnot IOSSM_STATUS_COMMAND_RESPONSE_READY))))))
      as (v' & d8 & -> & Hv' & Hd8 & Hv'').
    unfold mret. simpl.
    eapply (mb_success dev base ip id ty op p0 p1 p2 p3 p4 p5 len resp d d1 t0 t2 st0);
      eauto.
  - change (negb (- ETIMEDOUT =? 0)) with true. cbv beta iota. unfold mbind.
    destruct (readl_run (reg base IOSSM_CMD_RESPONSE_STATUS_OFFSET) d3)
      as (v & d4 & -> & Hv & _).
    unfold mret. simpl.
    apply (mb_timeout dev base ip id ty op p0 p1 p2 p3 p4 p5 len resp d d1 t0 t2 v d4); auto.
Qed.


(** *** Traces *)

Lemma writes_to_app a t1 t2 : writes_to a (t1 ++ t2) = writes_to a t1 ++ writes_to a t2.
Proof. unfold writes_to. rewrite List.filter_app, fmap_app. reflexivity. Qed.

Lemma reads_of_app a t1 t2 : reads_of a (t1 ++ t2) = reads_of a t1 ++ reads_of a t2.
Proof. unfold reads_of. rewrite List.filter_app, fmap_app. reflexivity. Qed.

Lemma writes_to_polls a b t : polls_of b t -> writes_to a t = [].
Proof.
  induction 1 as [|e t (v & -> & _) _ IH]; [reflexivity|]. exact IH.
Qed.

Lemma writes_to_data_reads a base t : data_reads base t -> writes_to a t = [].
Proof.
  induction 1 as [|e t (b & v & -> & _) _ IH]; [reflexivity|]. exact IH.
Qed.

Lemma writes_to_param_event a base p off :
  a <> reg base off -> writes_to a (param_event base p off) = [].
Proof.
  intros Ha. unfold param_event. destruct (p =? 0); [reflexivity|].
  unfold writes_to. simpl. destruct (Z.eqb_spec (reg base off) a); [congruence|reflexivity].
Qed.

Lemma writes_to_cons_write a b v t :
  writes_to a (EvWrite b v :: t) = (if b =? a then [v] else []) ++ writes_to a t.
Proof. unfold writes_to. simpl. destruct (b =? a); reflexivity. Qed.

Lemma writes_to_cons_read a b v t : writes_to a (EvRead b v :: t) = writes_to a t.
Proof. reflexivity. Qed.

Lemma writes_to_nil a : writes_to a [] = [].
Proof. reflexivity. Qed.

Lemma eqb_ne a b : a <> b -> (a =? b) = false.
Proof. intros. apply Z.eqb_neq. assumption. Qed.

(** The twelve mailbox registers of an instance are pairwise different. *)
Ltac distinct_regs H :=
  unfold mailbox_regs, mailbox_offsets in H; simpl in H;
  repeat (apply NoDup_cons in H as [? H]);
  repeat match goal with
         | N : _ ∉ _ |- _ => rewrite ?not_elem_of_cons in N; decompose [and] N; clear N
         end.

(** *** The request word *)

Lemma cmd_req_word_bits ip id ty op n : 0 <= n < 32 ->
  Z.testbit (cmd_req_word ip id ty op) n =
  Z.testbit op n || Z.testbit ty (n - 16) || Z.testbit id (n - 24) || Z.testbit ip (n - 29).
Proof.
  intros Hn. unfold cmd_req_word.
  rewrite !Z.lor_spec, !u32_testbit, !Z.shiftl_spec by lia.
  replace (n <? 32) with true by (symmetry; apply Z.ltb_lt; lia).
  rewrite Z.sub_0_r, !andb_true_r. reflexivity.
Qed.

Lemma cmd_req_word_u32 ip id ty op : u32 (cmd_req_word ip id ty op) = cmd_req_word ip id ty op.
Proof.
  apply Z.bits_inj'. intros n Hn. rewrite u32_testbit by lia.
  destruct (Z.ltb_spec n 32); [apply andb_true_r|].
  rewrite andb_false_r. unfold cmd_req_word.
  rewrite !Z.lor_spec, !u32_testbit by lia.
  replace (n <? 32) with false by (symmetry; apply Z.ltb_ge; lia).
  rewrite !andb_false_r. reflexivity.
Qed.

Lemma zeroed_len3 resp : length (cmd_resp_data resp) = 3%nat ->
  zeroed resp = {| cmd_resp_status := 0; cmd_resp_data := [0; 0; 0] |}.
Proof.
  unfold zeroed. destruct (cmd_resp_data resp) as [|a [|b [|c [|e l]]]]; try discriminate.
  reflexivity.
Qed.

Lemma ack_value_ready v : Z.land (ack_value v) IOSSM_STATUS_COMMAND_RESPONSE_READY = 0.
Proof.
  unfold ack_value. apply Z.bits_inj'. intros n Hn.
  rewrite Z.land_spec, Z.bits_0, !u32_testbit, Z.land_spec, u32_testbit, Z.lnot_spec by lia.
  destruct (Z.testbit IOSSM_STATUS_COMMAND_RESPONSE_READY n); simpl;
    rewrite ?andb_false_r; reflexivity.
Qed.

Lemma ack_value_u32 v : u32 (ack_value v) = ack_value v.
Proof. apply u32_u32. Qed.

(** *** The transport *)

(** C5: a call that gets past the idle wait on the request register writes
    that register exactly once; the write comes after a read of the register
    that returned 0, nothing having been written before that read; and the
    word written carries the opcode from bit 0, the command type from bit
    16, the instance id from bit 24 and the IP type from bit 29. *)
Theorem io96b_mb_req_doorbell base ip id ty op p0 p1 p2 p3 p4 p5 p6 len resp d d1 t1 :
  NoDup (mailbox_regs base) ->
  wait_for_bit_le32 dev (reg base IOSSM_CMD_REQ_OFFSET) (GENMASK 31 0) false TIMEOUT d
    = (Ret 0, d1, t1) ->
  exists t0 tq word,
    snd (io96b_mb_req dev base ip id ty op p0 p1 p2 p3 p4 p5 p6 len resp d)
      = t0 ++ [EvRead (reg base IOSSM_CMD_REQ_OFFSET) 0] ++ tq
    /\ t1 = t0 ++ [EvRead (reg base IOSSM_CMD_REQ_OFFSET) 0]
    /\ Forall (fun e => exists v, e = EvRead (reg base IOSSM_CMD_REQ_OFFSET) v) t0
    /\ writes_to (reg base IOSSM_CMD_REQ_OFFSET) tq = [word]
    /\ 0 <= word < 2 ^ 32
    /\ forall n, 0 <= n < 32 ->
         Z.testbit word n =
         Z.testbit op n || Z.testbit ty (n - 16) || Z.testbit id (n - 24)
         || Z.testbit ip (n - 29).
Proof.
  intros Hnd Hw. distinct_regs Hnd.
  assert (Hpar : writes_to (reg base IOSSM_CMD_REQ_OFFSET)
                   (param_trace base p0 p1 p2 p3 p4 p5) = []).
  { unfold param_trace. rewrite !writes_to_app, !writes_to_param_event by congruence.
    reflexivity. }
  assert (Hpolls : forall a t, polls_of a t -> Forall (fun e => exists v, e = EvRead a v) t).
  { intros a t Ht. eapply Forall_impl; [exact Ht|]. intros e (v & -> & _). eauto. }
  pose proof (io96b_mb_req_cases base ip id ty op p0 p1 p2 p3 p4 p5 p6 len resp d) as C.
  inversion C as [d1' t1' E _ | d1' t0 t2 v d3 E Hp0 Hp2 | d1' t0 t2 st0 dx dy td l' st v v' dr d3 E Hp0 Hp2 Hd];
    rewrite Hw in E; inversion E; subst.
  - eexists t0, _, (cmd_req_word ip id ty op).
    split; [simpl; rewrite <- app_assoc; reflexivity|].
    split; [reflexivity|]. split; [auto|]. split.
    + rewrite !writes_to_app, Hpar, writes_to_cons_write, Z.eqb_refl, writes_to_app,
        (writes_to_polls _ _ _ Hp2), cmd_req_word_u32. reflexivity.
    + split; [rewrite <- cmd_req_word_u32; apply u32_range|apply cmd_req_word_bits].
  - eexists t0, _, (cmd_req_word ip id ty op).
    split; [simpl; rewrite <- app_assoc; reflexivity|].
    split; [reflexivity|]. split; [auto|]. split.
    + assert (Htd : data_reads base td).
      { destruct (read_data_loop_run base (Z.to_nat len) 0 (cmd_resp_data (zeroed resp)) dx)
          as (l2 & d2 & t2' & E2 & Ht2 & _). rewrite Hd in E2. inversion E2; subst. exact Ht2. }
      rewrite !writes_to_app, Hpar, writes_to_cons_write, Z.eqb_refl, writes_to_app,
        (writes_to_polls _ _ _ Hp2), cmd_req_word_u32, writes_to_cons_read, writes_to_app,
        (writes_to_data_reads _ _ _ Htd), !writes_to_cons_read, writes_to_cons_write,
        eqb_ne by congruence.
      reflexivity.
    + split; [rewrite <- cmd_req_word_u32; apply u32_range|apply cmd_req_word_bits].
Qed.

(** C6: a call that returns 0 ends with the acknowledgement: it reads the
    status register, writes the value back with the ready bit cleared, and
    reads the register once more; on hardware whose status register keeps
    what is written to it, that last read shows the ready bit cleared. *)
Theorem io96b_mb_req_ack base ip id ty op p0 p1 p2 p3 p4 p5 p6 len resp d resp' d' t :
  io96b_mb_req dev base ip id ty op p0 p1 p2 p3 p4 p5 p6 len resp d
    = (Ret (0, resp'), d', t) ->
  exists t0 v v',
    t = t0 ++ [EvRead (reg base IOSSM_CMD_RESPONSE_STATUS_OFFSET) v;
               EvWrite (reg base IOSSM_CMD_RESPONSE_STATUS_OFFSET) (ack_value v);
               EvRead (reg base IOSSM_CMD_RESPONSE_STATUS_OFFSET) v']
    /\ Z.land (ack_value v) IOSSM_STATUS_COMMAND_RESPONSE_READY = 0
    /\ (status_holds dev base -> Z.land v' IOSSM_STATUS_COMMAND_RESPONSE_READY = 0).
Proof.
  intros H.
  pose proof (io96b_mb_req_cases base ip id ty op p0 p1 p2 p3 p4 p5 p6 len resp d) as C.
  rewrite H in C.
  inversion C as [ | | d1' t0 t2 st0 dx dy td l' st v v' dr d3 E Hp0 Hp2 Hd Hst Hr Hv' (dq & Hdq)];
    subst.
  exists ((t0 ++ [EvRead (reg base IOSSM_CMD_REQ_OFFSET) 0]) ++
          param_trace base p0 p1 p2 p3 p4 p5 ++
          [EvWrite (reg base IOSSM_CMD_REQ_OFFSET) (u32 (cmd_req_word ip id ty op))] ++
          t2 ++ [EvRead (reg base IOSSM_CMD_RESPONSE_STATUS_OFFSET) st0] ++ td ++
          [EvRead (reg base IOSSM_CMD_RESPONSE_STATUS_OFFSET) st]), v,
         (u32 (fst (dev_readl dev
                      (dev_writel dev dq (reg base IOSSM_CMD_RESPONSE_STATUS_OFFSET)
                         (ack_value v))
                      (reg base IOSSM_CMD_RESPONSE_STATUS_OFFSET)))).
  split.
  - repeat rewrite <- app_assoc. reflexivity.
  - split; [apply ack_value_ready|].
    intros Hc. rewrite Hc, ack_value_u32. apply ack_value_ready.
Qed.

(** The response structure a call leaves behind. *)
Lemma io96b_mb_req_resp base ip id ty op p0 p1 p2 p3 p4 p5 p6 len resp d :
  length (cmd_resp_data resp) = NUM_CMD_RESPONSE_DATA ->
  exists ret resp' d' t,
    io96b_mb_req dev base ip id ty op p0 p1 p2 p3 p4 p5 p6 len resp d
      = (Ret (ret, resp'), d', t)
    /\ length (cmd_resp_data resp') = NUM_CMD_RESPONSE_DATA
    /\ (forall k, (Z.to_nat len <= k < NUM_CMD_RESPONSE_DATA)%nat ->
          cmd_resp_data resp' !! k = Some 0)
    /\ (ret <> 0 -> resp' = {| cmd_resp_status := 0; cmd_resp_data := [0; 0; 0] |}).
Proof.
  intros Hlen. pose proof (zeroed_len3 resp Hlen) as Hz.
  assert (Hlk : forall k, (k < 3)%nat -> [0; 0; 0] !! k = Some 0).
  { intros [|[|[|k]]] Hk; try reflexivity. lia. }
  pose proof (io96b_mb_req_cases base ip id ty op p0 p1 p2 p3 p4 p5 p6 len resp d) as C.
  inversion C as [d1' t1' E _ | d1' t0 t2 v d3 E Hp0 Hp2 | d1' t0 t2 st0 dx dy td l' st v v' dr d3 E Hp0 Hp2 Hd];
    rewrite Hz in *.
  - do 4 eexists. split; [reflexivity|]. repeat split; auto. intros k Hk. apply Hlk, Hk.
  - do 4 eexists. split; [reflexivity|]. repeat split; auto. intros k Hk. apply Hlk, Hk.
  - do 4 eexists. split; [reflexivity|].
    destruct (read_data_loop_run base (Z.to_nat len) 0 [0; 0; 0] dx)
      as (l2 & d2 & t2' & E2 & _ & Hl2 & Hk2 & _).
    simpl in Hd. rewrite Hd in E2. inversion E2; subst l2 d2 t2'.
    simpl. split; [exact Hl2|]. split; [|congruence].
    intros k Hk. rewrite Hk2 by lia. apply Hlk, Hk.
Qed.

Lemma usr_resp_decl_length : length (cmd_resp_data usr_resp_decl) = NUM_CMD_RESPONSE_DATA.
Proof. reflexivity. Qed.

(** C10: the response structure is zeroed before anything else happens: the
    call does what it does on an all-zero structure, whatever the caller
    left in it.  So a data word beyond the requested count is 0 on return,
    and after a failed call the whole structure is 0. *)
Theorem io96b_mb_req_zeroes_resp base ip id ty op p0 p1 p2 p3 p4 p5 p6 len resp d :
  length (cmd_resp_data resp) = NUM_CMD_RESPONSE_DATA ->
  io96b_mb_req dev base ip id ty op p0 p1 p2 p3 p4 p5 p6 len resp d
    = io96b_mb_req dev base ip id ty op p0 p1 p2 p3 p4 p5 p6 len
        {| cmd_resp_status := 0; cmd_resp_data := [0; 0; 0] |} d
  /\ exists ret resp' d' t,
       io96b_mb_req dev base ip id ty op p0 p1 p2 p3 p4 p5 p6 len resp d
         = (Ret (ret, resp'), d', t)
       /\ length (cmd_resp_data resp') = NUM_CMD_RESPONSE_DATA
       /\ (forall k, (Z.to_nat len <= k < NUM_CMD_RESPONSE_DATA)%nat ->
             cmd_resp_data resp' !! k = Some 0)
       /\ (ret <> 0 -> resp' = {| cmd_resp_status := 0; cmd_resp_data := [0; 0; 0] |}).
Proof.
  intros Hlen. split.
  - unfold io96b_mb_req. fold (zeroed resp). rewrite (zeroed_len3 resp Hlen). reflexivity.
  - apply io96b_mb_req_resp, Hlen.
Qed.

(** C9, as the code has it: a [resp_data_len] above 3 is not rejected.  The
    indices from 3 on fall into the [default] arm of the [switch], which
    reads nothing, and the call goes exactly as with a length of 3. *)
Theorem io96b_mb_req_len_above_3 base ip id ty op p0 p1 p2 p3 p4 p5 p6 len resp d :
  3 <= len ->
  io96b_mb_req dev base ip id ty op p0 p1 p2 p3 p4 p5 p6 len resp d
    = io96b_mb_req dev base ip id ty op p0 p1 p2 p3 p4 p5 p6 3 resp d.
Proof.
  intros Hlen. unfold io96b_mb_req.
  assert (E : forall l d0, for_range dev (read_resp_data dev base) 0 (Z.to_nat len) l d0
                         = for_range dev (read_resp_data dev base) 0 (Z.to_nat 3) l d0).
  { intros l d0. apply read_data_loop_ge3. lia. }
  repeat first
    [ reflexivity
    | progress (unfold mbind at 1 2; rewrite E); reflexivity
    | apply mbind_ext; intros
    | match goal with |- (if ?b then _ else _) _ = _ => destruct b end ].
Qed.

(** C2, slot 6: whatever value is passed as [cmd_param_6], the register
    CMD_PARAM_6 is never written: the loop of line 131 stops at slot 5. *)
Theorem io96b_mb_req_param_6_unwritten base ip id ty op p0 p1 p2 p3 p4 p5 p6 len resp d :
  NoDup (mailbox_regs base) ->
  writes_to (reg base IOSSM_CMD_PARAM_6_OFFSET)
    (snd (io96b_mb_req dev base ip id ty op p0 p1 p2 p3 p4 p5 p6 len resp d)) = [].
Proof.
  intros Hnd. distinct_regs Hnd.
  assert (Hpar : writes_to (reg base IOSSM_CMD_PARAM_6_OFFSET)
                   (param_trace base p0 p1 p2 p3 p4 p5) = []).
  { unfold param_trace. rewrite !writes_to_app, !writes_to_param_event by congruence.
    reflexivity. }
  pose proof (io96b_mb_req_cases base ip id ty op p0 p1 p2 p3 p4 p5 p6 len resp d) as C.
  inversion C as [d1' t1' E Hp1 | d1' t0 t2 v d3 E Hp0 Hp2 | d1' t0 t2 st0 dx dy td l' st v v' dr d3 E Hp0 Hp2 Hd];
    simpl.
  - apply (writes_to_polls _ _ _ Hp1).
  - rewrite !writes_to_app, Hpar, (writes_to_polls _ _ _ Hp0), writes_to_cons_read,
      writes_to_cons_write, eqb_ne, writes_to_app, (writes_to_polls _ _ _ Hp2) by congruence.
    reflexivity.
  - assert (Htd : data_reads base td).
    { destruct (read_data_loop_run base (Z.to_nat len) 0 (cmd_resp_data (zeroed resp)) dx)
        as (l2 & d2 & t2' & E2 & Ht2 & _). rewrite Hd in E2. inversion E2; subst. exact Ht2. }
    rewrite !writes_to_app, Hpar, (writes_to_polls _ _ _ Hp0), writes_to_cons_read,
      writes_to_cons_write, eqb_ne, writes_to_app, (writes_to_polls _ _ _ Hp2),
      writes_to_cons_read, writes_to_app, (writes_to_data_reads _ _ _ Htd),
      !writes_to_cons_read, writes_to_cons_write, eqb_ne by congruence.
    reflexivity.
Qed.

(** *** The interface enumerator *)

Lemma FIELD_GET_ip_type word :
  intf_ip_type word = Z.land (Z.shiftr word 29) 7.
Proof.
  unfold intf_ip_type, FIELD_GET, INTF_IP_TYPE_MASK.
  change (bf_shf (GENMASK 31 29)) with 29. change (GENMASK 31 29) with (Z.shiftl 7 29).
  assert (E : Z.shiftr (Z.land word (Z.shiftl 7 29)) 29 = Z.land (Z.shiftr word 29) 7).
  { rewrite Z.shiftr_land, Z.shiftr_shiftl_l by lia. reflexivity. }
  rewrite E. change 7 with (Z.ones 3). rewrite Z.land_ones by lia.
  unfold u8. apply Z.mod_small.
  pose proof (Z.mod_pos_bound (Z.shiftr word 29) (2 ^ 3)). lia.
Qed.

Lemma FIELD_GET_instance_id word :
  intf_instance_id word = Z.land (Z.shiftr word 24) 31.
Proof.
  unfold intf_instance_id, FIELD_GET, INTF_INSTANCE_ID_MASK.
  change (bf_shf (GENMASK 28 24)) with 24. change (GENMASK 28 24) with (Z.shiftl 31 24).
  assert (E : Z.shiftr (Z.land word (Z.shiftl 31 24)) 24 = Z.land (Z.shiftr word 24) 31).
  { rewrite Z.shiftr_land, Z.shiftr_shiftl_l by lia. reflexivity. }
  rewrite E. change 31 with (Z.ones 5). rewrite Z.land_ones by lia.
  unfold u8. apply Z.mod_small.
  pose proof (Z.mod_pos_bound (Z.shiftr word 24) (2 ^ 5)). lia.
Qed.

(** The loop of lines 268-282 stores the words that describe an interface,
    one after the other from slot [j] on, and touches nothing else. *)
Lemma mb_init_intf_loop usr_resp n : forall i0 j mb d,
  (i0 + n <= length (cmd_resp_data usr_resp))%nat ->
  let found := List.filter intf_present (take n (drop i0 (cmd_resp_data usr_resp))) in
  (j + length found <= length (ip_type mb))%nat ->
  (j + length found <= length (ip_instance_id mb))%nat ->
  for_range dev (mb_init_intf dev usr_resp) i0 n (j, mb) d
    = (Ret ((j + length found)%nat,
            {| num_mem_interface := num_mem_interface mb;
               ip_type := list_inserts j (intf_ip_type <$> found) (ip_type mb);
               ip_instance_id :=
                 list_inserts j (intf_instance_id <$> found) (ip_instance_id mb) |}),
       d, []).
Proof.
  induction n as [|n IH]; intros i0 j mb d Hlen found.
  - intros _ _. subst found.
    change (take 0 (drop i0 (cmd_resp_data usr_resp))) with (@nil Z).
    cbn [List.filter length fmap list_fmap list_inserts for_range].
    unfold mret. rewrite Nat.add_0_r. destruct mb; reflexivity.
  - destruct (lookup_lt_is_Some_2 (cmd_resp_data usr_resp) i0) as [w Hw]; [lia|].
    subst found. rewrite (drop_S _ _ _ Hw). cbn [firstn List.filter for_range].
    specialize (IH (S i0)). rewrite <- (Nat.add_succ_comm i0 n) in Hlen.
    unfold mbind at 1. unfold mb_init_intf at 1. unfold mbind at 1, idx at 1.
    rewrite Hw. unfold mret at 1. fold (intf_ip_type w). fold (intf_instance_id w).
    fold (intf_present w). destruct (intf_present w) eqn:Hp;
      cbn [length fmap list_fmap list_inserts app].
    + intros H1 H2. unfold mbind, store.
      destruct (decide (j < length (ip_type mb))%nat) as [_|]; [|lia].
      destruct (decide (j < length (ip_instance_id mb))%nat) as [_|]; [|lia].
      unfold mret. cbn [app].
      rewrite (IH (S j) _ d Hlen);
        cbn [ip_type ip_instance_id num_mem_interface]; rewrite ?length_insert; try lia.
      rewrite <- !list_insert_inserts_lt by lia.
      replace (S j + length (List.filter intf_present
                               (take n (drop (S i0) (cmd_resp_data usr_resp)))))%nat
        with (j + S (length (List.filter intf_present
                               (take n (drop (S i0) (cmd_resp_data usr_resp))))))%nat by lia.
      reflexivity.
    + intros H1 H2. unfold mret. cbv beta iota. rewrite (IH j mb d Hlen H1 H2). reflexivity.
Qed.

Lemma land_3_range x : 0 <= Z.land x 3 <= 3.
Proof.
  change 3 with (Z.ones 2) at 1 2. rewrite Z.land_ones by lia.
  pose proof (Z.mod_pos_bound x (2 ^ 2)). lia.
Qed.

(** One instance: when the GET_MEM_INTF_INFO command succeeds and the low
    two bits of the short-data field are [n], the enumerator stores, from
    slot 0 on and in their order, the IP type (bits 29-31) and the instance
    id (bits 24-28) of those of the first [n] data words whose IP type is
    not 0, and of no other word; the remaining slots keep what they held.
    At most two entries are stored.  The interface count of the table is
    [n]. *)
Lemma io96b_mb_init_records i io96b_ctrl inst usr_resp d d' t :
  io96b io96b_ctrl !! i = Some inst ->
  (2 <= length (ip_type (mb_ctrl inst)))%nat ->
  (2 <= length (ip_instance_id (mb_ctrl inst)))%nat ->
  io96b_mb_req dev (io96b_csr_addr inst) 0 0 CMD_GET_SYS_INFO GET_MEM_INTF_INFO
    0 0 0 0 0 0 0 2 usr_resp_decl d = (Ret (0, usr_resp), d', t) ->
  let n := Z.land (IOSSM_CMD_RESPONSE_DATA_SHORT (cmd_resp_status usr_resp)) 3 in
  let found := List.filter intf_present (take (Z.to_nat n) (cmd_resp_data usr_resp)) in
  mb_init_instance dev i io96b_ctrl d
    = (Ret (set_io96b
              (<[i := set_mb_ctrl
                        {| num_mem_interface := n;
                           ip_type := list_inserts 0 (intf_ip_type <$> found)
                                        (ip_type (mb_ctrl inst));
                           ip_instance_id := list_inserts 0 (intf_instance_id <$> found)
                                               (ip_instance_id (mb_ctrl inst)) |} inst]>
                 (io96b io96b_ctrl)) io96b_ctrl), d', t)
  /\ (length found <= 2)%nat
  /\ (forall word, intf_ip_type word = Z.land (Z.shiftr word 29) 7
                   /\ intf_instance_id word = Z.land (Z.shiftr word 24) 31).
Proof.
  intros Hi Ht Hid Hreq n found.
  destruct (io96b_mb_req_resp (io96b_csr_addr inst) 0 0 CMD_GET_SYS_INFO GET_MEM_INTF_INFO
              0 0 0 0 0 0 0 2 usr_resp_decl d usr_resp_decl_length)
    as (ret & resp' & d2 & t2 & E & Hl & Hk & _).
  rewrite Hreq in E. inversion E; subst ret resp' d2 t2. clear E.
  specialize (Hk 2%nat ltac:(unfold NUM_CMD_RESPONSE_DATA; simpl; lia)).
  destruct (cmd_resp_data usr_resp) as [|a [|b [|c [|e l]]]] eqn:Ews; try discriminate.
  simpl in Hk. injection Hk as ->.
  pose proof (land_3_range (IOSSM_CMD_RESPONSE_DATA_SHORT (cmd_resp_status usr_resp))) as Hn.
  fold n in Hn.
  assert (Hfound : (length found <= 2)%nat).
  { assert (P0 : intf_present 0 = false) by (vm_compute; reflexivity).
    subst found. destruct (Z.to_nat n) as [|[|[|m]]]; cbn [firstn List.filter];
      rewrite ?P0, ?take_nil; cbn [List.filter];
      destruct (intf_present a), (intf_present b); cbn [length]; lia. }
  split; [|split; [exact Hfound|]].
  - unfold mb_init_instance, mbind, idx. rewrite Hi. unfold mret at 1.
    rewrite Hreq. change (negb (0 =? 0)) with false. cbv beta iota.
    fold n.
    pose proof (mb_init_intf_loop usr_resp (Z.to_nat n) 0 0
                  {| num_mem_interface := n; ip_type := ip_type (mb_ctrl inst);
                     ip_instance_id := ip_instance_id (mb_ctrl inst) |} d') as L.
    rewrite Ews in L. simpl drop in L. fold found in L. simpl in L.
    rewrite L by lia. unfold mret. simpl. rewrite !app_nil_r. reflexivity.
  - intros word. split; [apply FIELD_GET_ip_type|apply FIELD_GET_instance_id].
Qed.

(** *** Going through a computation step by step *)

Lemma mbind_inv {A B} (m : M dev A) (f : A -> M dev B) d r d' t :
  mbind dev m f d = (Ret r, d', t) ->
  exists a d1 t1 t2, m d = (Ret a, d1, t1) /\ f a d1 = (Ret r, d', t2) /\ t = t1 ++ t2.
Proof.
  unfold mbind. destruct (m d) as [[[a| |] d1] t1]; try discriminate.
  destruct (f a d1) as [[r2 d2] t2] eqn:E. intros H. inversion H; subst.
  exists a, d1, t1, t2. auto.
Qed.

Lemma mret_inv {A} (a b : A) d d' t :
  mret dev a d = (Ret b, d', t) -> b = a /\ d' = d /\ t = [].
Proof. unfold mret. intros H. inversion H. auto. Qed.

Lemma idx_inv {A} (l : list A) i d a d' t :
  idx dev l i d = (Ret a, d', t) -> l !! i = Some a /\ d' = d /\ t = [].
Proof.
  unfold idx. destruct (l !! i); [|discriminate].
  intros H. apply mret_inv in H as (-> & -> & ->). auto.
Qed.

Lemma readl_inv a d v d' t :
  readl dev a d = (Ret v, d', t) ->
  v = u32 (fst (dev_readl dev d a)) /\ d' = snd (dev_readl dev d a) /\ t = [EvRead a v].
Proof.
  unfold readl. destruct (dev_readl dev d a) as [x d1]. intros H. inversion H. auto.
Qed.

(** *** Loops *)

Lemma for_ctl_rounds {St} (body : nat -> St -> M dev (ctl St)) n :
  forall i0 m s d s1 d1 t1,
  rounds dev body i0 n s d = Some (s1, d1, t1) ->
  for_ctl dev body i0 (n + m) s d =
  (let '(r, d2, t2) := for_ctl dev body (i0 + n) m s1 d1 in (r, d2, t1 ++ t2)).
Proof.
  induction n as [|n IH]; intros i0 m s d s1 d1 t1 H; simpl in H.
  - inversion H; subst. simpl. rewrite Nat.add_0_r.
    destruct (for_ctl dev body i0 m s1 d1) as [[r d2] t2]. reflexivity.
  - destruct (body i0 s d) as [[[[sa|sa|sa]| |] da] ta] eqn:Eb; try discriminate.
    destruct (rounds dev body (S i0) n sa da) as [[[sb db] tb]|] eqn:Er; try discriminate.
    inversion H; subst. simpl. unfold mbind. rewrite Eb.
    rewrite (IH _ m _ _ _ _ _ Er). replace (i0 + S n)%nat with (S i0 + n)%nat by lia.
    destruct (for_ctl dev body (S i0 + n) m s1 d1) as [[r d2] t2].
    rewrite app_assoc. reflexivity.
Qed.

Lemma for_ctl_goto {St} (body : nat -> St -> M dev (ctl St)) i0 m s d s1 d1 t1 :
  body i0 s d = (Ret (GotoErr s1), d1, t1) ->
  for_ctl dev body i0 (S m) s d = (Ret (Err s1), d1, t1).
Proof. intros H. simpl. unfold mbind. rewrite H. unfold mret. rewrite app_nil_r. reflexivity. Qed.

Lemma for_ctl_break {St} (body : nat -> St -> M dev (ctl St)) i0 m s d s1 d1 t1 :
  body i0 s d = (Ret (Break s1), d1, t1) ->
  for_ctl dev body i0 (S m) s d = (Ret (Done s1), d1, t1).
Proof. intros H. simpl. unfold mbind. rewrite H. unfold mret. rewrite app_nil_r. reflexivity. Qed.

(** *** Counting trigger commands *)

Lemma u16_cmd_req_word ip id ty op : u16 (u32 (cmd_req_word ip id ty op)) = u16 op.
Proof.
  rewrite cmd_req_word_u32. unfold u16. rewrite <- !Z.land_ones by lia.
  apply Z.bits_inj'. intros n Hn. rewrite !Z.land_spec.
  destruct (Z.ltb_spec n 16).
  - rewrite cmd_req_word_bits by lia.
    rewrite (Z.testbit_neg_r ty), (Z.testbit_neg_r id), (Z.testbit_neg_r ip) by lia.
    rewrite !orb_false_r. reflexivity.
  - rewrite Z.ones_spec_high by lia. rewrite !andb_false_r. reflexivity.
Qed.

Lemma trigger_count_app base t1 t2 :
  trigger_count base (t1 ++ t2) = (trigger_count base t1 + trigger_count base t2)%nat.
Proof. unfold trigger_count. rewrite List.filter_app, length_app. reflexivity. Qed.

Lemma trigger_count_cons_read base a v t :
  trigger_count base (EvRead a v :: t) = trigger_count base t.
Proof. reflexivity. Qed.

Lemma trigger_count_polls base a t : polls_of a t -> trigger_count base t = 0%nat.
Proof. induction 1 as [|e t (v & -> & _) _ IH]; [reflexivity|]. exact IH. Qed.

Lemma trigger_count_data_reads base b t : data_reads b t -> trigger_count base t = 0%nat.
Proof. induction 1 as [|e t (a & v & -> & _) _ IH]; [reflexivity|]. exact IH. Qed.

Lemma trigger_count_cons_write base a v t :
  trigger_count base (EvWrite a v :: t) =
  ((if is_trigger base (EvWrite a v) then 1 else 0) + trigger_count base t)%nat.
Proof.
  unfold trigger_count. cbn [List.filter].
  destruct (is_trigger base (EvWrite a v)); reflexivity.
Qed.

(** A successful command without parameters counts as one trigger command
    when its opcode is TRIG_MEM_CAL, and as none otherwise. *)
Lemma trigger_count_req base ip id ty op p6 len resp d r d' t :
  NoDup (mailbox_regs base) ->
  io96b_mb_req dev base ip id ty op 0 0 0 0 0 0 p6 len resp d = (Ret (0, r), d', t) ->
  trigger_count base t = if u16 op =? u16 TRIG_MEM_CAL then 1%nat else 0%nat.
Proof.
  intros Hnd H. distinct_regs Hnd.
  pose proof (io96b_mb_req_cases base ip id ty op 0 0 0 0 0 0 p6 len resp d) as C.
  rewrite H in C.
  inversion C as [ | | d1' t0 t2 st0 dx dy td l' st v v' dr d3 E Hp0 Hp2 Hd]; subst.
  assert (Htd : data_reads base td).
  { destruct (read_data_loop_run base (Z.to_nat len) 0 (cmd_resp_data (zeroed resp)) dx)
      as (l2 & d2 & t2' & E2 & Ht2 & _). rewrite Hd in E2. inversion E2; subst. exact Ht2. }
  change (param_trace base 0 0 0 0 0 0) with (@nil event). simpl app.
  rewrite !trigger_count_app, (trigger_count_polls _ _ _ Hp0), trigger_count_cons_read,
    trigger_count_cons_write, trigger_count_app, (trigger_count_polls _ _ _ Hp2),
    trigger_count_cons_read, trigger_count_app, (trigger_count_data_reads _ _ _ Htd),
    !trigger_count_cons_read, trigger_count_cons_write.
  cbn [is_trigger].
  rewrite Z.eqb_refl, u16_cmd_req_word,
    (eqb_ne (reg base IOSSM_CMD_RESPONSE_STATUS_OFFSET)) by congruence.
  cbn [andb]. destruct (u16 op =? u16 TRIG_MEM_CAL); reflexivity.
Qed.

(** A round of the retry loop that runs to its end: the live status did not
    report success, and one trigger command was sent. *)
Lemma trig_mem_cal_retry_continue inst j k r b ret d s' d' t :
  NoDup (mailbox_regs (io96b_csr_addr inst)) ->
  u16 TRIG_MEM_CAL <> u16 GET_MEM_CAL_STATUS ->
  trig_mem_cal_retry dev inst j k (r, b, ret) d = (Ret (Continue s'), d', t) ->
  exists r', s' = (r', b, 0)
    /\ trigger_count (io96b_csr_addr inst) t = 1%nat
    /\ live_success dev inst j r d = false.
Proof.
  intros Hnd Hop H. unfold trig_mem_cal_retry in H. unfold live_success.
  apply mbind_inv in H as (off & d0 & t0 & t0' & Hoff & H & ->).
  apply idx_inv in Hoff as (Hoff & -> & ->). rewrite Hoff.
  apply mbind_inv in H as (v & d1 & t1 & t1' & Hv & H & ->).
  apply readl_inv in Hv as (-> & -> & ->).
  destruct (u8 (u32 (fst (dev_readl dev d (reg (io96b_csr_addr inst) off))))
            =? INTF_MEM_CAL_STATUS_SUCCESS) eqn:Hs;
    [apply mret_inv in H as (H & _); discriminate|].
  apply mbind_inv in H as (ip & d2 & t2 & t2' & Hip & H & ->).
  apply idx_inv in Hip as (Hip & -> & ->).
  apply mbind_inv in H as (id & d3 & t3 & t3' & Hid & H & ->).
  apply idx_inv in Hid as (Hid & -> & ->).
  apply mbind_inv in H as ([reta ra] & da & ta & ta' & Ea & H & ->).
  destruct (Z.eqb_spec reta 0) as [->|]; cbn [negb] in H;
    [|apply mret_inv in H as (H & _); discriminate].
  apply mbind_inv in H as ([retb rb] & db & tb & tb' & Eb & H & ->).
  destruct (Z.eqb_spec retb 0) as [->|]; cbn [negb] in H;
    [|apply mret_inv in H as (H & _); discriminate].
  apply mret_inv in H as (H & -> & ->). inversion H; subst.
  exists rb. split; [reflexivity|]. split; [|reflexivity].
  cbn [app]. rewrite app_nil_r, trigger_count_cons_read.
  rewrite !trigger_count_app, (trigger_count_req _ _ _ _ _ _ _ _ _ _ _ _ Hnd Ea),
    (trigger_count_req _ _ _ _ _ _ _ _ _ _ _ _ Hnd Eb).
  rewrite Z.eqb_refl. destruct (Z.eqb_spec (u16 GET_MEM_CAL_STATUS) (u16 TRIG_MEM_CAL));
    [congruence|reflexivity].
Qed.

Lemma rounds_retry inst j k : forall i0 r d rk bk retk dk tk,
  NoDup (mailbox_regs (io96b_csr_addr inst)) ->
  u16 TRIG_MEM_CAL <> u16 GET_MEM_CAL_STATUS ->
  rounds dev (trig_mem_cal_retry dev inst j) i0 k (r, false, 0) d
    = Some ((rk, bk, retk), dk, tk) ->
  bk = false /\ retk = 0 /\ trigger_count (io96b_csr_addr inst) tk = k.
Proof.
  induction k as [|k IH]; intros i0 r d rk bk retk dk tk Hnd Hop H; cbn [rounds] in H.
  - inversion H; subst. auto.
  - destruct (trig_mem_cal_retry dev inst j i0 (r, false, 0) d)
      as [[[[sa|sa|sa]| |] da] ta] eqn:Eb; try discriminate.
    destruct (trig_mem_cal_retry_continue _ _ _ _ _ _ _ _ _ _ Hnd Hop Eb)
      as (r' & -> & Hc & _).
    destruct (rounds dev (trig_mem_cal_retry dev inst j) (S i0) k (r', false, 0) da)
      as [[[sb db] tb]|] eqn:Er; try discriminate.
    inversion H; subst.
    destruct (IH _ _ _ _ _ _ _ _ Hnd Hop Er) as (-> & -> & Hk).
    rewrite trigger_count_app, Hc, Hk. auto.
Qed.

(** The retry loop after [k] failed reads: with [k = 3] it is over, with
    [k < 3] and a successful next read it stops at that read. *)
Lemma retry_loop_run inst j r0 d1 k rk dk tk :
  rounds dev (trig_mem_cal_retry dev inst j) 0 k (r0, false, 0) d1
    = Some ((rk, false, 0), dk, tk) ->
  (k <= 3)%nat ->
  ((k < 3)%nat -> live_success dev inst j rk dk = true) ->
  exists d_end,
    for_ctl dev (trig_mem_cal_retry dev inst j) 0 MAX_RETRY_COUNT (r0, false, 0) d1
      = (Ret (Done (rk, (k <? 3)%nat, 0)), d_end,
         tk ++ (if (k <? 3)%nat then live_read dev inst j rk dk else [])).
Proof.
  intros Hr Hk Hs. unfold MAX_RETRY_COUNT.
  destruct (Nat.ltb_spec k 3) as [Hlt|Hge].
  - destruct (Nat.le_exists_sub (S k) 3 Hlt) as (m & E & _).
    replace 3%nat with (k + S m)%nat by lia.
    rewrite (for_ctl_rounds _ _ _ _ _ _ _ _ _ Hr). simpl Nat.add.
    specialize (Hs Hlt). unfold live_success in Hs. unfold live_read.
    destruct (cmd_resp_data rk !! j) as [off|] eqn:Eoff; [|discriminate].
    assert (Eb : trig_mem_cal_retry dev inst j k (rk, false, 0) dk
                 = (Ret (Break (rk, true, 0)),
                    snd (dev_readl dev dk (reg (io96b_csr_addr inst) off)),
                    [EvRead (reg (io96b_csr_addr inst) off)
                       (u32 (fst (dev_readl dev dk (reg (io96b_csr_addr inst) off))))])).
    { unfold trig_mem_cal_retry, mbind, idx. rewrite Eoff. unfold mret at 1, readl.
      destruct (dev_readl dev dk (reg (io96b_csr_addr inst) off)) as [v d2].
      simpl in Hs |- *. rewrite Hs. reflexivity. }
    rewrite (for_ctl_break _ _ _ _ _ _ _ _ Eb). eexists. reflexivity.
  - assert (k = 3)%nat as -> by lia.
    change 3%nat with (3 + 0)%nat at 1.
    rewrite (for_ctl_rounds _ _ _ _ _ _ _ _ _ Hr). simpl. unfold mret.
    eexists. reflexivity.
Qed.

(** The retry of one interface in terms of the rounds of the loops: take an
    interface [j] of an instance [i] whose calibration flag is not set,
    reached after [i] rounds of the instance loop and [j] rounds of the
    interface loop, with its status query answered, and let the retry loop
    go through [k <= 3] rounds, the next read reporting success when
    [k < 3].  Then exactly [k] trigger commands are sent for the interface;
    with [k < 3] the loop over the interfaces goes on, with [k = 3] the
    interface ends in [-EPERM] and so does the whole call, the flag of the
    instance still not set. *)
Lemma retry_bound_rounds io96b_ctrl0 d_init i io96b_ctrl ua reta count da ti
    inst j u0 ret0 d0 tj r0 d1 t1 k rk bk retk dk tk :
  NoDup (mailbox_regs (io96b_csr_addr inst)) ->
  u16 TRIG_MEM_CAL <> u16 GET_MEM_CAL_STATUS ->
  rounds dev (trig_mem_cal_instance dev) 0 i (io96b_ctrl0, usr_resp_decl, 0, 0) d_init
    = Some ((io96b_ctrl, ua, reta, count), da, ti) ->
  (i < Z.to_nat (num_instance io96b_ctrl0))%nat ->
  io96b io96b_ctrl !! i = Some inst ->
  cal_status inst = false ->
  rounds dev (trig_mem_cal_intf dev inst) 0 j (ua, reta) da = Some ((u0, ret0), d0, tj) ->
  (j < Z.to_nat (num_mem_interface (mb_ctrl inst)))%nat ->
  io96b_mb_req dev (io96b_csr_addr inst) 0 0 CMD_TRIG_MEM_CAL_OP GET_MEM_CAL_STATUS
    0 0 0 0 0 0 0 2 u0 d0 = (Ret (0, r0), d1, t1) ->
  rounds dev (trig_mem_cal_retry dev inst j) 0 k (r0, false, 0) d1
    = Some ((rk, bk, retk), dk, tk) ->
  (k <= MAX_RETRY_COUNT)%nat ->
  ((k < MAX_RETRY_COUNT)%nat -> live_success dev inst j rk dk = true) ->
  let t := t1 ++ tk ++ (if (k <? MAX_RETRY_COUNT)%nat then live_read dev inst j rk dk else []) in
  trigger_count (io96b_csr_addr inst) t = k
  /\ (exists d_end,
        trig_mem_cal_intf dev inst j (u0, ret0) d0
          = (Ret (if (k <? MAX_RETRY_COUNT)%nat then Continue (rk, 0)
                  else GotoErr (rk, - EPERM)), d_end, t))
  /\ (k = MAX_RETRY_COUNT ->
        trig_mem_cal dev io96b_ctrl0 d_init
          = (Ret (- EPERM, io96b_ctrl), dk, ti ++ tj ++ t1 ++ tk)
        /\ (cal_status <$> io96b io96b_ctrl !! i) = Some false).
Proof.
  unfold MAX_RETRY_COUNT. cbv zeta.
  intros Hnd Hop Hri Hi Hinst Hcal Hrj Hj Hq Hrk Hk Hs.
  set (t := t1 ++ tk ++ (if (k <? 3)%nat then live_read dev inst j rk dk else [])).
  destruct (rounds_retry _ _ _ _ _ _ _ _ _ _ _ Hnd Hop Hrk) as (-> & -> & Hcount).
  destruct (retry_loop_run _ _ _ _ _ _ _ _ Hrk Hk Hs) as (d_end & Hloop).
  assert (Hintf : trig_mem_cal_intf dev inst j (u0, ret0) d0
                  = (Ret (if (k <? 3)%nat then Continue (rk, 0) else GotoErr (rk, - EPERM)),
                     d_end, t)).
  { unfold trig_mem_cal_intf, mbind. rewrite Hq.
    change (negb (0 =? 0)) with false. cbv beta iota. rewrite Hloop.
    subst t. destruct (k <? 3)%nat; unfold mret; cbn [negb]; cbv beta iota;
      rewrite ?app_nil_r, <- ?app_assoc; reflexivity. }
  split; [|split].
  - subst t. rewrite !trigger_count_app, (trigger_count_req _ _ _ _ _ _ _ _ _ _ _ _ Hnd Hq), Hcount.
    destruct (Z.eqb_spec (u16 GET_MEM_CAL_STATUS) (u16 TRIG_MEM_CAL)); [congruence|].
    unfold live_read, trigger_count.
    destruct (k <? 3)%nat; [|cbn [List.filter length]; lia].
    destruct (cmd_resp_data rk !! j); cbn [List.filter length is_trigger]; lia.
  - exists d_end. exact Hintf.
  - intros ->. split; [|rewrite Hinst; simpl; rewrite Hcal; reflexivity].
    change (3 <? 3)%nat with false in Hintf, Hloop. subst t.
    change (3 <? 3)%nat with false in Hintf. rewrite !app_nil_r in *.
    assert (d_end = dk) as ->.
    { unfold MAX_RETRY_COUNT in Hloop. change 3%nat with (3 + 0)%nat in Hloop at 1.
      rewrite (for_ctl_rounds _ _ _ _ _ _ _ _ _ Hrk) in Hloop. simpl in Hloop.
      unfold mret in Hloop. congruence. }
    assert (Hinstance : trig_mem_cal_instance dev i (io96b_ctrl, ua, reta, count) da
                        = (Ret (GotoErr (io96b_ctrl, rk, - EPERM, count)), dk,
                           tj ++ t1 ++ tk)).
    { unfold trig_mem_cal_instance, mbind, idx. rewrite Hinst. unfold mret at 1.
      rewrite Hcal. cbn [negb]. cbv beta iota.
      destruct (Nat.le_exists_sub (S j) _ Hj) as (m & E & _).
      replace (Z.to_nat (num_mem_interface (mb_ctrl inst))) with (j + S m)%nat by lia.
      rewrite (for_ctl_rounds _ _ _ _ _ _ _ _ _ Hrj). simpl Nat.add.
      rewrite (for_ctl_goto _ _ _ _ _ _ _ _ Hintf). unfold mret. cbv beta iota.
      cbn [app]. rewrite app_nil_r. reflexivity. }
    unfold trig_mem_cal, mbind.
    destruct (Nat.le_exists_sub (S i) _ Hi) as (m & E & _).
    replace (Z.to_nat (num_instance io96b_ctrl0)) with (i + S m)%nat by lia.
    rewrite (for_ctl_rounds _ _ _ _ _ _ _ _ _ Hri). simpl Nat.add.
    rewrite (for_ctl_goto _ _ _ _ _ _ _ _ Hinstance). unfold mret.
    rewrite app_nil_r. reflexivity.
Qed.

(** *** Where a request reads and writes *)

Lemma reads_of_cons_read a b v t :
  reads_of a (EvRead b v :: t) = (if b =? a then [v] else []) ++ reads_of a t.
Proof. unfold reads_of. simpl. destruct (b =? a); reflexivity. Qed.

Lemma reads_of_cons_write a b v t : reads_of a (EvWrite b v :: t) = reads_of a t.
Proof. reflexivity. Qed.

Lemma reads_of_polls a b t : a <> b -> polls_of b t -> reads_of a t = [].
Proof.
  intros Hab. induction 1 as [|e t (v & -> & _) _ IH]; [reflexivity|].
  rewrite reads_of_cons_read, eqb_ne by congruence. exact IH.
Qed.

Lemma reads_of_within a regs t : a ∉ regs -> within regs t -> reads_of a t = [].
Proof.
  intros Ha. induction 1 as [|e t He _ IH]; [reflexivity|].
  destruct e as [b v|b v]; simpl in He.
  - rewrite reads_of_cons_read, eqb_ne by (intros ->; contradiction). exact IH.
  - rewrite reads_of_cons_write. exact IH.
Qed.

Lemma within_app regs t1 t2 : within regs t1 -> within regs t2 -> within regs (t1 ++ t2).
Proof. intros. apply Forall_app; auto. Qed.

Lemma within_mono regs regs' t : regs ⊆ regs' -> within regs t -> within regs' t.
Proof. intros Hs Ht. eapply Forall_impl; [exact Ht|]. intros e. apply Hs. Qed.

Lemma within_polls base off t :
  off ∈ mailbox_offsets -> polls_of (reg base off) t -> within (mailbox_regs base) t.
Proof.
  intros Hoff Ht. eapply Forall_impl; [exact Ht|]. intros e (v & -> & _).
  cbn [ev_addr]. unfold mailbox_regs. apply list_elem_of_fmap. eauto.
Qed.

Lemma within_param_event base p off :
  off ∈ mailbox_offsets -> within (mailbox_regs base) (param_event base p off).
Proof.
  intros Hoff. unfold param_event, within.
  destruct (p =? 0); [constructor|]. constructor; [|constructor].
  cbn [ev_addr]. unfold mailbox_regs. apply list_elem_of_fmap. eauto.
Qed.

Ltac in_offsets := unfold mailbox_offsets; rewrite !elem_of_cons; tauto.

Lemma within_param_trace base p0 p1 p2 p3 p4 p5 :
  within (mailbox_regs base) (param_trace base p0 p1 p2 p3 p4 p5).
Proof.
  unfold param_trace. repeat apply within_app; apply within_param_event; in_offsets.
Qed.

Lemma within_data_reads base t : data_reads base t -> within (mailbox_regs base) t.
Proof.
  intros Ht. eapply Forall_impl; [exact Ht|]. intros e (a & v & -> & Ha).
  cbn [ev_addr]. unfold data_regs in Ha. unfold mailbox_regs. rewrite !elem_of_cons in Ha.
  apply list_elem_of_fmap.
  destruct Ha as [->|[->|[->|Ha]]]; [eexists; split; [reflexivity|in_offsets].. |].
  inversion Ha.
Qed.

Lemma within_reg base off : off ∈ mailbox_offsets -> reg base off ∈ mailbox_regs base.
Proof. intros. unfold mailbox_regs. apply list_elem_of_fmap. eauto. Qed.

Lemma within_cons regs e t : ev_addr e ∈ regs -> within regs t -> within regs (e :: t).
Proof. intros. constructor; assumption. Qed.

Lemma within_nil regs : within regs [].
Proof. constructor. Qed.

(** Every access of a request goes to a mailbox register of its instance. *)
Lemma io96b_mb_req_within base ip id ty op p0 p1 p2 p3 p4 p5 p6 len resp d :
  within (mailbox_regs base)
    (snd (io96b_mb_req dev base ip id ty op p0 p1 p2 p3 p4 p5 p6 len resp d)).
Proof.
  assert (Hreg : forall off v, off ∈ mailbox_offsets ->
                   ev_addr (EvRead (reg base off) v) ∈ mailbox_regs base
                   /\ ev_addr (EvWrite (reg base off) v) ∈ mailbox_regs base).
  { intros off v Hoff. split; cbn [ev_addr]; apply within_reg, Hoff. }
  assert (HREQ : IOSSM_CMD_REQ_OFFSET ∈ mailbox_offsets) by in_offsets.
  assert (HST : IOSSM_CMD_RESPONSE_STATUS_OFFSET ∈ mailbox_offsets) by in_offsets.
  pose proof (io96b_mb_req_cases base ip id ty op p0 p1 p2 p3 p4 p5 p6 len resp d) as C.
  inversion C as [d1' t1' E Hp1 | d1' t0 t2 v d3 E Hp0 Hp2 | d1' t0 t2 st0 dx dy td l' st v v' dr d3 E Hp0 Hp2 Hd];
    cbn [snd].
  - eapply within_polls; [exact HREQ|exact Hp1].
  - apply within_app; [apply within_app; [eapply within_polls; [exact HREQ|exact Hp0]|]|].
    { apply within_cons; [apply Hreg, HREQ|apply within_nil]. }
    apply within_app; [apply within_param_trace|].
    apply within_cons; [apply Hreg, HREQ|].
    apply within_app; [eapply within_polls; [exact HST|exact Hp2]|].
    apply within_cons; [apply Hreg, HST|apply within_nil].
  - assert (Htd : data_reads base td).
    { destruct (read_data_loop_run base (Z.to_nat len) 0 (cmd_resp_data (zeroed resp)) dx)
        as (l2 & d2 & t2' & E2 & Ht2 & _). rewrite Hd in E2. inversion E2; subst. exact Ht2. }
    apply within_app; [apply within_app; [eapply within_polls; [exact HREQ|exact Hp0]|]|].
    { apply within_cons; [apply Hreg, HREQ|apply within_nil]. }
    apply within_app; [apply within_param_trace|].
    apply within_cons; [apply Hreg, HREQ|].
    apply within_app; [eapply within_polls; [exact HST|exact Hp2]|].
    apply within_cons; [apply Hreg, HST|].
    apply within_app; [apply within_data_reads, Htd|].
    repeat (apply within_cons; [apply Hreg, HST|]). apply within_nil.
Qed.

(** *** Memory size *)

Lemma u16_range x : 0 <= u16 x < 2 ^ 16.
Proof. unfold u16. apply Z.mod_pos_bound. lia. Qed.

Lemma u16_small x : 0 <= x < 2 ^ 16 -> u16 x = x.
Proof. intros. unfold u16. apply Z.mod_small. lia. Qed.

Lemma u16_add_l a b : u16 (u16 a + b) = u16 (a + b).
Proof. unfold u16. apply Z.add_mod_idemp_l. lia. Qed.

Lemma u16_add_r a b : u16 (a + u16 b) = u16 (a + b).
Proof. unfold u16. apply Z.add_mod_idemp_r. lia. Qed.

Lemma Zsum_app l1 l2 : Zsum (l1 ++ l2) = Zsum l1 + Zsum l2.
Proof. unfold Zsum. induction l1 as [|x l1 IH]; cbn [foldr app]; lia. Qed.

Lemma widths_read_app base t1 t2 :
  widths_read base (t1 ++ t2) = widths_read base t1 ++ widths_read base t2.
Proof. unfold widths_read. rewrite reads_of_app, fmap_app. reflexivity. Qed.

Lemma widths_read_within base regs t :
  reg base IOSSM_CMD_RESPONSE_DATA_1_OFFSET ∉ regs -> within regs t ->
  widths_read base t = [].
Proof. intros Ha Ht. unfold widths_read. rewrite (reads_of_within _ _ _ Ha Ht). reflexivity. Qed.

(** A successful request for two data words reads the second data register
    once, and that is the word it returns. *)
Lemma io96b_mb_req_data_1 base ip id ty op p0 p1 p2 p3 p4 p5 p6 d r d' t :
  NoDup (mailbox_regs base) ->
  io96b_mb_req dev base ip id ty op p0 p1 p2 p3 p4 p5 p6 2 usr_resp_decl d
    = (Ret (0, r), d', t) ->
  exists word, cmd_resp_data r !! 1%nat = Some word
    /\ reads_of (reg base IOSSM_CMD_RESPONSE_DATA_1_OFFSET) t = [word].
Proof.
  intros Hnd H. distinct_regs Hnd.
  pose proof (io96b_mb_req_cases base ip id ty op p0 p1 p2 p3 p4 p5 p6 2 usr_resp_decl d) as C.
  rewrite H in C.
  inversion C as [ | | d1' t0 t2 st0 dx dy td l' st v v' dr d3 E Hp0 Hp2 Hd]; subst.
  change (Z.to_nat 2) with 2%nat in Hd.
  change (cmd_resp_data (zeroed usr_resp_decl)) with [0; 0; 0] in Hd.
  cbn [for_range] in Hd.
  apply mbind_inv in Hd as (la & da & ta & ta' & Ha & Hd & ->).
  apply mbind_inv in Hd as (lb & db & tb & tb' & Hb & Hd & ->).
  apply mret_inv in Hd as (-> & -> & ->).
  unfold read_resp_data in Ha, Hb.
  apply mbind_inv in Ha as (v0 & da0 & ta0 & ta1 & Ha & Ha' & ->).
  apply readl_inv in Ha as (-> & -> & ->). apply mret_inv in Ha' as (-> & -> & ->).
  apply mbind_inv in Hb as (v1 & db0 & tb0 & tb1 & Hb & Hb' & ->).
  apply readl_inv in Hb as (Ev1 & -> & ->). apply mret_inv in Hb' as (-> & -> & ->).
  exists v1. split; [reflexivity|].
  assert (Hpar : reads_of (reg base IOSSM_CMD_RESPONSE_DATA_1_OFFSET)
                   (param_trace base p0 p1 p2 p3 p4 p5) = []).
  { unfold param_trace, param_event.
    destruct (p0 =? 0), (p1 =? 0), (p2 =? 0), (p3 =? 0), (p4 =? 0), (p5 =? 0); reflexivity. }
  assert (N1 : reg base IOSSM_CMD_RESPONSE_DATA_1_OFFSET <> reg base IOSSM_CMD_REQ_OFFSET)
    by congruence.
  assert (N2 : reg base IOSSM_CMD_RESPONSE_DATA_1_OFFSET
               <> reg base IOSSM_CMD_RESPONSE_STATUS_OFFSET) by congruence.
  cbn [app].
  repeat (rewrite reads_of_app || rewrite reads_of_cons_read || rewrite reads_of_cons_write).
  rewrite Hpar, (reads_of_polls _ _ _ N1 Hp0), (reads_of_polls _ _ _ N2 Hp2), Z.eqb_refl.
  rewrite !(eqb_ne (reg base IOSSM_CMD_REQ_OFFSET)),
    !(eqb_ne (reg base IOSSM_CMD_RESPONSE_STATUS_OFFSET)),
    !(eqb_ne (reg base IOSSM_CMD_RESPONSE_DATA_0_OFFSET)) by congruence.
  reflexivity.
Qed.

(** One round of the loop of lines 481-493: either the request fails, or
    the size field of the word read from the second data register is added
    to the size, in 16 bits. *)
Lemma get_mem_width_info_intf_step inst j memory_size ret0 d c d1 t1 :
  NoDup (mailbox_regs (io96b_csr_addr inst)) ->
  get_mem_width_info_intf dev inst j (memory_size, ret0) d = (Ret c, d1, t1) ->
  within (mailbox_regs (io96b_csr_addr inst)) t1
  /\ ((exists ret, c = GotoErr (memory_size, ret) /\ ret <> 0)
      \/ (exists word,
            c = Continue (u16 (memory_size + Z.land word (GENMASK 7 0)), 0)
            /\ reads_of (reg (io96b_csr_addr inst) IOSSM_CMD_RESPONSE_DATA_1_OFFSET) t1
               = [word])).
Proof.
  intros Hnd H. unfold get_mem_width_info_intf in H.
  apply mbind_inv in H as (ip & d2 & t2 & t2' & Hip & H & ->).
  apply idx_inv in Hip as (Hip & -> & ->).
  apply mbind_inv in H as (id & d3 & t3 & t3' & Hid & H & ->).
  apply idx_inv in Hid as (Hid & -> & ->).
  apply mbind_inv in H as ([ret r] & da & ta & ta' & Ea & H & ->).
  pose proof (io96b_mb_req_within (io96b_csr_addr inst) ip id CMD_GET_MEM_INFO
                GET_MEM_WIDTH_INFO 0 0 0 0 0 0 0 2 usr_resp_decl d) as W.
  rewrite Ea in W. cbn [snd] in W. cbn [app].
  destruct (Z.eqb_spec ret 0) as [->|Hret]; cbn [negb] in H.
  - apply mbind_inv in H as (word & d4 & t4 & t4' & Hw & H & ->).
    apply idx_inv in Hw as (Hw & -> & ->). apply mret_inv in H as (-> & -> & ->).
    rewrite !app_nil_r. split; [exact W|]. right.
    destruct (io96b_mb_req_data_1 _ _ _ _ _ _ _ _ _ _ _ _ _ _ _ _ Hnd Ea) as (w' & Hw' & Hr).
    exists word. split; [reflexivity|]. congruence.
  - apply mret_inv in H as (-> & -> & ->). rewrite app_nil_r. split; [exact W|].
    left. eauto.
Qed.

Lemma get_mem_width_info_intf_loop inst n : forall j0 memory_size ret0 d f d' t,
  NoDup (mailbox_regs (io96b_csr_addr inst)) ->
  u16 memory_size = memory_size ->
  for_ctl dev (get_mem_width_info_intf dev inst) j0 n (memory_size, ret0) d
    = (Ret f, d', t) ->
  ret0 = 0 ->
  within (mailbox_regs (io96b_csr_addr inst)) t
  /\ match f with
     | Done (memory_size', ret') =>
         ret' = 0
         /\ memory_size' = u16 (memory_size + Zsum (widths_read (io96b_csr_addr inst) t))
         /\ length (widths_read (io96b_csr_addr inst) t) = n
     | Err (_, ret') => ret' <> 0
     end.
Proof.
  induction n as [|n IH]; intros j0 ms ret0 d f d' t Hnd Hms H Hret0; cbn [for_ctl] in H.
  - apply mret_inv in H as (-> & -> & ->). split; [apply within_nil|].
    split; [exact Hret0|]. split; [|reflexivity].
    change (widths_read (io96b_csr_addr inst) []) with (@nil Z).
    change (Zsum []) with 0. rewrite Z.add_0_r. congruence.
  - apply mbind_inv in H as (c & d1 & t1 & t2 & Hb & H & ->).
    destruct (get_mem_width_info_intf_step _ _ _ _ _ _ _ _ Hnd Hb)
      as (W1 & [(ret & -> & Hret)|(word & -> & Hr)]).
    + apply mret_inv in H as (-> & -> & ->). rewrite app_nil_r. auto.
    + destruct (IH _ _ _ _ _ _ _ Hnd (u16_small _ (u16_range _)) H eq_refl) as (W2 & Hf).
      split; [apply within_app; assumption|].
      destruct f as [[ms' ret']|[ms' ret']]; [|exact Hf].
      destruct Hf as (-> & -> & Hlen). split; [reflexivity|].
      assert (E1 : widths_read (io96b_csr_addr inst) t1 = [Z.land word (GENMASK 7 0)])
        by (unfold widths_read; rewrite Hr; reflexivity).
      rewrite widths_read_app, Zsum_app, length_app, Hlen, E1. cbn [length].
      change (Zsum [Z.land word (GENMASK 7 0)]) with (Z.land word (GENMASK 7 0) + 0).
      split; [|reflexivity]. rewrite u16_add_l. f_equal. lia.
Qed.

Lemma all_mailbox_regs_cons inst l :
  all_mailbox_regs (inst :: l) = mailbox_regs (io96b_csr_addr inst) ++ all_mailbox_regs l.
Proof. reflexivity. Qed.

Lemma all_mailbox_regs_lookup l k inst a :
  l !! k = Some inst -> a ∈ mailbox_regs (io96b_csr_addr inst) -> a ∈ all_mailbox_regs l.
Proof.
  revert k. induction l as [|x l IH]; intros [|k] Hk Ha; try discriminate;
    rewrite all_mailbox_regs_cons, elem_of_app.
  - inversion Hk; subst. auto.
  - right. eapply IH; eassumption.
Qed.

Lemma data_1_in_regs base :
  reg base IOSSM_CMD_RESPONSE_DATA_1_OFFSET ∈ mailbox_regs base.
Proof. apply within_reg. in_offsets. Qed.

(** One round of the loop of lines 479-504. *)
Lemma get_mem_width_info_instance_step i io96b_ctrl total ret0 d c d1 t1 :
  (forall inst, io96b io96b_ctrl !! i = Some inst ->
     NoDup (mailbox_regs (io96b_csr_addr inst))) ->
  get_mem_width_info_instance dev i (io96b_ctrl, total, ret0) d = (Ret c, d1, t1) ->
  ret0 = 0 ->
  exists inst, io96b io96b_ctrl !! i = Some inst
    /\ within (mailbox_regs (io96b_csr_addr inst)) t1
    /\ ((exists ret, c = GotoErr (io96b_ctrl, total, ret) /\ ret <> 0)
        \/ (exists memory_size,
              c = Continue (set_io96b (<[i := set_size memory_size inst]> (io96b io96b_ctrl))
                              io96b_ctrl, u16 (total + memory_size), 0)
              /\ memory_size = u16 (Zsum (widths_read (io96b_csr_addr inst) t1))
              /\ length (widths_read (io96b_csr_addr inst) t1)
                 = Z.to_nat (num_mem_interface (mb_ctrl inst)))).
Proof.
  intros Hnd H Hret0. unfold get_mem_width_info_instance in H.
  apply mbind_inv in H as (inst & d2 & t2 & t2' & Hi & H & ->).
  apply idx_inv in Hi as (Hi & -> & ->).
  apply mbind_inv in H as (f & d3 & t3 & t3' & Hl & H & ->).
  destruct (get_mem_width_info_intf_loop inst _ _ _ _ _ _ _ _ (Hnd inst Hi) eq_refl Hl Hret0)
    as (W & Hf).
  exists inst. split; [exact Hi|]. cbn [app].
  destruct f as [[ms ret]|[ms ret]].
  - destruct Hf as (-> & Hms & Hlen). rewrite Z.add_0_l in Hms.
    destruct (Z.eqb_spec ms 0) as [E0|N0];
      apply mret_inv in H as (-> & -> & ->); rewrite app_nil_r; (split; [exact W|]).
    + left. eexists. split; [reflexivity|]. unfold ENOEXEC. lia.
    + right. exists ms. auto.
  - apply mret_inv in H as (-> & -> & ->). rewrite app_nil_r. split; [exact W|].
    left. eauto.
Qed.

Lemma get_mem_width_info_instance_loop n : forall i0 io96b_ctrl total ret0 d f d' t,
  NoDup (all_mailbox_regs (take n (drop i0 (io96b io96b_ctrl)))) ->
  u16 total = total ->
  for_ctl dev (get_mem_width_info_instance dev) i0 n (io96b_ctrl, total, ret0) d
    = (Ret f, d', t) ->
  ret0 = 0 ->
  within (all_mailbox_regs (take n (drop i0 (io96b io96b_ctrl)))) t
  /\ match f with
     | Done (io96b_ctrl', total', ret') =>
         ret' = 0
         /\ (forall i, (i0 <= i < i0 + n)%nat -> is_Some (io96b io96b_ctrl !! i))
         /\ (forall i, (i < i0 \/ i0 + n <= i)%nat ->
               io96b io96b_ctrl' !! i = io96b io96b_ctrl !! i)
         /\ (forall i inst, (i0 <= i < i0 + n)%nat -> io96b io96b_ctrl !! i = Some inst ->
               io96b io96b_ctrl' !! i
               = Some (set_size (u16 (Zsum (widths_read (io96b_csr_addr inst) t))) inst)
               /\ length (widths_read (io96b_csr_addr inst) t)
                  = Z.to_nat (num_mem_interface (mb_ctrl inst)))
         /\ total' = u16 (total + Zsum (size <$> take n (drop i0 (io96b io96b_ctrl'))))
     | Err (_, _, ret') => ret' <> 0
     end.
Proof.
  induction n as [|n IH]; intros i0 ctrl total ret0 d f d' t Hnd Htot H Hret0;
    cbn [for_ctl] in H.
  - apply mret_inv in H as (-> & -> & ->). split; [apply within_nil|].
    split; [exact Hret0|]. split; [intros; lia|]. split; [reflexivity|].
    split; [intros; lia|].
    change (take 0 (drop i0 (io96b ctrl))) with (@nil io96b_instance).
    change (Zsum (size <$> [])) with 0. rewrite Z.add_0_r. congruence.
  - apply mbind_inv in H as (c & d1 & t1 & t2 & Hb & H & ->).
    assert (Hnd0 : forall inst, io96b ctrl !! i0 = Some inst ->
                     NoDup (mailbox_regs (io96b_csr_addr inst))).
    { intros inst Hi. rewrite (drop_S _ _ _ Hi) in Hnd. cbn [firstn] in Hnd.
      rewrite all_mailbox_regs_cons in Hnd. apply NoDup_app in Hnd. tauto. }
    destruct (get_mem_width_info_instance_step _ _ _ _ _ _ _ _ Hnd0 Hb Hret0)
      as (inst0 & Hi0 & W1 & Hc).
    rewrite (drop_S _ _ _ Hi0) in Hnd |- *. cbn [firstn] in Hnd |- *.
    rewrite all_mailbox_regs_cons in Hnd |- *.
    apply NoDup_app in Hnd as (Hnd1 & Hdisj & Hnd2).
    destruct Hc as [(ret & -> & Hret)|(ms & -> & Hms & Hlen)].
    + apply mret_inv in H as (-> & -> & ->). rewrite app_nil_r.
      split; [|exact Hret]. eapply within_mono; [|exact W1].
      intros a Ha. apply elem_of_app. auto.
    + set (ctrl1 := set_io96b (<[i0 := set_size ms inst0]> (io96b ctrl)) ctrl) in *.
      assert (Hdrop : drop (S i0) (io96b ctrl1) = drop (S i0) (io96b ctrl)).
      { subst ctrl1. cbn [io96b set_io96b]. apply drop_insert_lt. lia. }
      specialize (IH (S i0) ctrl1 (u16 (total + ms)) 0 d1 f d' t2).
      rewrite Hdrop in IH.
      destruct (IH Hnd2 (u16_small _ (u16_range _)) H eq_refl) as (W2 & Hf). clear IH.
      split.
      { apply within_app; [eapply within_mono; [|exact W1]|eapply within_mono; [|exact W2]];
          intros a Ha; apply elem_of_app; auto. }
      destruct f as [[[ctrl' total'] ret']|[[ctrl' total'] ret']]; [|exact Hf].
      destruct Hf as (-> & Hsome & Hout & Hin & Htotal). split; [reflexivity|].
      split.
      { intros i Hi. destruct (decide (i = i0)) as [->|Hne]; [eauto|].
        specialize (Hsome i ltac:(lia)). subst ctrl1. cbn [io96b set_io96b] in Hsome.
        rewrite list_lookup_insert_ne in Hsome by lia. exact Hsome. }
      assert (Hi0' : io96b ctrl' !! i0 = Some (set_size ms inst0)).
      { rewrite Hout by lia. subst ctrl1. cbn [io96b set_io96b].
        apply list_lookup_insert_eq. eapply lookup_lt_Some, Hi0. }
      assert (Hw0 : widths_read (io96b_csr_addr inst0) t2 = []).
      { eapply widths_read_within; [|exact W2]. apply Hdisj, data_1_in_regs. }
      split; [|split].
      * intros i Hi. rewrite Hout by lia. subst ctrl1. cbn [io96b set_io96b].
        apply list_lookup_insert_ne. lia.
      * intros i inst Hr Hi.
        destruct (decide (i = i0)) as [->|Hne].
        -- rewrite Hi0 in Hi. inversion Hi; subst inst.
           rewrite widths_read_app, Hw0, app_nil_r. rewrite Hi0', <- Hms. auto.
        -- assert (Hi1 : io96b ctrl1 !! i = Some inst).
           { subst ctrl1. cbn [io96b set_io96b]. rewrite list_lookup_insert_ne by lia.
             exact Hi. }
           destruct (Hin i inst ltac:(lia) Hi1) as (Hsz & Hl).
           assert (Hw1 : widths_read (io96b_csr_addr inst) t1 = []).
           { eapply widths_read_within; [|exact W1]. intros Hbad.
             apply (Hdisj _ Hbad).
             apply (all_mailbox_regs_lookup _ (i - S i0) inst); [|apply data_1_in_regs].
             rewrite lookup_take_lt by lia. rewrite lookup_drop.
             replace (S i0 + (i - S i0))%nat with i by lia. exact Hi. }
           rewrite widths_read_app, Hw1. cbn [app]. auto.
      * rewrite (drop_S _ _ _ Hi0'). cbn [firstn fmap list_fmap].
        rewrite Htotal. unfold Zsum at 2. cbn [foldr]. fold (Zsum (size <$> take n (drop (S i0) (io96b ctrl')))).
        cbn [size set_size]. rewrite u16_add_l. f_equal. lia.
Qed.

Lemma Zsum_nonneg l : Forall (fun x => 0 <= x) l -> 0 <= Zsum l.
Proof. unfold Zsum. induction 1; cbn [foldr]; lia. Qed.

Lemma widths_read_nonneg base t : Forall (fun x => 0 <= x) (widths_read base t).
Proof.
  unfold widths_read. apply Forall_fmap, Forall_forall. intros word _. cbn.
  apply Z.land_nonneg. right. change (GENMASK 7 0) with 255. lia.
Qed.

(** C8: when [get_mem_width_info] returns 0, the size of every instance is
    the sum, in 16 bits, of the size fields (the low 8 bits of the second
    response data word) read for its interfaces, one per interface, and the
    overall size is the sum, in 16 bits, of the sizes of the instances.  A
    sum below 2^16 is the size itself. *)
Theorem get_mem_width_info_sums io96b_ctrl d io96b_ctrl' d' t :
  NoDup (all_mailbox_regs (take (Z.to_nat (num_instance io96b_ctrl)) (io96b io96b_ctrl))) ->
  get_mem_width_info dev io96b_ctrl d = (Ret (0, io96b_ctrl'), d', t) ->
  (forall i inst,
     (i < Z.to_nat (num_instance io96b_ctrl))%nat -> io96b io96b_ctrl !! i = Some inst ->
     let widths := widths_read (io96b_csr_addr inst) t in
     io96b io96b_ctrl' !! i = Some (set_size (u16 (Zsum widths)) inst)
     /\ length widths = Z.to_nat (num_mem_interface (mb_ctrl inst))
     /\ (Zsum widths < 2 ^ 16 -> u16 (Zsum widths) = Zsum widths))
  /\ (let sizes := size <$> take (Z.to_nat (num_instance io96b_ctrl)) (io96b io96b_ctrl') in
      overall_size io96b_ctrl' = u16 (Zsum sizes)
      /\ (Zsum sizes < 2 ^ 16 -> overall_size io96b_ctrl' = Zsum sizes)).
Proof.
  intros Hnd H. unfold get_mem_width_info in H.
  apply mbind_inv in H as (f & d1 & t1 & t2 & Hl & H & ->).
  pose proof (get_mem_width_info_instance_loop (Z.to_nat (num_instance io96b_ctrl))
                0 io96b_ctrl 0 0 d f d1 t1) as L.
  cbn [drop] in L. destruct (L Hnd eq_refl Hl eq_refl) as (W & Hf). clear L.
  destruct f as [[[ctrl1 total] ret]|[[ctrl1 total] ret]].
  2: { apply mret_inv in H as (H & _ & _). inversion H; subst. contradiction. }
  destruct Hf as (-> & Hsome & Hout & Hin & Htotal).
  destruct (Z.eqb_spec total 0) as [E0|N0];
    apply mret_inv in H as (H & -> & ->); inversion H; subst; clear H.
  rewrite app_nil_r. cbn [io96b overall_size set_overall_size].
  assert (Hsz : forall i inst, (i < Z.to_nat (num_instance io96b_ctrl))%nat ->
                  io96b io96b_ctrl !! i = Some inst ->
                  io96b ctrl1 !! i
                  = Some (set_size (u16 (Zsum (widths_read (io96b_csr_addr inst) t1))) inst)
                  /\ length (widths_read (io96b_csr_addr inst) t1)
                     = Z.to_nat (num_mem_interface (mb_ctrl inst))).
  { intros i inst Hi Hlk. apply Hin; [lia|exact Hlk]. }
  split.
  - intros i inst Hi Hlk. cbv zeta. destruct (Hsz i inst Hi Hlk) as (H1 & H2).
    split; [exact H1|]. split; [exact H2|]. intros Hlt. apply u16_small.
    split; [apply Zsum_nonneg, widths_read_nonneg|exact Hlt].
  - cbv zeta. cbn [drop]. rewrite Z.add_0_l. split; [reflexivity|].
    intros Hlt. apply u16_small. split; [|exact Hlt].
    apply Zsum_nonneg, Forall_fmap, Forall_lookup. intros i inst' Hlk. cbn.
    apply lookup_take_Some in Hlk as (Hlk & Hi).
    destruct (io96b io96b_ctrl !! i) as [inst|] eqn:Hold.
    + destruct (Hsz i inst Hi Hold) as (H1 & _). rewrite H1 in Hlk. inversion Hlk; subst.
      cbn [size set_size]. apply u16_range.
    + destruct (Hsome i ltac:(lia)) as [x Hx]. congruence.
Qed.

End Proofs.

(** * Further properties of the driver *)

Ltac distinct_regs H :=
  unfold mailbox_regs, mailbox_offsets in H; simpl in H;
  repeat (apply NoDup_cons in H as [? H]);
  repeat match goal with
         | N : _ ∉ _ |- _ => rewrite ?not_elem_of_cons in N; decompose [and] N; clear N
         end.

Ltac in_offsets := unfold mailbox_offsets; rewrite !elem_of_cons; tauto.

Section MoreProofs.
Context (dev : device) {hdr : iossm_header} {plat : platform_header}.

Lemma writes_to_param_event_same base p off :
  writes_to (reg base off) (param_event base p off) = if p =? 0 then [] else [u32 p].
Proof.
  unfold param_event. destruct (p =? 0); [reflexivity|].
  rewrite writes_to_cons_write, Z.eqb_refl. reflexivity.
Qed.

Lemma data_loop_reads base len l dx l' dy td :
  for_range dev (read_resp_data dev base) 0 len l dx = (Ret l', dy, td) ->
  data_reads base td.
Proof.
  intros H. destruct (read_data_loop_run dev base len 0 l dx) as (l2 & d2 & t2 & E & Ht & _).
  rewrite H in E. inversion E; subst. exact Ht.
Qed.

(** X1: in a call that gets past the idle wait, each of the parameter
    registers 0 to 5 is written exactly when its parameter is not 0, once,
    with the parameter's value, and before the write of the request
    register. *)
Theorem io96b_mb_req_params_0_5 base ip id ty op p0 p1 p2 p3 p4 p5 p6 len resp d d1 t1 :
  NoDup (mailbox_regs base) ->
  wait_for_bit_le32 dev (reg base IOSSM_CMD_REQ_OFFSET) (GENMASK 31 0) false TIMEOUT d
    = (Ret 0, d1, t1) ->
  exists ta tb,
    snd (io96b_mb_req dev base ip id ty op p0 p1 p2 p3 p4 p5 p6 len resp d)
      = ta ++ EvWrite (reg base IOSSM_CMD_REQ_OFFSET) (cmd_req_word ip id ty op) :: tb
    /\ Forall (fun '(p, off) =>
                 writes_to (reg base off) ta = (if p =? 0 then [] else [u32 p])
                 /\ writes_to (reg base off) tb = [])
         [(p0, IOSSM_CMD_PARAM_0_OFFSET); (p1, IOSSM_CMD_PARAM_1_OFFSET);
          (p2, IOSSM_CMD_PARAM_2_OFFSET); (p3, IOSSM_CMD_PARAM_3_OFFSET);
          (p4, IOSSM_CMD_PARAM_4_OFFSET); (p5, IOSSM_CMD_PARAM_5_OFFSET)].
Proof.
  intros Hnd Hw. distinct_regs Hnd.
  pose proof (io96b_mb_req_cases dev base ip id ty op p0 p1 p2 p3 p4 p5 p6 len resp d) as C.
  inversion C as [d1' t1' E _ | d1' t0 t2 v d3 E Hp0 Hp2 | d1' t0 t2 st0 dx dy td l' st v v' dr d3 E Hp0 Hp2 Hd];
    rewrite Hw in E; inversion E; subst; cbn [snd]; rewrite cmd_req_word_u32.
  - exists ((t0 ++ [EvRead (reg base IOSSM_CMD_REQ_OFFSET) 0]) ++
            param_trace base p0 p1 p2 p3 p4 p5). eexists.
    split; [apply app_assoc|].
    repeat first [apply List.Forall_nil | apply List.Forall_cons];
      (split;
       [ unfold param_trace;
         rewrite !writes_to_app, (writes_to_polls _ _ _ Hp0), writes_to_cons_read,
           writes_to_nil;
         repeat first [ rewrite writes_to_param_event_same
                      | rewrite writes_to_param_event by congruence ];
         rewrite ?app_nil_r; reflexivity
       | rewrite writes_to_app, (writes_to_polls _ _ _ Hp2), writes_to_cons_read;
         reflexivity ]).
  - pose proof (data_loop_reads _ _ _ _ _ _ _ Hd) as Htd.
    exists ((t0 ++ [EvRead (reg base IOSSM_CMD_REQ_OFFSET) 0]) ++
            param_trace base p0 p1 p2 p3 p4 p5). eexists.
    split; [apply app_assoc|].
    repeat first [apply List.Forall_nil | apply List.Forall_cons];
      (split;
       [ unfold param_trace;
         rewrite !writes_to_app, (writes_to_polls _ _ _ Hp0), writes_to_cons_read,
           writes_to_nil;
         repeat first [ rewrite writes_to_param_event_same
                      | rewrite writes_to_param_event by congruence ];
         rewrite ?app_nil_r; reflexivity
       | rewrite writes_to_app, (writes_to_polls _ _ _ Hp2), writes_to_cons_read,
           writes_to_app, (writes_to_data_reads _ _ _ Htd), !writes_to_cons_read,
           writes_to_cons_write, eqb_ne by congruence;
         reflexivity ]).
Qed.

(** X2: when the request register does not become idle in time, the call
    returns [-ETIMEDOUT] with the response zeroed, having done nothing but
    read the request register: no parameter, no command, no acknowledgement
    is written. *)
Theorem io96b_mb_req_not_ready base ip id ty op p0 p1 p2 p3 p4 p5 p6 len resp d r d1 t1 :
  length (cmd_resp_data resp) = NUM_CMD_RESPONSE_DATA ->
  wait_for_bit_le32 dev (reg base IOSSM_CMD_REQ_OFFSET) (GENMASK 31 0) false TIMEOUT d
    = (Ret r, d1, t1) ->
  r <> 0 ->
  io96b_mb_req dev base ip id ty op p0 p1 p2 p3 p4 p5 p6 len resp d
    = (Ret (- ETIMEDOUT, {| cmd_resp_status := 0; cmd_resp_data := [0; 0; 0] |}), d1, t1)
  /\ Forall (fun e => exists v, e = EvRead (reg base IOSSM_CMD_REQ_OFFSET) v) t1.
Proof.
  intros Hlen Hw Hr.
  pose proof (io96b_mb_req_cases dev base ip id ty op p0 p1 p2 p3 p4 p5 p6 len resp d) as C.
  inversion C as [d1' t1' E Hp1 | d1' t0 t2 v d3 E Hp0 Hp2 | d1' t0 t2 st0 dx dy td l' st v v' dr d3 E Hp0 Hp2 Hd];
    rewrite Hw in E; inversion E; subst; try contradiction.
  rewrite (zeroed_len3 resp Hlen). split; [reflexivity|].
  eapply Forall_impl; [exact Hp1|]. intros e (v & -> & _). eauto.
Qed.

(** X3: a call always returns, with 0 or [-ETIMEDOUT].  It writes the
    request register at most once.  The status register is written once
    (the acknowledgement) when the call returns 0 and never when it fails. *)
Theorem io96b_mb_req_failure_no_ack base ip id ty op p0 p1 p2 p3 p4 p5 p6 len resp d :
  NoDup (mailbox_regs base) ->
  exists ret resp' d' t,
    io96b_mb_req dev base ip id ty op p0 p1 p2 p3 p4 p5 p6 len resp d
      = (Ret (ret, resp'), d', t)
    /\ (ret = 0 \/ ret = - ETIMEDOUT)
    /\ (length (writes_to (reg base IOSSM_CMD_REQ_OFFSET) t) <= 1)%nat
    /\ length (writes_to (reg base IOSSM_CMD_RESPONSE_STATUS_OFFSET) t)
       = (if ret =? 0 then 1%nat else 0%nat).
Proof.
  intros Hnd. distinct_regs Hnd.
  assert (HparR : writes_to (reg base IOSSM_CMD_REQ_OFFSET)
                    (param_trace base p0 p1 p2 p3 p4 p5) = []).
  { unfold param_trace. rewrite !writes_to_app, !writes_to_param_event by congruence.
    reflexivity. }
  assert (HparS : writes_to (reg base IOSSM_CMD_RESPONSE_STATUS_OFFSET)
                    (param_trace base p0 p1 p2 p3 p4 p5) = []).
  { unfold param_trace. rewrite !writes_to_app, !writes_to_param_event by congruence.
    reflexivity. }
  pose proof (io96b_mb_req_cases dev base ip id ty op p0 p1 p2 p3 p4 p5 p6 len resp d) as C.
  inversion C as [d1' t1' E Hp1 | d1' t0 t2 v d3 E Hp0 Hp2 | d1' t0 t2 st0 dx dy td l' st v v' dr d3 E Hp0 Hp2 Hd].
  - do 4 eexists. split; [reflexivity|]. split; [auto|].
    rewrite !(writes_to_polls _ _ _ Hp1). split; [cbn; lia|reflexivity].
  - do 4 eexists. split; [reflexivity|]. split; [auto|].
    rewrite !writes_to_app, HparR, HparS, !(writes_to_polls _ _ _ Hp0), !writes_to_cons_read,
      !writes_to_cons_write, Z.eqb_refl, !writes_to_app, !(writes_to_polls _ _ _ Hp2),
      !writes_to_cons_read, eqb_ne by congruence.
    split; [cbn; lia|reflexivity].
  - pose proof (data_loop_reads _ _ _ _ _ _ _ Hd) as Htd.
    do 4 eexists. split; [reflexivity|]. split; [auto|].
    rewrite !writes_to_app, HparR, HparS, !(writes_to_polls _ _ _ Hp0), !writes_to_cons_read,
      !writes_to_cons_write, Z.eqb_refl, !writes_to_app, !(writes_to_polls _ _ _ Hp2),
      !writes_to_cons_read, !writes_to_app, !(writes_to_data_reads _ _ _ Htd),
      !writes_to_cons_read, !writes_to_cons_write, Z.eqb_refl, !eqb_ne by congruence.
    split; [cbn; lia|reflexivity].
Qed.

(** X4: whatever the hardware does, a call reads and writes only the twelve
    mailbox registers of the instance it is given. *)
Theorem io96b_mb_req_stays_in_window base ip id ty op p0 p1 p2 p3 p4 p5 p6 len resp d :
  Forall (fun e => ev_addr e ∈ mailbox_regs base)
    (snd (io96b_mb_req dev base ip id ty op p0 p1 p2 p3 p4 p5 p6 len resp d)).
Proof. apply io96b_mb_req_within. Qed.

(** The data loop on a zeroed buffer: register [k] is read exactly when
    [k] is below the requested number of words, and slot [k] holds what was
    read, or 0. *)
Lemma data_loop_words base n dx l' dy td :
  NoDup (mailbox_regs base) ->
  for_range dev (read_resp_data dev base) 0 n [0; 0; 0] dx = (Ret l', dy, td) ->
  Forall (fun '(k, off) =>
            if (k <? n)%nat
            then exists w, reads_of (reg base off) td = [w] /\ l' !! k = Some w
            else reads_of (reg base off) td = [] /\ l' !! k = Some 0)
    [(0%nat, IOSSM_CMD_RESPONSE_DATA_0_OFFSET); (1%nat, IOSSM_CMD_RESPONSE_DATA_1_OFFSET);
     (2%nat, IOSSM_CMD_RESPONSE_DATA_2_OFFSET)].
Proof.
  intros Hnd H.
  assert (Hn : (n = 0 \/ n = 1 \/ n = 2 \/ 3 <= n)%nat) by lia.
  distinct_regs Hnd.
  destruct Hn as [-> | [-> | [-> | Hn]]].
  - cbn [for_range] in H. apply mret_inv in H as (-> & -> & ->).
    repeat (apply List.Forall_cons || apply List.Forall_nil); cbn; auto.
  - cbn [for_range] in H.
    apply mbind_inv in H as (la & da & ta & ta' & Ha & H & ->).
    apply mret_inv in H as (-> & -> & ->).
    unfold read_resp_data in Ha.
    apply mbind_inv in Ha as (v0 & da0 & ta0 & ta1 & Ha & Ha' & ->).
    apply readl_inv in Ha as (_ & -> & ->). apply mret_inv in Ha' as (-> & -> & ->).
    cbn [app].
    repeat (apply List.Forall_cons || apply List.Forall_nil); cbn [Nat.ltb Nat.leb];
      repeat (rewrite reads_of_app || rewrite reads_of_cons_read || rewrite reads_of_cons_write);
      rewrite ?Z.eqb_refl, ?eqb_ne by congruence; eauto.
  - cbn [for_range] in H.
    apply mbind_inv in H as (la & da & ta & ta' & Ha & H & ->).
    apply mbind_inv in H as (lb & db & tb & tb' & Hb & H & ->).
    apply mret_inv in H as (-> & -> & ->).
    unfold read_resp_data in Ha, Hb.
    apply mbind_inv in Ha as (v0 & da0 & ta0 & ta1 & Ha & Ha' & ->).
    apply readl_inv in Ha as (_ & -> & ->). apply mret_inv in Ha' as (-> & -> & ->).
    apply mbind_inv in Hb as (v1 & db0 & tb0 & tb1 & Hb & Hb' & ->).
    apply readl_inv in Hb as (_ & -> & ->). apply mret_inv in Hb' as (-> & -> & ->).
    cbn [app].
    repeat (apply List.Forall_cons || apply List.Forall_nil); cbn [Nat.ltb Nat.leb];
      repeat (rewrite reads_of_app || rewrite reads_of_cons_read || rewrite reads_of_cons_write);
      rewrite ?Z.eqb_refl, ?eqb_ne by congruence; eauto.
  - rewrite (read_data_loop_ge3 dev base n _ _ Hn) in H.
    cbn [for_range] in H.
    apply mbind_inv in H as (la & da & ta & ta' & Ha & H & ->).
    apply mbind_inv in H as (lb & db & tb & tb' & Hb & H & ->).
    apply mbind_inv in H as (lc & dc & tc & tc' & Hc & H & ->).
    apply mret_inv in H as (-> & -> & ->).
    unfold read_resp_data in Ha, Hb, Hc.
    apply mbind_inv in Ha as (v0 & da0 & ta0 & ta1 & Ha & Ha' & ->).
    apply readl_inv in Ha as (_ & -> & ->). apply mret_inv in Ha' as (-> & -> & ->).
    apply mbind_inv in Hb as (v1 & db0 & tb0 & tb1 & Hb & Hb' & ->).
    apply readl_inv in Hb as (_ & -> & ->). apply mret_inv in Hb' as (-> & -> & ->).
    apply mbind_inv in Hc as (v2 & dc0 & tc0 & tc1 & Hc & Hc' & ->).
    apply readl_inv in Hc as (_ & -> & ->). apply mret_inv in Hc' as (-> & -> & ->).
    cbn [app].
    repeat (apply List.Forall_cons || apply List.Forall_nil);
      [replace (0 <? n)%nat with true by (symmetry; apply Nat.ltb_lt; clear -Hn; lia)
      |replace (1 <? n)%nat with true by (symmetry; apply Nat.ltb_lt; clear -Hn; lia)
      |replace (2 <? n)%nat with true by (symmetry; apply Nat.ltb_lt; clear -Hn; lia)];
      repeat (rewrite reads_of_app || rewrite reads_of_cons_read || rewrite reads_of_cons_write);
      rewrite ?Z.eqb_refl, ?eqb_ne by congruence; eauto.
Qed.

(** X5: in a call that returns 0, response data register [k] (k = 0, 1, 2)
    is read exactly once when [k] is below the requested length and never
    otherwise; slot [k] of the returned data is the word read, or 0 for a
    register that was not read.  Lengths above 3 read the three registers
    and nothing more. *)
Theorem io96b_mb_req_data_words base ip id ty op p0 p1 p2 p3 p4 p5 p6 len resp d r d' t :
  NoDup (mailbox_regs base) ->
  length (cmd_resp_data resp) = NUM_CMD_RESPONSE_DATA ->
  io96b_mb_req dev base ip id ty op p0 p1 p2 p3 p4 p5 p6 len resp d = (Ret (0, r), d', t) ->
  Forall (fun '(k, off) =>
            if k <? len
            then exists w, reads_of (reg base off) t = [w]
                           /\ cmd_resp_data r !! Z.to_nat k = Some w
            else reads_of (reg base off) t = []
                 /\ cmd_resp_data r !! Z.to_nat k = Some 0)
    [(0, IOSSM_CMD_RESPONSE_DATA_0_OFFSET); (1, IOSSM_CMD_RESPONSE_DATA_1_OFFSET);
     (2, IOSSM_CMD_RESPONSE_DATA_2_OFFSET)].
Proof.
  intros Hnd Hlen H.
  pose proof (io96b_mb_req_cases dev base ip id ty op p0 p1 p2 p3 p4 p5 p6 len resp d) as C.
  rewrite H in C.
  inversion C as [ | | d1' t0 t2 st0 dx dy td l' st v v' dr d3 E Hp0 Hp2 Hd]; subst.
  rewrite (zeroed_len3 resp Hlen) in Hd. cbn [cmd_resp_data] in Hd |- *.
  pose proof (data_loop_words _ _ _ _ _ _ Hnd Hd) as W.
  distinct_regs Hnd.
  assert (Hrd : forall off, off ∈ [IOSSM_CMD_RESPONSE_DATA_0_OFFSET;
                                  IOSSM_CMD_RESPONSE_DATA_1_OFFSET;
                                  IOSSM_CMD_RESPONSE_DATA_2_OFFSET] ->
          reads_of (reg base off)
            ((t0 ++ [EvRead (reg base IOSSM_CMD_REQ_OFFSET) 0]) ++
             param_trace base p0 p1 p2 p3 p4 p5 ++
             [EvWrite (reg base IOSSM_CMD_REQ_OFFSET) (u32 (cmd_req_word ip id ty op))] ++
             t2 ++ [EvRead (reg base IOSSM_CMD_RESPONSE_STATUS_OFFSET) st0] ++ td ++
             [EvRead (reg base IOSSM_CMD_RESPONSE_STATUS_OFFSET) st;
              EvRead (reg base IOSSM_CMD_RESPONSE_STATUS_OFFSET) v;
              EvWrite (reg base IOSSM_CMD_RESPONSE_STATUS_OFFSET) (ack_value v);
              EvRead (reg base IOSSM_CMD_RESPONSE_STATUS_OFFSET)
                (u32 (fst (dev_readl dev dr (reg base IOSSM_CMD_RESPONSE_STATUS_OFFSET))))])
          = reads_of (reg base off) td).
  { intros off Hoff.
    assert (N1 : reg base off <> reg base IOSSM_CMD_REQ_OFFSET)
      by (rewrite !elem_of_cons in Hoff; destruct Hoff as [->|[->|[->|Hoff]]];
          [congruence..|inversion Hoff]).
    assert (N2 : reg base off <> reg base IOSSM_CMD_RESPONSE_STATUS_OFFSET)
      by (rewrite !elem_of_cons in Hoff; destruct Hoff as [->|[->|[->|Hoff]]];
          [congruence..|inversion Hoff]).
    assert (Hpar : reads_of (reg base off) (param_trace base p0 p1 p2 p3 p4 p5) = []).
    { unfold param_trace, param_event.
      destruct (p0 =? 0), (p1 =? 0), (p2 =? 0), (p3 =? 0), (p4 =? 0), (p5 =? 0); reflexivity. }
    repeat (rewrite reads_of_app || rewrite reads_of_cons_read || rewrite reads_of_cons_write).
    rewrite Hpar, (reads_of_polls _ _ _ N1 Hp0), (reads_of_polls _ _ _ N2 Hp2).
    rewrite !(eqb_ne (reg base IOSSM_CMD_REQ_OFFSET)),
      !(eqb_ne (reg base IOSSM_CMD_RESPONSE_STATUS_OFFSET)) by congruence.
    cbn [app]. rewrite app_nil_r. reflexivity. }
  rewrite !List.Forall_cons_iff in W. destruct W as (W0 & W1 & W2 & _).
  repeat (apply List.Forall_cons || apply List.Forall_nil).
  - rewrite Hrd by (rewrite !elem_of_cons; auto).
    replace (0 <? len) with (0 <? Z.to_nat len)%nat; [exact W0|].
    clear. destruct (Z.ltb_spec 0 len); [apply Nat.ltb_lt|apply Nat.ltb_ge]; lia.
  - rewrite Hrd by (rewrite !elem_of_cons; auto).
    replace (1 <? len) with (1 <? Z.to_nat len)%nat; [exact W1|].
    clear. destruct (Z.ltb_spec 1 len); [apply Nat.ltb_lt|apply Nat.ltb_ge]; lia.
  - rewrite Hrd by (rewrite !elem_of_cons; auto).
    replace (2 <? len) with (2 <? Z.to_nat len)%nat; [exact W2|].
    clear. destruct (Z.ltb_spec 2 len); [apply Nat.ltb_lt|apply Nat.ltb_ge]; lia.
Qed.

(** *** The request word *)

Lemma small_testbit x k n : 0 <= x < 2 ^ k -> 0 <= k <= n -> Z.testbit x n = false.
Proof.
  intros Hx Hk. rewrite <- (Z.mod_small x (2 ^ k)) by lia.
  apply Z.mod_pow2_bits_high. lia.
Qed.

(** X6: the request word is read back field by field.  With the four
    fields in their ranges (IP type 3 bits, instance id 5 bits, command
    type 8 bits, opcode 16 bits) the decoding that the enumeration applies
    to an interface word (IP type from bits 31:29, instance id from bits
    28:24) gives back what was sent, and so do bits 23:16 and 15:0. *)
Theorem cmd_req_word_fields ip id ty op :
  0 <= ip < 2 ^ 3 -> 0 <= id < 2 ^ 5 -> 0 <= ty < 2 ^ 8 -> 0 <= op < 2 ^ 16 ->
  intf_ip_type (cmd_req_word ip id ty op) = ip
  /\ intf_instance_id (cmd_req_word ip id ty op) = id
  /\ FIELD_GET (GENMASK 23 16) (cmd_req_word ip id ty op) = ty
  /\ FIELD_GET (GENMASK 15 0) (cmd_req_word ip id ty op) = op.
Proof.
  intros Hip Hid Hty Hop.
  rewrite FIELD_GET_ip_type, FIELD_GET_instance_id.
  unfold FIELD_GET.
  change (bf_shf (GENMASK 23 16)) with 16. change (bf_shf (GENMASK 15 0)) with 0.
  change (GENMASK 23 16) with (Z.shiftl (Z.ones 8) 16).
  change (GENMASK 15 0) with (Z.ones 16).
  change 7 with (Z.ones 3). change 31 with (Z.ones 5).
  repeat split; apply Z.bits_inj'; intros n Hn;
    rewrite ?Z.shiftr_spec, ?Z.land_spec, ?Z.shiftr_spec, ?Z.shiftl_spec by lia.
  - destruct (Z.ltb_spec n 3).
    + rewrite cmd_req_word_bits, Z.ones_spec_low by lia.
      rewrite (small_testbit op 16), (small_testbit ty 8), (small_testbit id 5) by lia.
      rewrite andb_true_r. cbn [orb]. f_equal. lia.
    + rewrite Z.ones_spec_high, (small_testbit ip 3) by lia. apply andb_false_r.
  - destruct (Z.ltb_spec n 5).
    + rewrite cmd_req_word_bits, Z.ones_spec_low by lia.
      rewrite (small_testbit op 16), (small_testbit ty 8) by lia.
      rewrite (Z.testbit_neg_r ip) by lia.
      rewrite andb_true_r, orb_false_r. cbn [orb]. f_equal. lia.
    + rewrite Z.ones_spec_high, (small_testbit id 5) by lia. apply andb_false_r.
  - destruct (Z.ltb_spec n 8).
    + rewrite cmd_req_word_bits, Z.ones_spec_low by lia.
      rewrite (small_testbit op 16) by lia.
      rewrite (Z.testbit_neg_r ip), (Z.testbit_neg_r id) by lia.
      rewrite andb_true_r, !orb_false_r. cbn [orb]. f_equal. lia.
    + rewrite Z.ones_spec_high, (small_testbit ty 8) by lia. apply andb_false_r.
  - rewrite Z.add_0_r. destruct (Z.ltb_spec n 16).
    + rewrite cmd_req_word_bits, Z.ones_spec_low by lia.
      rewrite (Z.testbit_neg_r ip), (Z.testbit_neg_r id), (Z.testbit_neg_r ty) by lia.
      rewrite andb_true_r, !orb_false_r. reflexivity.
    + rewrite Z.ones_spec_high, (small_testbit op 16) by lia. apply andb_false_r.
Qed.

(** *** Calibration status *)

Lemma cal_status_poll_run n a : forall d,
  let '(o, d', t) := cal_status_poll dev n a d in
  polls_of a t
  /\ match o with
     | Ret (s, f) =>
         exists t0 va vb, t = t0 ++ [EvRead a va; EvRead a vb]
           /\ s = Z.land va IOSSM_STATUS_CAL_SUCCESS /\ f = Z.land vb IOSSM_STATUS_CAL_FAIL
           /\ (s <> 0 \/ f <> 0)
     | Hang => length t = (2 * n)%nat
     | Undef => False
     end.
Proof.
  induction n as [|n IH]; intros d.
  - cbn. split; [constructor|reflexivity].
  - cbn [cal_status_poll]. unfold mbind.
    destruct (readl_run dev a d) as (va & d1 & -> & Hva & _).
    destruct (readl_run dev a d1) as (vb & d2 & -> & Hvb & _).
    assert (P2 : polls_of a [EvRead a va; EvRead a vb]).
    { constructor; [eauto|]. constructor; [eauto|constructor]. }
    destruct (Z.eqb_spec (Z.land va IOSSM_STATUS_CAL_SUCCESS) 0) as [Es|Es];
      [destruct (Z.eqb_spec (Z.land vb IOSSM_STATUS_CAL_FAIL) 0) as [Ef|Ef]|]; cbn [andb].
    + specialize (IH d2). destruct (cal_status_poll dev n a d2) as [[o d3] t3].
      destruct IH as (Hp & Ho). cbn [app]. split.
      * constructor; [eauto|]. constructor; [eauto|exact Hp].
      * destruct o as [[s f]| |]; [| |exact Ho].
        -- destruct Ho as (t0 & wa & wb & -> & Hs & Hf & Hne).
           exists (EvRead a va :: EvRead a vb :: t0), wa, wb. auto.
        -- cbn [length]. lia.
    + unfold mret. cbn [app]. split; [exact P2|]. exists [], va, vb. auto.
    + unfold mret. cbn [app]. split; [exact P2|]. exists [], va, vb. auto.
Qed.

(** X7: [io96b_cal_status] touches nothing but the status register of the
    instance, which it only reads.  When it returns, the value is decided
    by the last two reads: 0 when the first of them shows the success bit
    and the second does not show the fail bit, [-EPERM] when the second
    shows the fail bit.  Otherwise it hangs, after two reads for every poll
    that the time-out allows. *)
Theorem io96b_cal_status_result addr d :
  let '(o, d', t) := io96b_cal_status dev addr d in
  polls_of (reg addr IOSSM_STATUS_OFFSET) t
  /\ match o with
     | Ret r =>
         exists t0 va vb,
           t = t0 ++ [EvRead (reg addr IOSSM_STATUS_OFFSET) va;
                      EvRead (reg addr IOSSM_STATUS_OFFSET) vb]
           /\ (r = 0 /\ Z.land va IOSSM_STATUS_CAL_SUCCESS <> 0
                     /\ Z.land vb IOSSM_STATUS_CAL_FAIL = 0
               \/ r = - EPERM /\ Z.land vb IOSSM_STATUS_CAL_FAIL <> 0)
     | Hang => length t = (2 * S (dev_polls dev d TIMEOUT_60000MS))%nat
     | Undef => False
     end.
Proof.
  unfold io96b_cal_status, mbind.
  pose proof (cal_status_poll_run (S (dev_polls dev d TIMEOUT_60000MS))
                (reg addr IOSSM_STATUS_OFFSET) d) as H.
  destruct (cal_status_poll dev (S (dev_polls dev d TIMEOUT_60000MS))
              (reg addr IOSSM_STATUS_OFFSET) d) as [[o d1] t1].
  destruct H as (Hp & Ho). destruct o as [[s f]| |]; [|auto|auto].
  destruct Ho as (t0 & va & vb & -> & -> & -> & Hne).
  destruct (Z.eqb_spec (Z.land va IOSSM_STATUS_CAL_SUCCESS) 0) as [Es|Es];
    destruct (Z.eqb_spec (Z.land vb IOSSM_STATUS_CAL_FAIL) 0) as [Ef|Ef];
    cbn [negb andb]; unfold mret; rewrite app_nil_r; (split; [exact Hp|]);
    exists t0, va, vb; (split; [reflexivity|]); tauto.
Qed.

(** *** Clock generator lock *)

Lemma FIELD_GET_bit k x : 0 <= k -> bf_shf (BIT k) = k ->
  (FIELD_GET (BIT k) x =? 0) = negb (Z.testbit x k).
Proof.
  intros Hk Hs. unfold FIELD_GET. rewrite Hs. unfold BIT.
  rewrite Z.shiftr_land, Z.shiftr_shiftl_l, Z.sub_diag by lia.
  change (Z.shiftl 1 0) with (Z.ones 1). rewrite Z.land_ones by lia.
  change (2 ^ 1) with 2. rewrite <- Z.bit0_mod, Z.shiftr_spec by lia.
  rewrite Z.add_0_l. destruct (Z.testbit x k); reflexivity.
Qed.

Lemma land_bit_testbit v k : 0 <= k -> Z.land v (BIT k) = BIT k -> Z.testbit v k = true.
Proof.
  intros Hk H. apply (f_equal (fun z => Z.testbit z k)) in H.
  unfold BIT in H. rewrite Z.land_spec, Z.shiftl_spec, Z.sub_diag in H by lia.
  cbn in H. rewrite andb_true_r in H. exact H.
Qed.

(** One of the four steps of [is_ddr_csr_clkgen_locked]: the wait is done
    when the PLL is selected. *)
Lemma clkgen_step k a bit pll (ret0 : Z) d :
  0 <= k -> bf_shf (BIT k) = k -> 0 <= bit ->
  exists r d' t,
    (if negb (FIELD_GET (BIT k) pll =? 0)
     then wait_for_bit_le32 dev a (BIT bit) true TIMEOUT
     else mret dev ret0) d = (Ret r, d', t)
    /\ polls_of a t
    /\ (Z.testbit pll k = false /\ r = ret0 /\ t = [] /\ d' = d
        \/ Z.testbit pll k = true
           /\ (r = - ETIMEDOUT
               \/ r = 0 /\ exists v, EvRead a v ∈ t /\ Z.testbit v bit = true)).
Proof.
  intros Hk Hs Hb. rewrite FIELD_GET_bit, negb_involutive by assumption.
  destruct (Z.testbit pll k).
  - destruct (wait_for_bit_le32_run dev a (BIT bit) true TIMEOUT d)
      as (r & d' & t & -> & Hp & Hr).
    exists r, d', t. split; [reflexivity|]. split; [exact Hp|]. right. split; [reflexivity|].
    destruct Hr as [(-> & t0 & v & -> & _ & Hv)| ->]; [right|left; reflexivity].
    split; [reflexivity|]. exists v. split.
    + apply elem_of_app. right. rewrite elem_of_cons. auto.
    + apply land_bit_testbit; assumption.
  - exists ret0, d, []. split; [reflexivity|]. split; [constructor|]. left. auto.
Qed.

(** X9: [is_ddr_csr_clkgen_locked] always returns, 0 or [-ETIMEDOUT], and
    only reads the two lock status registers.  When no PLL is selected it
    returns 0 without any access.  When it returns 0, every selected PLL
    has been seen locked: its register was read with its lock bit set
    (bit 16 for IO96B0, bit 17 for IO96B1). *)
Theorem is_ddr_csr_clkgen_locked_result pll d :
  exists r d' t,
    is_ddr_csr_clkgen_locked dev pll d = (Ret r, d', t)
    /\ (r = 0 \/ r = - ETIMEDOUT)
    /\ Forall (fun e => exists v, e = EvRead ECC_INTSTATUS_SERR v
                                  \/ e = EvRead ECC_INISTATUS_DERR v) t
    /\ (if Z.land pll 15 =? 0 then r = 0 /\ d' = d /\ t = []
        else r = 0 ->
             Forall (fun '(k, a, bit) =>
                       Z.testbit pll k = true ->
                       exists v, EvRead a v ∈ t /\ Z.testbit v bit = true)
               [(0, ECC_INTSTATUS_SERR, 16); (1, ECC_INISTATUS_DERR, 16);
                (2, ECC_INTSTATUS_SERR, 17); (3, ECC_INISTATUS_DERR, 17)]).
Proof.
  assert (Hnone : Z.land pll 15 = 0 ->
                  Z.testbit pll 0 = false /\ Z.testbit pll 1 = false
                  /\ Z.testbit pll 2 = false /\ Z.testbit pll 3 = false).
  { intros H.
    assert (B : forall k, 0 <= k < 4 -> Z.testbit pll k = false).
    { intros k Hk. apply (f_equal (fun z => Z.testbit z k)) in H.
      change 15 with (Z.ones 4) in H.
      rewrite Z.land_spec, Z.ones_spec_low, andb_true_r, Z.bits_0 in H by lia. exact H. }
    repeat split; apply B; lia. }
  assert (Hw : forall a t, polls_of a t ->
                 a = ECC_INTSTATUS_SERR \/ a = ECC_INISTATUS_DERR ->
                 Forall (fun e => exists v, e = EvRead ECC_INTSTATUS_SERR v
                                            \/ e = EvRead ECC_INISTATUS_DERR v) t).
  { intros a t Hp Ha. eapply Forall_impl; [exact Hp|].
    intros e (v & -> & _). exists v. destruct Ha as [->| ->]; auto. }
  unfold is_ddr_csr_clkgen_locked.
  unfold IO96B0_PLL_A_MASK, IO96B0_PLL_B_MASK, IO96B1_PLL_A_MASK, IO96B1_PLL_B_MASK,
    DDR_CSR_CLKGEN_LOCKED_IO96B0_MASK, DDR_CSR_CLKGEN_LOCKED_IO96B1_MASK.
  unfold mbind at 1.
  destruct (clkgen_step 0 ECC_INTSTATUS_SERR 16 pll 0 d) as (r0 & d0 & t0 & -> & P0 & C0);
    [lia|reflexivity|lia|].
  assert (F0 := Hw _ _ P0 (or_introl eq_refl)).
  destruct (Z.eqb_spec r0 0) as [->|N0]; cbn [negb].
  2: { destruct C0 as [(_ & -> & _)|(T0 & [->|(-> & _)])]; try congruence.
       exists (- ETIMEDOUT), d0, t0. unfold mret. rewrite app_nil_r.
       split; [reflexivity|]. split; [auto|]. split; [exact F0|].
       destruct (Z.eqb_spec (Z.land pll 15) 0) as [E|E].
       - apply Hnone in E as (E & _). congruence.
       - intros R. discriminate R. }
  unfold mbind at 1.
  destruct (clkgen_step 1 ECC_INISTATUS_DERR 16 pll 0 d0) as (r1 & d1 & t1 & -> & P1 & C1);
    [lia|reflexivity|lia|].
  assert (F1 := Hw _ _ P1 (or_intror eq_refl)).
  destruct (Z.eqb_spec r1 0) as [->|N1]; cbn [negb].
  2: { destruct C1 as [(_ & -> & _)|(T1 & [->|(-> & _)])]; try congruence.
       exists (- ETIMEDOUT), d1, (t0 ++ t1). unfold mret. rewrite app_nil_r.
       split; [reflexivity|]. split; [auto|]. split; [rewrite ?Forall_app; auto|].
       destruct (Z.eqb_spec (Z.land pll 15) 0) as [E|E].
       - apply Hnone in E as (_ & E & _). congruence.
       - intros R. discriminate R. }
  unfold mbind at 1.
  destruct (clkgen_step 2 ECC_INTSTATUS_SERR 17 pll 0 d1) as (r2 & d2 & t2 & -> & P2 & C2);
    [lia|reflexivity|lia|].
  assert (F2 := Hw _ _ P2 (or_introl eq_refl)).
  destruct (Z.eqb_spec r2 0) as [->|N2]; cbn [negb].
  2: { destruct C2 as [(_ & -> & _)|(T2 & [->|(-> & _)])]; try congruence.
       exists (- ETIMEDOUT), d2, (t0 ++ t1 ++ t2). unfold mret. rewrite app_nil_r.
       split; [reflexivity|]. split; [auto|]. split; [rewrite ?Forall_app; auto|].
       destruct (Z.eqb_spec (Z.land pll 15) 0) as [E|E].
       - apply Hnone in E as (_ & _ & E & _). congruence.
       - intros R. discriminate R. }
  destruct (clkgen_step 3 ECC_INISTATUS_DERR 17 pll 0 d2) as (r3 & d3 & t3 & -> & P3 & C3);
    [lia|reflexivity|lia|].
  assert (F3 := Hw _ _ P3 (or_intror eq_refl)).
  exists r3, d3, (t0 ++ t1 ++ t2 ++ t3).
  split; [reflexivity|]. split.
  { destruct C3 as [(_ & -> & _)|(_ & [->|(-> & _)])]; auto. }
  split; [rewrite ?Forall_app; auto|].
  destruct (Z.eqb_spec (Z.land pll 15) 0) as [E|E].
  - apply Hnone in E as (E0 & E1 & E2 & E3).
    destruct C0 as [(_ & _ & -> & ->)|(T & _)]; [|congruence].
    destruct C1 as [(_ & _ & -> & ->)|(T & _)]; [|congruence].
    destruct C2 as [(_ & _ & -> & ->)|(T & _)]; [|congruence].
    destruct C3 as [(_ & -> & -> & ->)|(T & _)]; [|congruence].
    auto.
  - intros ->.
    repeat (apply List.Forall_cons || apply List.Forall_nil); intros T.
    + destruct C0 as [(T' & _)|(_ & [R|(_ & v & Hv & Hb)])]; [congruence|discriminate R|].
      exists v. split; [|exact Hb]. rewrite !elem_of_app. auto.
    + destruct C1 as [(T' & _)|(_ & [R|(_ & v & Hv & Hb)])]; [congruence|discriminate R|].
      exists v. split; [|exact Hb]. rewrite !elem_of_app. auto.
    + destruct C2 as [(T' & _)|(_ & [R|(_ & v & Hv & Hb)])]; [congruence|discriminate R|].
      exists v. split; [|exact Hb]. rewrite !elem_of_app. auto.
    + destruct C3 as [(T' & _)|(_ & [R|(_ & v & Hv & Hb)])]; [congruence|discriminate R|].
      exists v. split; [|exact Hb]. rewrite !elem_of_app. auto.
Qed.

(** *** Initial calibration *)

Lemma forallb_take_lookup {A} (f : A -> bool) n : forall l,
  (forall k, (k < n)%nat -> exists x, l !! k = Some x /\ f x = true) ->
  forallb f (take n l) = true.
Proof.
  induction n as [|n IH]; intros l H; [reflexivity|].
  destruct l as [|x l].
  - destruct (H 0%nat) as (y & Hy & _); [lia|]. discriminate Hy.
  - cbn [take firstn forallb]. apply andb_true_intro. split.
    + destruct (H 0%nat) as (y & Hy & Hf); [lia|]. inversion Hy; subst. exact Hf.
    + apply IH. intros k Hk. apply (H (S k)). lia.
Qed.

Lemma set_io96b_eta c : set_io96b (io96b c) c = c.
Proof. destruct c; reflexivity. Qed.

Lemma init_mem_cal_loop n : forall i0 c cnt d c' cnt' d' t,
  for_range dev (init_mem_cal_instance dev) i0 n (c, cnt) d = (Ret (c', cnt'), d', t) ->
  cnt' = cnt + Z.of_nat n
  /\ c' = set_io96b (io96b c') c
  /\ (forall k, io96b c' !! k =
                if decide (i0 <= k < i0 + n)%nat
                then set_cal_status true <$> io96b c !! k else io96b c !! k)
  /\ (forall k, (i0 <= k < i0 + n)%nat -> is_Some (io96b c !! k)).
Proof.
  induction n as [|n IH]; intros i0 c cnt d c' cnt' d' t H.
  - cbn [for_range] in H. apply mret_inv in H as (E & _). inversion E; subst.
    split; [lia|]. split; [symmetry; apply set_io96b_eta|]. split.
    + intros k. case_decide; [lia|reflexivity].
    + intros k Hk. lia.
  - cbn [for_range] in H.
    apply mbind_inv in H as ([c1 cnt1] & d1 & t1 & t2 & H1 & H2 & ->).
    unfold init_mem_cal_instance in H1.
    apply mbind_inv in H1 as (inst & da & ta & tb & Ha & H1 & ->).
    apply idx_inv in Ha as (Hinst & -> & ->).
    apply mbind_inv in H1 as (ret & db & tc & td & Hb & H1 & ->).
    destruct (negb (ret =? 0)); [discriminate H1|].
    apply mret_inv in H1 as (E & -> & ->). inversion E; subst. clear E.
    apply IH in H2 as (Hc & Hn & Hk & Hs).
    cbn [io96b set_io96b] in Hk, Hs.
    split; [lia|]. split; [rewrite Hn at 1; reflexivity|]. split.
    + intros k. rewrite Hk. destruct (decide (k = i0)) as [->|Hne].
      * rewrite list_lookup_insert_eq by (eapply lookup_lt_Some; eauto).
        rewrite Hinst. repeat case_decide; try lia. reflexivity.
      * rewrite list_lookup_insert_ne by lia. repeat case_decide; try lia; reflexivity.
    + intros k Hk'. destruct (decide (k = i0)) as [->|Hne]; [eauto|].
      specialize (Hs k ltac:(lia)). rewrite list_lookup_insert_ne in Hs by lia. exact Hs.
Qed.

Lemma init_mem_cal_run ctrl d ctrl' d' t :
  0 <= num_instance ctrl ->
  init_mem_cal dev ctrl d = (Ret ctrl', d', t) ->
  overall_cal_status ctrl' = true
  /\ all_cal_passed ctrl' = true
  /\ ctrl' = set_overall_cal_status true (set_io96b (io96b ctrl') ctrl)
  /\ (forall k, io96b ctrl' !! k =
                if decide (k < Z.to_nat (num_instance ctrl))%nat
                then set_cal_status true <$> io96b ctrl !! k else io96b ctrl !! k).
Proof.
  intros Hn H. unfold init_mem_cal in H.
  apply mbind_inv in H as (u & d1 & t1 & t2 & _ & H & ->).
  apply mbind_inv in H as ([c1 cnt] & d2 & t3 & t4 & Hl & H & ->).
  apply init_mem_cal_loop in Hl as (Hc & He & Hk & Hs).
  cbn [io96b num_instance set_overall_cal_status] in Hk, Hs, Hc.
  assert (Hni : num_instance c1 = num_instance ctrl) by (rewrite He; reflexivity).
  rewrite Hni in H.
  replace (cnt =? num_instance ctrl) with true in H by (symmetry; apply Z.eqb_eq; lia).
  apply mret_inv in H as (-> & -> & ->).
  cbn [overall_cal_status io96b set_overall_cal_status].
  split; [reflexivity|]. split; [|split].
  - unfold all_cal_passed. cbn [num_instance io96b set_overall_cal_status]. rewrite Hni.
    apply forallb_take_lookup. intros k Hlt.
    destruct (Hs k ltac:(lia)) as (x & Hx). rewrite Hk, Hx.
    case_decide; [|lia]. eexists. split; reflexivity.
  - rewrite He at 1. reflexivity.
  - intros k. rewrite Hk. repeat case_decide; try lia; reflexivity.
Qed.

(** X8: [init_mem_cal] returns only with every instance in use marked as
    calibrated and the overall flag set (anything else ends in [hang]).  It
    changes nothing else: the instance table is the old one with the flag
    set in the slots in use, and the other fields keep their values. *)
Theorem init_mem_cal_all_passed ctrl d ctrl' d' t :
  0 <= num_instance ctrl ->
  init_mem_cal dev ctrl d = (Ret ctrl', d', t) ->
  overall_cal_status ctrl' = true
  /\ all_cal_passed ctrl' = true
  /\ ctrl' = set_overall_cal_status true (set_io96b (io96b ctrl') ctrl)
  /\ (forall k, io96b ctrl' !! k =
                if decide (k < Z.to_nat (num_instance ctrl))%nat
                then set_cal_status true <$> io96b ctrl !! k else io96b ctrl !! k).
Proof. apply init_mem_cal_run. Qed.

(** *** Loops with [break] and [goto err] *)

(** An invariant of the rounds holds when the loop is left by its end or by
    [break]; what holds at a [goto err] holds after the loop. *)
Lemma for_ctl_inv {St} (body : nat -> St -> M dev (ctl St)) (I E : St -> Prop) :
  (forall i s d c d' t, I s -> body i s d = (Ret c, d', t) ->
     match c with Continue s' | Break s' => I s' | GotoErr s' => E s' end) ->
  forall n i0 s d f d' t, I s -> for_ctl dev body i0 n s d = (Ret f, d', t) ->
     match f with Done s' => I s' | Err s' => E s' end.
Proof.
  intros Hb. induction n as [|n IH]; intros i0 s d f d' t Hs H; cbn [for_ctl] in H.
  - apply mret_inv in H as (-> & _). exact Hs.
  - apply mbind_inv in H as (c & d1 & t1 & t2 & H1 & H & ->).
    pose proof (Hb _ _ _ _ _ _ Hs H1) as Hc. destruct c as [s1|s1|s1].
    + eapply IH; eauto.
    + apply mret_inv in H as (-> & _). exact Hc.
    + apply mret_inv in H as (-> & _). exact Hc.
Qed.

(** The same for an invariant that depends on the index, in a loop whose
    body has no [break]. *)
Lemma for_ctl_inv_idx {St} (body : nat -> St -> M dev (ctl St))
    (I : nat -> St -> Prop) (E : St -> Prop) (N : nat) :
  (forall i s d c d' t, (i < N)%nat -> I i s -> body i s d = (Ret c, d', t) ->
     match c with Continue s' => I (S i) s' | Break s' => False | GotoErr s' => E s' end) ->
  forall n i0 s d f d' t, (i0 + n <= N)%nat -> I i0 s ->
     for_ctl dev body i0 n s d = (Ret f, d', t) ->
     match f with Done s' => I (i0 + n)%nat s' | Err s' => E s' end.
Proof.
  intros Hb. induction n as [|n IH]; intros i0 s d f d' t Hn Hs H; cbn [for_ctl] in H.
  - apply mret_inv in H as (-> & _). rewrite Nat.add_0_r. exact Hs.
  - apply mbind_inv in H as (c & d1 & t1 & t2 & H1 & H & ->).
    pose proof (Hb i0 _ _ _ _ _ ltac:(lia) Hs H1) as Hc. destruct c as [s1|s1|s1].
    + replace (i0 + S n)%nat with (S i0 + n)%nat by lia. eapply IH; eauto. lia.
    + destruct Hc.
    + apply mret_inv in H as (-> & _). exact Hc.
Qed.

Lemma io96b_mb_req_ret base ip id ty op p0 p1 p2 p3 p4 p5 p6 len resp d ret r d' t :
  io96b_mb_req dev base ip id ty op p0 p1 p2 p3 p4 p5 p6 len resp d = (Ret (ret, r), d', t) ->
  ret = 0 \/ ret = - ETIMEDOUT.
Proof.
  intros H.
  pose proof (io96b_mb_req_cases dev base ip id ty op p0 p1 p2 p3 p4 p5 p6 len resp d) as C.
  rewrite H in C. inversion C; auto.
Qed.

(** *** Re-calibration *)

Lemma cal_err_nonzero ret : cal_err ret -> ret <> 0.
Proof. unfold cal_err, ETIMEDOUT, EPERM. lia. Qed.

Lemma trig_mem_cal_retry_ctl inst j k s d c d' t :
  snd s = 0 ->
  trig_mem_cal_retry dev inst j k s d = (Ret c, d', t) ->
  match c with
  | Continue s' | Break s' => snd s' = 0
  | GotoErr s' => cal_err (snd s')
  end.
Proof.
  destruct s as [[r b] ret]. cbn [snd]. intros -> H. unfold trig_mem_cal_retry in H.
  apply mbind_inv in H as (off & d0 & t0 & t0' & _ & H & ->).
  apply mbind_inv in H as (v & d1 & t1 & t1' & _ & H & ->).
  destruct (u8 v =? INTF_MEM_CAL_STATUS_SUCCESS);
    [apply mret_inv in H as (-> & _); reflexivity|].
  apply mbind_inv in H as (ip & d2 & t2 & t2' & _ & H & ->).
  apply mbind_inv in H as (id & d3 & t3 & t3' & _ & H & ->).
  apply mbind_inv in H as ([reta ra] & da & ta & ta' & Ea & H & ->).
  apply io96b_mb_req_ret in Ea.
  destruct (Z.eqb_spec reta 0) as [->|Na]; cbn [negb] in H.
  2: { apply mret_inv in H as (-> & _). cbn [snd]. left. destruct Ea; congruence. }
  apply mbind_inv in H as ([retb rb] & db & tb & tb' & Eb & H & ->).
  apply io96b_mb_req_ret in Eb.
  destruct (Z.eqb_spec retb 0) as [->|Nb]; cbn [negb] in H;
    apply mret_inv in H as (-> & _); cbn [snd]; [reflexivity|].
  left. destruct Eb; congruence.
Qed.

Lemma trig_mem_cal_intf_ctl inst j s d c d' t :
  trig_mem_cal_intf dev inst j s d = (Ret c, d', t) ->
  match c with
  | Continue s' => snd s' = 0
  | Break s' => False
  | GotoErr s' => cal_err (snd s')
  end.
Proof.
  destruct s as [u ret]. intros H. unfold trig_mem_cal_intf in H.
  apply mbind_inv in H as ([reta ra] & da & ta & ta' & Ea & H & ->).
  apply io96b_mb_req_ret in Ea.
  destruct (Z.eqb_spec reta 0) as [->|Na]; cbn [negb] in H.
  2: { apply mret_inv in H as (-> & _). cbn [snd]. left. destruct Ea; congruence. }
  apply mbind_inv in H as (f & db & tb & tb' & Hf & H & ->).
  pose proof (for_ctl_inv (trig_mem_cal_retry dev inst j)
                (fun s => snd s = 0) (fun s => cal_err (snd s))
                (fun i s d c d' t => trig_mem_cal_retry_ctl inst j i s d c d' t)
                MAX_RETRY_COUNT 0%nat (ra, false, 0) _ _ _ _ eq_refl Hf) as Hinv.
  destruct f as [[[u1 b1] r1]|[[u1 b1] r1]]; cbn [snd] in Hinv.
  - destruct b1; cbn [negb] in H; apply mret_inv in H as (-> & _); cbn [snd].
    + exact Hinv.
    + right. reflexivity.
  - apply mret_inv in H as (-> & _). exact Hinv.
Qed.

Lemma trig_mem_cal_instance_ctl ctrl i s d c d' t :
  (i < Z.to_nat (num_instance ctrl))%nat ->
  recal_done ctrl i s ->
  trig_mem_cal_instance dev i s d = (Ret c, d', t) ->
  match c with
  | Continue s' => recal_done ctrl (S i) s'
  | Break s' => False
  | GotoErr s' => recal_failed ctrl s'
  end.
Proof.
  destruct s as [[[c0 u] ret] cnt]. intros Hi (-> & Hn & Hk) H.
  unfold trig_mem_cal_instance in H.
  apply mbind_inv in H as (inst & da & ta & ta' & Ha & H & ->).
  apply idx_inv in Ha as (Hinst & -> & ->).
  destruct (cal_status inst) eqn:Hcal; cbn [negb] in H.
  - apply mret_inv in H as (-> & _). split; [reflexivity|]. split; [exact Hn|].
    intros k Hlt. destruct (decide (k = i)) as [->|Hne]; [eauto|apply Hk; lia].
  - apply mbind_inv in H as (f & db & tb & tb' & Hf & H & ->).
    pose proof (for_ctl_inv_idx (trig_mem_cal_intf dev inst)
                  (fun _ s => snd s = 0) (fun s => cal_err (snd s))
                  (Z.to_nat (num_mem_interface (mb_ctrl inst)))
                  (fun j s d c d' t _ _ => trig_mem_cal_intf_ctl inst j s d c d' t)
                  (Z.to_nat (num_mem_interface (mb_ctrl inst))) 0%nat (u, 0) _ _ _ _
                  (Nat.le_refl _) eq_refl Hf) as Hinv.
    destruct f as [[u1 r1]|[u1 r1]]; cbn [snd] in Hinv;
      apply mret_inv in H as (-> & _).
    + split; [exact Hinv|]. cbn [num_instance io96b set_io96b set_overall_cal_status].
      split; [exact Hn|]. intros k Hlt. destruct (decide (k = i)) as [->|Hne].
      * rewrite list_lookup_insert_eq by (eapply lookup_lt_Some; eauto).
        eexists. split; reflexivity.
      * rewrite list_lookup_insert_ne by lia. apply Hk. lia.
    + split; [exact Hinv|]. split; [exact Hn|]. exists i, inst. auto.
Qed.

Lemma forallb_take_false {A} (f : A -> bool) n : forall l k x,
  (k < n)%nat -> l !! k = Some x -> f x = false -> forallb f (take n l) = false.
Proof.
  induction n as [|n IH]; intros l k x Hk Hl Hf; [lia|].
  destruct l as [|y l]; [discriminate Hl|].
  cbn [take firstn forallb]. destruct k as [|k].
  - inversion Hl; subst. rewrite Hf. reflexivity.
  - rewrite (IH l k x) by (assumption || lia). apply andb_false_r.
Qed.

(** X10: [trig_mem_cal] returns 0 exactly when it leaves every instance in
    use marked as calibrated; otherwise it returns [-ETIMEDOUT] (a mailbox
    command timed out) or [-EPERM] (an interface did not recover), and the
    instance at which it stopped is still marked as not calibrated. *)
Theorem trig_mem_cal_result ctrl d ret ctrl' d' t :
  trig_mem_cal dev ctrl d = (Ret (ret, ctrl'), d', t) ->
  all_cal_passed ctrl' = (ret =? 0)
  /\ (ret = 0 \/ ret = - ETIMEDOUT \/ ret = - EPERM)
  /\ num_instance ctrl' = num_instance ctrl.
Proof.
  intros H. unfold trig_mem_cal in H.
  apply mbind_inv in H as (f & d1 & t1 & t2 & Hf & H & ->).
  pose proof (for_ctl_inv_idx (trig_mem_cal_instance dev)
                (recal_done ctrl) (recal_failed ctrl) (Z.to_nat (num_instance ctrl))
                (fun i s d c d' t => trig_mem_cal_instance_ctl ctrl i s d c d' t)
                (Z.to_nat (num_instance ctrl)) 0%nat (ctrl, usr_resp_decl, 0, 0) _ _ _ _
                (Nat.le_refl _)
                (conj eq_refl (conj eq_refl (fun k (Hk : (k < 0)%nat) =>
                   False_ind _ (Nat.nlt_0_r k Hk)))) Hf) as Hinv.
  destruct f as [[[[c1 u1] r1] n1]|[[[c1 u1] r1] n1]]; apply mret_inv in H as (E & _);
    inversion E; subst; clear E.
  - destruct Hinv as (-> & Hn & Hk). split; [|auto].
    unfold all_cal_passed. rewrite Hn. apply forallb_take_lookup. exact Hk.
  - destruct Hinv as (He & Hn & k & x & Hk & Hx & Hc).
    pose proof (cal_err_nonzero _ He) as Hnz.
    split; [|split; [destruct He; auto|exact Hn]].
    unfold all_cal_passed. rewrite Hn, (forallb_take_false _ _ _ _ _ Hk Hx Hc).
    symmetry. apply Z.eqb_neq. exact Hnz.
Qed.

(** X11: with every instance in use already marked as calibrated,
    [trig_mem_cal] returns 0 without touching the hardware and without
    changing the controller data; in particular it leaves the overall flag
    as it finds it. *)
Theorem trig_mem_cal_nothing_to_do ctrl d :
  (forall k, (k < Z.to_nat (num_instance ctrl))%nat ->
     exists x, io96b ctrl !! k = Some x /\ cal_status x = true) ->
  trig_mem_cal dev ctrl d = (Ret (0, ctrl), d, []).
Proof.
  intros Hall. unfold trig_mem_cal.
  assert (L : forall n i0 s, (i0 + n <= Z.to_nat (num_instance ctrl))%nat ->
            fst (fst (fst s)) = ctrl ->
            for_ctl dev (trig_mem_cal_instance dev) i0 n s d = (Ret (Done s), d, [])).
  { induction n as [|n IH]; intros i0 s Hn Hs; [reflexivity|].
    cbn [for_ctl]. destruct s as [[[c u] r] cnt]. cbn [fst] in Hs. subst c.
    destruct (Hall i0 ltac:(lia)) as (x & Hx & Hc).
    unfold mbind at 1. unfold trig_mem_cal_instance at 1. unfold mbind at 1, idx.
    rewrite Hx. unfold mret at 1. rewrite Hc. cbn [negb]. unfold mret at 1.
    rewrite IH by (reflexivity || lia). reflexivity. }
  unfold mbind. rewrite L by (reflexivity || lia). reflexivity.
Qed.

(** *** Property queries *)

Lemma get_mem_width_info_intf_ctl inst j s d c d' t :
  snd s = 0 ->
  get_mem_width_info_intf dev inst j s d = (Ret c, d', t) ->
  match c with
  | Continue s' => snd s' = 0 /\ 0 <= fst s' < 2 ^ 16
  | Break s' => False
  | GotoErr s' => snd s' = - ETIMEDOUT
  end.
Proof.
  destruct s as [m ret]. intros _ H. unfold get_mem_width_info_intf in H.
  apply mbind_inv in H as (ip & d2 & t2 & t2' & _ & H & ->).
  apply mbind_inv in H as (id & d3 & t3 & t3' & _ & H & ->).
  apply mbind_inv in H as ([reta ra] & da & ta & ta' & Ea & H & ->).
  apply io96b_mb_req_ret in Ea.
  destruct (Z.eqb_spec reta 0) as [->|Na]; cbn [negb] in H.
  2: { apply mret_inv in H as (-> & _). cbn [snd]. destruct Ea; congruence. }
  apply mbind_inv in H as (w & d4 & t4 & t4' & _ & H & ->).
  apply mret_inv in H as (-> & _). cbn [fst snd]. split; [reflexivity|apply u16_range].
Qed.

Lemma set_io96b_frame c0 l0 ctrl l : c0 = set_io96b l0 ctrl -> set_io96b l c0 = set_io96b l ctrl.
Proof. intros ->. reflexivity. Qed.

Lemma set_size_eta x : set_size (size x) x = x.
Proof. destruct x; reflexivity. Qed.

Lemma get_mem_width_info_instance_ctl ctrl i s d c d' t :
  (i < Z.to_nat (num_instance ctrl))%nat ->
  widths_done ctrl i s ->
  get_mem_width_info_instance dev i s d = (Ret c, d', t) ->
  match c with
  | Continue s' => widths_done ctrl (S i) s'
  | Break s' => False
  | GotoErr s' => widths_failed ctrl s'
  end.
Proof.
  destruct s as [[c0 total] ret]. intros Hi (-> & Ht & Hc & Hk) H.
  unfold get_mem_width_info_instance in H.
  apply mbind_inv in H as (inst & da & ta & ta' & Ha & H & ->).
  apply idx_inv in Ha as (Hinst & -> & ->).
  apply mbind_inv in H as (f & db & tb & tb' & Hf & H & ->).
  pose proof (for_ctl_inv_idx (get_mem_width_info_intf dev inst)
                (fun _ s => snd s = 0 /\ 0 <= fst s < 2 ^ 16) (fun s => snd s = - ETIMEDOUT)
                (Z.to_nat (num_mem_interface (mb_ctrl inst)))
                (fun j s d c d' t _ Hs =>
                   get_mem_width_info_intf_ctl inst j s d c d' t (proj1 Hs))
                (Z.to_nat (num_mem_interface (mb_ctrl inst))) 0%nat (0, 0) _ _ _ _
                (Nat.le_refl _) (conj eq_refl (conj (Z.le_refl 0) eq_refl)) Hf) as Hinv.
  assert (Hfail : forall k,
            match io96b ctrl !! k with
            | Some x =>
                exists sz, io96b c0 !! k = Some (set_size sz x)
                  /\ ((Z.to_nat (num_instance ctrl) <= k)%nat -> sz = size x)
            | None => io96b c0 !! k = None
            end).
  { intros k. specialize (Hk k). destruct (io96b ctrl !! k) as [x|]; [|exact Hk].
    destruct Hk as (sz & Hsz & Hd). exists sz. split; [exact Hsz|].
    intros Hge. case_decide; [lia|exact Hd]. }
  destruct f as [[m r1]|[m r1]]; cbn [fst snd] in Hinv.
  - destruct Hinv as (-> & Hm).
    destruct (Z.eqb_spec m 0) as [->|Nm]; apply mret_inv in H as (-> & _).
    + split; [right; reflexivity|]. split; [exact Hc|exact Hfail].
    + split; [reflexivity|]. split; [apply u16_range|].
      cbn [io96b set_io96b]. split; [eapply set_io96b_frame; exact Hc|].
      intros k. specialize (Hk k). destruct (decide (k = i)) as [->|Hne].
      * rewrite list_lookup_insert_eq by (eapply lookup_lt_Some; eauto).
        destruct (io96b ctrl !! i) as [x|]; [|congruence].
        destruct Hk as (sz & Hsz & Hd). case_decide; [lia|]. subst sz.
        rewrite Hinst in Hsz. inversion Hsz; subst inst.
        exists m. split; [reflexivity|]. case_decide; lia.
      * rewrite list_lookup_insert_ne by lia.
        destruct (io96b ctrl !! k) as [x|]; [|exact Hk].
        destruct Hk as (sz & Hsz & Hd). exists sz. split; [exact Hsz|].
        repeat case_decide; try lia; exact Hd.
  - apply mret_inv in H as (-> & _). split; [left; exact Hinv|]. split; [exact Hc|exact Hfail].
Qed.

(** X12: [get_mem_width_info] returns 0, [-ETIMEDOUT] or [-ENOEXEC], and
    it changes nothing but sizes: every instance is the old one with a size
    put in, the slots not in use keep theirs, and of the other fields only
    the overall size may differ.  When it returns 0, the overall size it
    has stored is not 0, there is at least one instance, and every instance
    in use has a size that is not 0 (all below 2^16).  On an error the
    overall size is left as it was.  A controller without instances gives
    [-ENOEXEC], with no register access and the data unchanged. *)
Theorem get_mem_width_info_result ctrl d ret ctrl' d' t :
  get_mem_width_info dev ctrl d = (Ret (ret, ctrl'), d', t) ->
  (ret = 0 \/ ret = - ETIMEDOUT \/ ret = - ENOEXEC)
  /\ ctrl' = set_overall_size (overall_size ctrl') (set_io96b (io96b ctrl') ctrl)
  /\ (forall k,
        match io96b ctrl !! k with
        | Some x =>
            exists sz, io96b ctrl' !! k = Some (set_size sz x)
              /\ (if decide (k < Z.to_nat (num_instance ctrl))%nat
                  then ret = 0 -> 0 < sz < 2 ^ 16
                  else sz = size x)
        | None => io96b ctrl' !! k = None
        end)
  /\ (if ret =? 0
      then 0 < overall_size ctrl' < 2 ^ 16 /\ 0 < num_instance ctrl
      else overall_size ctrl' = overall_size ctrl)
  /\ (num_instance ctrl <= 0 -> ret = - ENOEXEC /\ ctrl' = ctrl /\ t = []).
Proof.
  intros H. unfold get_mem_width_info in H.
  assert (Hnone : num_instance ctrl <= 0 -> ret = - ENOEXEC /\ ctrl' = ctrl /\ t = []).
  { intros Hn. replace (Z.to_nat (num_instance ctrl)) with 0%nat in H by lia.
    cbn [for_ctl] in H. unfold mbind, mret in H. cbn in H. inversion H. auto. }
  apply mbind_inv in H as (f & d1 & t1 & t2 & Hf & H & ->).
  assert (H0 : widths_done ctrl 0 (ctrl, 0, 0)).
  { split; [reflexivity|]. split; [lia|]. split; [symmetry; apply set_io96b_eta|].
    intros k. destruct (io96b ctrl !! k) as [x|] eqn:Hx; [|reflexivity].
    exists (size x). split; [rewrite set_size_eta; reflexivity|].
    case_decide; [lia|reflexivity]. }
  pose proof (for_ctl_inv_idx (get_mem_width_info_instance dev)
                (widths_done ctrl) (widths_failed ctrl) (Z.to_nat (num_instance ctrl))
                (fun i s d c d' t Hi => get_mem_width_info_instance_ctl ctrl i s d c d' t Hi)
                (Z.to_nat (num_instance ctrl)) 0%nat (ctrl, 0, 0) _ _ _ _
                (Nat.le_refl _) H0 Hf) as Hinv.
  destruct f as [[[c1 total] r1]|[[c1 total] r1]].
  - destruct Hinv as (-> & Ht & Hc & Hk).
    assert (Hslots : forall k,
              match io96b ctrl !! k with
              | Some x =>
                  exists sz, io96b c1 !! k = Some (set_size sz x)
                    /\ (if decide (k < Z.to_nat (num_instance ctrl))%nat
                        then 0 < sz < 2 ^ 16 else sz = size x)
              | None => io96b c1 !! k = None
              end).
    { intros k. specialize (Hk k). destruct (io96b ctrl !! k) as [x|]; [|exact Hk].
      destruct Hk as (sz & Hsz & Hd). exists sz. split; [exact Hsz|].
      repeat case_decide; try lia; exact Hd. }
    destruct (Z.eqb_spec total 0) as [->|Nt]; apply mret_inv in H as (E & _);
      inversion E; subst; clear E.
    + split; [auto|]. split; [rewrite <- Hc; match goal with |- ?c = _ => destruct c end; reflexivity|]. split.
      { intros k. specialize (Hslots k). destruct (io96b ctrl !! k) as [x|]; [|exact Hslots].
        destruct Hslots as (sz & Hsz & Hd). exists sz. split; [exact Hsz|].
        case_decide; [intros; assumption|exact Hd]. }
      split; [|exact Hnone].
      change (- ENOEXEC =? 0) with false. cbv beta iota. rewrite Hc. reflexivity.
    + split; [auto|]. cbn [overall_size io96b set_overall_size].
      split; [rewrite <- Hc; reflexivity|]. split.
      { intros k. specialize (Hslots k). destruct (io96b ctrl !! k) as [x|]; [|exact Hslots].
        destruct Hslots as (sz & Hsz & Hd). exists sz. split; [exact Hsz|].
        case_decide; [intros; assumption|exact Hd]. }
      split; [|exact Hnone].
      change (0 =? 0) with true. cbv beta iota. split; [lia|].
      destruct (Z.lt_trichotomy 0 (num_instance ctrl)) as [Hp|Hp]; [exact Hp|exfalso].
      destruct Hnone as (Hr & _); [lia|]. discriminate Hr.
  - destruct Hinv as (He & Hc & Hk). apply mret_inv in H as (E & _).
    inversion E; subst ret ctrl'; clear E.
    assert (Hnz : r1 <> 0) by (destruct He as [->| ->]; discriminate).
    split; [destruct He; auto|].
    split; [rewrite <- Hc; match goal with |- ?c = _ => destruct c end; reflexivity|]. split.
    { intros k. specialize (Hk k). destruct (io96b ctrl !! k) as [x|]; [|exact Hk].
      destruct Hk as (sz & Hsz & Hd). exists sz. split; [exact Hsz|].
      case_decide; [intros; contradiction|apply Hd; lia]. }
    split; [|exact Hnone].
    rewrite (proj2 (Z.eqb_neq _ _) Hnz). rewrite Hc. reflexivity.
Qed.

Lemma set_ddr_type_frame c t0 ctrl t : c = set_ddr_type t0 ctrl ->
  set_ddr_type t c = set_ddr_type t ctrl.
Proof. intros ->. reflexivity. Qed.

Lemma get_mem_technology_intf_ctl ctrl inst j s d c d' t :
  tech_kept ctrl s /\ snd s = 0 ->
  get_mem_technology_intf dev inst j s d = (Ret c, d', t) ->
  match c with
  | Continue s' | Break s' => tech_kept ctrl s' /\ snd s' = 0
  | GotoErr s' => tech_kept ctrl s' /\ query_err (snd s')
  end.
Proof.
  destruct s as [c0 ret]. unfold tech_kept. cbn [fst snd]. intros ((Hc & Hin) & ->) H.
  unfold get_mem_technology_intf in H.
  apply mbind_inv in H as (ip & d2 & t2 & t2' & _ & H & ->).
  apply mbind_inv in H as (id & d3 & t3 & t3' & _ & H & ->).
  apply mbind_inv in H as ([reta ra] & da & ta & ta' & Ea & H & ->).
  apply io96b_mb_req_ret in Ea.
  destruct (Z.eqb_spec reta 0) as [->|Na]; cbn [negb] in H.
  2: { apply mret_inv in H as (-> & _). cbn [fst snd].
       split; [auto|]. left. destruct Ea; congruence. }
  apply mbind_inv in H as (c1 & d4 & t4 & t4' & H1 & H & ->).
  assert (K : c1 = set_ddr_type (ddr_type c1) ctrl /\ ddr_type c1 ∈ ddr_type_list).
  { destruct (String.eqb (ddr_type c0) "UNKNOWN").
    - apply mbind_inv in H1 as (ty & d5 & t5 & t5' & Hty & H1 & ->).
      apply idx_inv in Hty as (Hty & _). apply mret_inv in H1 as (-> & _).
      cbn [ddr_type set_ddr_type]. split.
      + eapply set_ddr_type_frame. exact Hc.
      + eapply list_elem_of_lookup_2. exact Hty.
    - apply mret_inv in H1 as (-> & _). auto. }
  apply mbind_inv in H as (ty & d5 & t5 & t5' & _ & H & ->).
  destruct (negb (String.eqb ty (ddr_type c1))); apply mret_inv in H as (-> & _);
    cbn [fst snd]; split; auto. right. reflexivity.
Qed.

Lemma get_mem_technology_instance_ctl ctrl i s d c d' t :
  tech_kept ctrl s /\ snd s = 0 ->
  get_mem_technology_instance dev i s d = (Ret c, d', t) ->
  match c with
  | Continue s' | Break s' => tech_kept ctrl s' /\ snd s' = 0
  | GotoErr s' => tech_kept ctrl s' /\ query_err (snd s')
  end.
Proof.
  intros Hs H. unfold get_mem_technology_instance in H.
  apply mbind_inv in H as (inst & da & ta & ta' & _ & H & ->).
  apply mbind_inv in H as (f & db & tb & tb' & Hf & H & ->).
  pose proof (for_ctl_inv (get_mem_technology_intf dev inst)
                (fun s => tech_kept ctrl s /\ snd s = 0)
                (fun s => tech_kept ctrl s /\ query_err (snd s))
                (fun j s d c d' t => get_mem_technology_intf_ctl ctrl inst j s d c d' t)
                (Z.to_nat (num_mem_interface (mb_ctrl inst))) 0%nat s _ _ _ _ Hs Hf) as Hinv.
  destruct f as [s1|s1]; apply mret_inv in H as (-> & _); exact Hinv.
Qed.

(** X13: [get_mem_technology] returns 0, [-ETIMEDOUT] or [-ENOEXEC]; it
    changes no field of the controller data but the type, and the type it
    leaves is an entry of [ddr_type_list]. *)
Theorem get_mem_technology_result ctrl d ret ctrl' d' t :
  get_mem_technology dev ctrl d = (Ret (ret, ctrl'), d', t) ->
  (ret = 0 \/ ret = - ETIMEDOUT \/ ret = - ENOEXEC)
  /\ ctrl' = set_ddr_type (ddr_type ctrl') ctrl
  /\ ddr_type ctrl' ∈ ddr_type_list.
Proof.
  intros H. unfold get_mem_technology in H.
  apply mbind_inv in H as (ty & d0 & t0 & t0' & Hty & H & ->).
  apply idx_inv in Hty as (Hty & _).
  apply mbind_inv in H as (f & d1 & t1 & t2 & Hf & H & ->).
  assert (H0 : tech_kept ctrl (set_ddr_type ty ctrl, 0) /\ snd (set_ddr_type ty ctrl, 0) = 0).
  { split; [|reflexivity]. split; [reflexivity|].
    cbn [fst ddr_type set_ddr_type]. eapply list_elem_of_lookup_2. exact Hty. }
  pose proof (for_ctl_inv (get_mem_technology_instance dev)
                (fun s => tech_kept ctrl s /\ snd s = 0)
                (fun s => tech_kept ctrl s /\ query_err (snd s))
                (fun i s d c d' t => get_mem_technology_instance_ctl ctrl i s d c d' t)
                _ 0%nat (set_ddr_type ty ctrl, 0) _ _ _ _ H0 Hf) as Hinv.
  destruct f as [[c1 r1]|[c1 r1]]; apply mret_inv in H as (E & _); inversion E; subst;
    destruct Hinv as ((Hc & Hin) & Hr); cbn [fst snd] in Hc, Hin, Hr.
  - auto.
  - split; [destruct Hr; auto|auto].
Qed.

(** X14: a type code outside [ddr_type_list] is not caught.  The code is
    the low three bits of the short response, so it can be 7, while the
    list has the entries 0 to 6: when an interface answers 7, the list is
    read past its end. *)
Theorem get_mem_technology_code_7 inst j ctrl ret ip id d resp d1 t1 :
  ip_type (mb_ctrl inst) !! j = Some ip ->
  ip_instance_id (mb_ctrl inst) !! j = Some id ->
  io96b_mb_req dev (io96b_csr_addr inst) ip id CMD_GET_MEM_INFO GET_MEM_TECHNOLOGY
    0 0 0 0 0 0 0 0 usr_resp_decl d = (Ret (0, resp), d1, t1) ->
  u8 (Z.land (IOSSM_CMD_RESPONSE_DATA_SHORT (cmd_resp_status resp)) (GENMASK 2 0)) = 7 ->
  get_mem_technology_intf dev inst j (ctrl, ret) d = (Undef, d1, t1).
Proof.
  intros Hip Hid Hreq H7. unfold get_mem_technology_intf.
  unfold mbind at 1, idx. rewrite Hip. unfold mret at 1.
  unfold mbind at 1. rewrite Hid. unfold mret at 1.
  unfold mbind at 1. rewrite Hreq. cbn [negb Z.eqb]. cbv beta iota.
  rewrite H7. change (ddr_type_list !! Z.to_nat 7) with (@None string).
  unfold mbind, undef, mret.
  destruct (String.eqb (ddr_type ctrl) "UNKNOWN"); rewrite ?app_nil_r; reflexivity.
Qed.

Lemma set_ecc_status_frame c b0 ctrl b : c = set_ecc_status b0 ctrl ->
  set_ecc_status b c = set_ecc_status b ctrl.
Proof. intros ->. reflexivity. Qed.

Lemma ecc_enable_status_intf_ctl ctrl inst j s d c d' t :
  ecc_kept ctrl s /\ snd s = 0 ->
  ecc_enable_status_intf dev inst j s d = (Ret c, d', t) ->
  match c with
  | Continue s' | Break s' => ecc_kept ctrl s' /\ snd s' = 0
  | GotoErr s' => ecc_kept ctrl s' /\ query_err (snd s')
  end.
Proof.
  destruct s as [[c0 set] ret]. unfold ecc_kept. cbn [fst snd]. intros ((Hc & Hf) & ->) H.
  unfold ecc_enable_status_intf in H.
  apply mbind_inv in H as (ip & d2 & t2 & t2' & _ & H & ->).
  apply mbind_inv in H as (id & d3 & t3 & t3' & _ & H & ->).
  apply mbind_inv in H as ([reta ra] & da & ta & ta' & Ea & H & ->).
  apply io96b_mb_req_ret in Ea.
  destruct (Z.eqb_spec reta 0) as [->|Na]; cbn [negb] in H.
  2: { apply mret_inv in H as (-> & _). cbn [fst snd].
       split; [auto|]. left. destruct Ea; congruence. }
  cbv zeta in H.
  match type of H with
  | (if negb (Bool.eqb ?e (ecc_status ?c1)) then _ else _) _ = _ =>
      assert (K : c1 = set_ecc_status (ecc_status c1) ctrl)
        by (destruct set; cbn [negb]; [exact Hc|eapply set_ecc_status_frame; exact Hc]);
      destruct (negb (Bool.eqb e (ecc_status c1)))
  end; apply mret_inv in H as (-> & _); cbn [fst snd];
    (split; [split; [exact K|discriminate]|]); [right|]; reflexivity.
Qed.

Lemma ecc_enable_status_instance_ctl ctrl i s d c d' t :
  ecc_kept ctrl s /\ snd s = 0 ->
  ecc_enable_status_instance dev i s d = (Ret c, d', t) ->
  match c with
  | Continue s' | Break s' => ecc_kept ctrl s' /\ snd s' = 0
  | GotoErr s' => ecc_kept ctrl s' /\ query_err (snd s')
  end.
Proof.
  intros Hs H. unfold ecc_enable_status_instance in H.
  apply mbind_inv in H as (inst & da & ta & ta' & _ & H & ->).
  apply mbind_inv in H as (f & db & tb & tb' & Hf & H & ->).
  pose proof (for_ctl_inv (ecc_enable_status_intf dev inst)
                (fun s => ecc_kept ctrl s /\ snd s = 0)
                (fun s => ecc_kept ctrl s /\ query_err (snd s))
                (fun j s d c d' t => ecc_enable_status_intf_ctl ctrl inst j s d c d' t)
                (Z.to_nat (num_mem_interface (mb_ctrl inst))) 0%nat s _ _ _ _ Hs Hf) as Hinv.
  destruct f as [s1|s1]; apply mret_inv in H as (-> & _); exact Hinv.
Qed.

(** X15: [ecc_enable_status] returns 0, [-ETIMEDOUT] or [-ENOEXEC] and
    changes no field of the controller data but the ECC status. *)
Theorem ecc_enable_status_result ctrl d ret ctrl' d' t :
  ecc_enable_status dev ctrl d = (Ret (ret, ctrl'), d', t) ->
  (ret = 0 \/ ret = - ETIMEDOUT \/ ret = - ENOEXEC)
  /\ ctrl' = set_ecc_status (ecc_status ctrl') ctrl.
Proof.
  intros H. unfold ecc_enable_status in H.
  apply mbind_inv in H as (f & d1 & t1 & t2 & Hf & H & ->).
  assert (H0 : ecc_kept ctrl (set_ecc_status false ctrl, false, 0)
               /\ snd (set_ecc_status false ctrl, false, 0) = 0).
  { split; [|reflexivity]. split; reflexivity. }
  pose proof (for_ctl_inv (ecc_enable_status_instance dev)
                (fun s => ecc_kept ctrl s /\ snd s = 0)
                (fun s => ecc_kept ctrl s /\ query_err (snd s))
                (fun i s d c d' t => ecc_enable_status_instance_ctl ctrl i s d c d' t)
                _ 0%nat (set_ecc_status false ctrl, false, 0) _ _ _ _ H0 Hf) as Hinv.
  destruct f as [[[c1 b1] r1]|[[c1 b1] r1]]; apply mret_inv in H as (E & _); inversion E; subst;
    destruct Hinv as ((Hc & _) & Hr); cbn [fst snd] in Hc, Hr.
  - auto.
  - split; [destruct Hr; auto|auto].
Qed.

(** *** Memory initialisation BIST *)

(** The polling loop always comes to an end: with the flag when the last
    status response shows it, without it when the time is over. *)
Lemma bist_status_poll_run n base ip id : forall u d,
  exists b u' d' t,
    bist_status_poll dev n base ip id u d = (Ret (b, u'), d', t)
    /\ short_bit0 u' = b.
Proof.
  induction n as [|n IH]; intros u d; cbn [bist_status_poll]; unfold mbind;
    pose proof (io96b_mb_req_cases dev base ip id CMD_TRIG_CONTROLLER_OP BIST_MEM_INIT_STATUS
                  0 0 0 0 0 0 0 0 u d) as C;
    destruct (io96b_mb_req dev base ip id CMD_TRIG_CONTROLLER_OP BIST_MEM_INIT_STATUS
                0 0 0 0 0 0 0 0 u d) as [[o d1] t1];
    assert (Ho : exists r, o = Ret r) by (inversion C; eauto);
    destruct Ho as ([ret u1] & ->); cbn [snd]; fold (short_bit0 u1);
    destruct (short_bit0 u1) eqn:Hb; unfold mret.
  - do 4 eexists. split; [reflexivity|exact Hb].
  - do 4 eexists. split; [reflexivity|exact Hb].
  - do 4 eexists. split; [reflexivity|exact Hb].
  - destruct (IH u1 d1) as (b & u' & d' & t & -> & Hb'). do 4 eexists. split; [reflexivity|exact Hb'].
Qed.

Lemma bist_mem_init_start_intf_ctl inst j s d c d' t :
  bist_mem_init_start_intf dev inst j s d = (Ret c, d', t) ->
  match c with
  | Continue s' => snd s' = 0 /\ short_bit0 (fst s') = true
  | Break s' => False
  | GotoErr s' => query_err (snd s')
  end.
Proof.
  destruct s as [u ret]. intros H. unfold bist_mem_init_start_intf in H.
  apply mbind_inv in H as (ip & d2 & t2 & t2' & _ & H & ->).
  apply mbind_inv in H as (id & d3 & t3 & t3' & _ & H & ->).
  apply mbind_inv in H as ([reta ra] & da & ta & ta' & Ea & H & ->).
  apply io96b_mb_req_ret in Ea.
  destruct (Z.eqb_spec reta 0) as [->|Na]; cbn [negb] in H.
  2: { apply mret_inv in H as (-> & _). cbn [snd]. left. destruct Ea; congruence. }
  cbv zeta in H. fold (short_bit0 ra) in H.
  destruct (short_bit0 ra); cbn [negb] in H.
  2: { apply mret_inv in H as (-> & _). right. reflexivity. }
  apply mbind_inv in H as ([b u'] & db & tb & tb' & Hp & H & ->).
  destruct (bist_status_poll_run (dev_polls dev da TIMEOUT) (io96b_csr_addr inst) ip id ra da)
    as (b0 & u0 & d0 & t0 & Hp' & Hb).
  rewrite Hp in Hp'. inversion Hp'; subst.
  destruct (short_bit0 u0) eqn:Hu; apply mret_inv in H as (-> & _); cbn [fst snd].
  - auto.
  - left. reflexivity.
Qed.

Lemma bist_mem_init_start_ret ctrl d ret d' t :
  bist_mem_init_start dev ctrl d = (Ret ret, d', t) ->
  ret = 0 \/ ret = - ETIMEDOUT \/ ret = - ENOEXEC.
Proof.
  intros H. unfold bist_mem_init_start in H.
  apply mbind_inv in H as (f & d1 & t1 & t2 & Hf & H & ->).
  assert (Hbody : forall i s d c d' t, snd s = 0 ->
            bist_mem_init_start_instance dev ctrl i s d = (Ret c, d', t) ->
            match c with
            | Continue s' | Break s' => snd s' = 0
            | GotoErr s' => query_err (snd s')
            end).
  { intros i s d0 c d0' t0 Hs Hi. unfold bist_mem_init_start_instance in Hi.
    apply mbind_inv in Hi as (inst & da & ta & ta' & _ & Hi & ->).
    apply mbind_inv in Hi as (g & db & tb & tb' & Hg & Hi & ->).
    pose proof (for_ctl_inv (bist_mem_init_start_intf dev inst)
                  (fun s => snd s = 0) (fun s => query_err (snd s))) as L.
    specialize (L (fun j s d c d' t _ H =>
                     match c as c0 return
                       match c0 with
                       | Continue s' => snd s' = 0 /\ short_bit0 (fst s') = true
                       | Break s' => False
                       | GotoErr s' => query_err (snd s')
                       end ->
                       match c0 with
                       | Continue s' | Break s' => snd s' = 0
                       | GotoErr s' => query_err (snd s')
                       end
                     with
                     | Continue _ => fun K => proj1 K
                     | Break _ => fun K => False_ind _ K
                     | GotoErr _ => fun K => K
                     end (bist_mem_init_start_intf_ctl inst j s d c d' t H))).
    specialize (L _ _ _ _ _ _ _ Hs Hg).
    destruct g as [s1|s1]; apply mret_inv in Hi as (-> & _); exact L. }
  pose proof (for_ctl_inv (bist_mem_init_start_instance dev ctrl)
                (fun s => snd s = 0) (fun s => query_err (snd s)) Hbody
                _ 0%nat (usr_resp_decl, 0) _ _ _ _ eq_refl Hf) as Hinv.
  destruct f as [[u1 r1]|[u1 r1]]; apply mret_inv in H as (-> & _); cbn [snd] in Hinv.
  - auto.
  - destruct Hinv; auto.
Qed.

Lemma no_hang_mret {A} (a : A) d : no_hang dev (mret dev a d).
Proof. discriminate. Qed.

Lemma no_hang_mbind {A B} (m : M dev A) (f : A -> M dev B) d :
  no_hang dev (m d) -> (forall a d1, no_hang dev (f a d1)) -> no_hang dev (mbind dev m f d).
Proof.
  unfold no_hang, mbind. intros Hm Hf.
  destruct (m d) as [[[a| |] d1] t1]; cbn [fst] in *; [|congruence|discriminate].
  specialize (Hf a d1). destruct (f a d1) as [[r d2] t2]. exact Hf.
Qed.

Lemma no_hang_idx {A} (l : list A) i d : no_hang dev (idx dev l i d).
Proof. unfold idx. destruct (l !! i); discriminate. Qed.

Lemma no_hang_for_ctl {St} (body : nat -> St -> M dev (ctl St)) :
  (forall i s d, no_hang dev (body i s d)) ->
  forall n i0 s d, no_hang dev (for_ctl dev body i0 n s d).
Proof.
  intros Hb. induction n as [|n IH]; intros i0 s d; cbn [for_ctl].
  - apply no_hang_mret.
  - apply no_hang_mbind; [apply Hb|]. intros [s1|s1|s1] d1;
      [apply IH|apply no_hang_mret|apply no_hang_mret].
Qed.

Lemma no_hang_io96b_mb_req base ip id ty op p0 p1 p2 p3 p4 p5 p6 len resp d :
  no_hang dev (io96b_mb_req dev base ip id ty op p0 p1 p2 p3 p4 p5 p6 len resp d).
Proof.
  pose proof (io96b_mb_req_cases dev base ip id ty op p0 p1 p2 p3 p4 p5 p6 len resp d) as C.
  inversion C; discriminate.
Qed.

Lemma no_hang_bist_mem_init_start ctrl d : no_hang dev (bist_mem_init_start dev ctrl d).
Proof.
  unfold bist_mem_init_start. apply no_hang_mbind.
  2: { intros [[u r]|[u r]] d1; apply no_hang_mret. }
  apply no_hang_for_ctl. intros i s d0. unfold bist_mem_init_start_instance.
  apply no_hang_mbind; [apply no_hang_idx|]. intros inst d1.
  apply no_hang_mbind.
  2: { intros [s1|s1] d2; apply no_hang_mret. }
  apply no_hang_for_ctl. intros j [u ret] d2. unfold bist_mem_init_start_intf.
  apply no_hang_mbind; [apply no_hang_idx|]. intros ip d3.
  apply no_hang_mbind; [apply no_hang_idx|]. intros id d4.
  apply no_hang_mbind; [apply no_hang_io96b_mb_req|]. intros [r1 u1] d5.
  destruct (negb (r1 =? 0)); [apply no_hang_mret|]. cbv zeta.
  destruct (negb (negb (Z.land (IOSSM_CMD_RESPONSE_DATA_SHORT (cmd_resp_status u1)) (BIT 0)
                        =? 0))); [apply no_hang_mret|].
  apply no_hang_mbind.
  - destruct (bist_status_poll_run (dev_polls dev d5 TIMEOUT) (io96b_csr_addr inst) ip id u1 d5)
      as (b & u' & d' & t & E & _).
    unfold no_hang. rewrite E. discriminate.
  - intros [b u'] d6. destruct b; apply no_hang_mret.
Qed.

(** X16: [bist_mem_init_start] never ends in [hang], and when it returns,
    it returns 0, [-ETIMEDOUT] or [-ENOEXEC]. *)
Theorem bist_mem_init_start_result ctrl d :
  match fst (fst (bist_mem_init_start dev ctrl d)) with
  | Ret ret => ret = 0 \/ ret = - ETIMEDOUT \/ ret = - ENOEXEC
  | Hang => False
  | Undef => True
  end.
Proof.
  pose proof (no_hang_bist_mem_init_start ctrl d) as Hn. unfold no_hang in Hn.
  destruct (bist_mem_init_start dev ctrl d) as [[o d'] t] eqn:E. cbn [fst] in *.
  destruct o as [ret| |]; [|congruence|exact I].
  eapply bist_mem_init_start_ret. exact E.
Qed.

(** *** The sideband manager and the progress flag *)

Lemma land_bit x k : 0 <= k -> Z.land x (BIT k) = if Z.testbit x k then BIT k else 0.
Proof.
  intros Hk. apply Z.bits_inj'. intros n Hn. unfold BIT.
  rewrite Z.land_spec, Z.shiftl_spec by lia.
  destruct (Z.eq_dec n k) as [->|Hne].
  - rewrite Z.sub_diag. change (Z.testbit 1 0) with true. rewrite andb_true_r.
    destruct (Z.testbit x k) eqn:E.
    + rewrite Z.shiftl_spec, Z.sub_diag by lia. reflexivity.
    + rewrite Z.bits_0. reflexivity.
  - assert (Z.testbit 1 (n - k) = false) as ->.
    { destruct (Z.ltb_spec n k); [apply Z.testbit_neg_r; lia|].
      apply (small_testbit 1 1); lia. }
    rewrite andb_false_r. destruct (Z.testbit x k).
    + rewrite Z.shiftl_spec by lia.
      destruct (Z.ltb_spec n k); [rewrite Z.testbit_neg_r by lia; reflexivity|].
      symmetry. apply (small_testbit 1 1); lia.
    + rewrite Z.bits_0. reflexivity.
Qed.

(** X17: [config_mpfe_sideband_mgr] sets the bit of the requested mode in
    the flag-set register (a read and one write) and reads the status
    register once.  It returns 0 exactly when the status shows the bit of
    the requested mode (bit 5 for interleaving, bit 4 for multichannel) and
    -1 otherwise; the bit of the other mode is not looked at. *)
Theorem config_mpfe_sideband_mgr_result (interleaving : bool) d :
  exists v st d',
    config_mpfe_sideband_mgr dev interleaving d
    = (Ret (if Z.testbit st (if interleaving then 5 else 4) then 0 else - 1), d',
       [EvRead SIDEBANDMGR_FLAGOUTSET0_REG v;
        EvWrite SIDEBANDMGR_FLAGOUTSET0_REG
          (u32 (Z.lor v (BIT (if interleaving then 5 else 4))));
        EvRead SIDEBANDMGR_FLAGOUTSTATUS0_REG st]).
Proof.
  unfold config_mpfe_sideband_mgr, setbits_le32, mbind, writel.
  destruct (readl_run dev SIDEBANDMGR_FLAGOUTSET0_REG d) as (v & d1 & -> & _).
  destruct (readl_run dev SIDEBANDMGR_FLAGOUTSTATUS0_REG
              (dev_writel dev d1 SIDEBANDMGR_FLAGOUTSET0_REG
                 (u32 (Z.lor v (if interleaving
                                then SIDEBANDMGR_FLAGOUTSET0_REG_INTERLEAVING
                                else SIDEBANDMGR_FLAGOUTSET0_REG_MULTICHANNEL)))))
    as (st & d2 & -> & _).
  exists v, st, d2.
  unfold SIDEBANDMGR_FLAGOUTSET0_REG_INTERLEAVING, SIDEBANDMGR_FLAGOUTSET0_REG_MULTICHANNEL.
  destruct interleaving; rewrite land_bit by lia.
  - destruct (Z.testbit st 5); reflexivity.
  - destruct (Z.testbit st 4); reflexivity.
Qed.

(** X18: the progress flag round trip.  On hardware whose scratch register
    keeps what is written to it, [is_ddr_init_hang] called after
    [ddr_init_inprogress start] returns [start]: the flag is seen after it
    has been set and not seen after it has been cleared, whatever the
    register held before. *)
Theorem ddr_init_inprogress_read_back (start : bool) d :
  reg_holds dev (SOCFPGA_SYSMGR_ADDRESS + SYSMGR_SOC64_BOOT_SCRATCH_COLD8) ->
  0 < ALT_SYSMGR_SCRATCH_REG_8_DDR_PROGRESS_MASK < 2 ^ 32 ->
  fst (fst (mbind dev (ddr_init_inprogress dev start) (fun _ => is_ddr_init_hang dev) d))
  = Ret start.
Proof.
  intros Hh Hm.
  set (a := SOCFPGA_SYSMGR_ADDRESS + SYSMGR_SOC64_BOOT_SCRATCH_COLD8) in *.
  set (m := ALT_SYSMGR_SCRATCH_REG_8_DDR_PROGRESS_MASK) in *.
  assert (Hset : forall v, Z.land (u32 (Z.lor v m)) m <> 0).
  { intros v E. assert (Z.land (u32 (Z.lor v m)) m = m); [|lia].
    apply Z.bits_inj'. intros n Hn. rewrite Z.land_spec, u32_testbit, Z.lor_spec by lia.
    destruct (Z.testbit m n) eqn:Eb; [|apply andb_false_r].
    rewrite orb_true_r. cbn [andb]. rewrite andb_true_r. apply Z.ltb_lt.
    destruct (Z.ltb_spec n 32); [lia|]. rewrite (small_testbit m 32) in Eb by lia.
    discriminate. }
  assert (Hclr : forall v, Z.land (u32 (Z.land v (u32 (Z.lnot m)))) m = 0).
  { intros v. apply Z.bits_inj'. intros n Hn.
    rewrite Z.land_spec, u32_testbit, Z.land_spec, u32_testbit, Z.lnot_spec, Z.bits_0 by lia.
    destruct (Z.testbit m n); [|apply andb_false_r]. cbn [negb andb].
    rewrite andb_false_r. reflexivity. }
  unfold ddr_init_inprogress, is_ddr_init_hang, setbits_le32, clrbits_le32.
  fold a. fold m. unfold mbind, writel, mret.
  destruct start.
  - destruct (readl_run dev a d) as (v & d1 & -> & _).
    destruct (readl_run dev a (dev_writel dev d1 a (u32 (Z.lor v m))))
      as (w & d2 & -> & _ & _ & ->).
    rewrite Hh, u32_u32. cbn [fst]. f_equal.
    apply negb_true_iff, Z.eqb_neq, Hset.
  - destruct (readl_run dev a d) as (v & d1 & -> & _).
    destruct (readl_run dev a (dev_writel dev d1 a (u32 (Z.land v (u32 (Z.lnot m))))))
      as (w & d2 & -> & _ & _ & ->).
    rewrite Hh, u32_u32. cbn [fst]. f_equal.
    apply negb_false_iff, Z.eqb_eq, Hclr.
Qed.

(** *** The calibration block of [sdram_mmr_init_full] *)

Lemma mbind_ret {A B} (m : M dev A) (f : A -> M dev B) d a d1 t1 :
  m d = (Ret a, d1, t1) ->
  mbind dev m f d = (let '(r, d2, t2) := f a d1 in (r, d2, t1 ++ t2)).
Proof. intros H. unfold mbind. rewrite H. reflexivity. Qed.

Lemma mbind_undef {A B} (m : M dev A) (f : A -> M dev B) d d1 t1 :
  m d = (Undef, d1, t1) -> mbind dev m f d = (Undef, d1, t1).
Proof. intros H. unfold mbind. rewrite H. reflexivity. Qed.

(** The loop of lines 968-969. *)
Lemma clear_flags_loop n : forall i0 l (d : dstate dev),
  (i0 <= length l)%nat ->
  if decide (i0 + n <= length l)%nat
  then exists l',
         for_range dev (fun i l => mbind dev (idx dev l i)
                          (fun inst => mret dev (<[i := set_cal_status false inst]> l)))
           i0 n l d = (Ret l', d, [])
         /\ length l' = length l
         /\ (forall k, l' !! k = if decide (i0 <= k < i0 + n)%nat
                                 then set_cal_status false <$> l !! k else l !! k)
  else for_range dev (fun i l => mbind dev (idx dev l i)
                        (fun inst => mret dev (<[i := set_cal_status false inst]> l)))
         i0 n l d = (Undef, d, []).
Proof.
  induction n as [|n IH]; intros i0 l d Hi.
  - case_decide; [|lia]. exists l. split; [reflexivity|]. split; [reflexivity|].
    intros k. case_decide; [lia|reflexivity].
  - cbn [for_range]. destruct (l !! i0) as [inst|] eqn:Hl.
    + pose proof (lookup_lt_Some _ _ _ Hl) as Hlt.
      assert (Eb : mbind dev (idx dev l i0)
                     (fun inst => mret dev (<[i0 := set_cal_status false inst]> l)) d
                   = (Ret (<[i0 := set_cal_status false inst]> l), d, [])).
      { unfold mbind, idx. rewrite Hl. reflexivity. }
      specialize (IH (S i0) (<[i0 := set_cal_status false inst]> l) d).
      rewrite length_insert in IH. specialize (IH ltac:(lia)).
      repeat case_decide; try lia.
      * destruct IH as (l' & IHe & Hlen & Hk). exists l'. split.
        { rewrite (mbind_ret _ _ _ _ _ _ Eb), IHe. reflexivity. }
        split; [exact Hlen|]. intros k. rewrite Hk.
        destruct (decide (k = i0)) as [->|Hne].
        -- rewrite list_lookup_insert_eq by lia. rewrite Hl.
           repeat case_decide; try lia. reflexivity.
        -- rewrite list_lookup_insert_ne by lia. repeat case_decide; try lia; reflexivity.
      * rewrite (mbind_ret _ _ _ _ _ _ Eb), IH. reflexivity.
    + apply lookup_ge_None in Hl. case_decide; [lia|].
      apply mbind_undef. unfold mbind, idx.
      rewrite (proj2 (lookup_ge_None _ _)) by lia. reflexivity.
Qed.

(** X19: what lines 968-971 do to the flags.  The instances in use are
    marked as not calibrated.  The overall flag is then and-ed with the flag
    of the slot that follows them: it is cleared only when that unused slot
    happens to hold a cleared flag, and when there is no such slot (every
    slot of the array in use) the array is read past its end. *)
Theorem dbe_recal_flags_result ctrl d :
  match io96b ctrl !! Z.to_nat (num_instance ctrl) with
  | Some spare =>
      exists l',
        dbe_recal_flags dev ctrl d
        = (Ret (set_overall_cal_status (overall_cal_status ctrl && cal_status spare)
                  (set_io96b l' ctrl)), d, [])
        /\ (forall k, l' !! k = if decide (k < Z.to_nat (num_instance ctrl))%nat
                                then set_cal_status false <$> io96b ctrl !! k
                                else io96b ctrl !! k)
  | None => dbe_recal_flags dev ctrl d = (Undef, d, [])
  end.
Proof.
  unfold dbe_recal_flags.
  pose proof (clear_flags_loop (Z.to_nat (num_instance ctrl)) 0 (io96b ctrl) d
                ltac:(lia)) as L.
  destruct (io96b ctrl !! Z.to_nat (num_instance ctrl)) as [spare|] eqn:Hs.
  - pose proof (lookup_lt_Some _ _ _ Hs) as Hlt.
    case_decide; [|lia]. destruct L as (l' & L & Hlen & Hk).
    exists l'. unfold mbind at 1. rewrite L.
    cbn [io96b set_io96b num_instance overall_cal_status]. unfold mbind, idx.
    rewrite Hk. case_decide; [lia|]. rewrite Hs. unfold mret. split; [reflexivity|].
    intros k. rewrite Hk. repeat case_decide; try lia; reflexivity.
  - apply lookup_ge_None in Hs. unfold mbind at 1. case_decide.
    + destruct L as (l' & L & Hlen & Hk). rewrite L.
      cbn [io96b set_io96b num_instance]. unfold mbind, idx.
      rewrite Hk. case_decide; [lia|].
      rewrite (proj2 (lookup_ge_None _ _)) by lia. reflexivity.
    + rewrite L. reflexivity.
Qed.

Lemma dbe_recal_flags_inv ctrl d ctrl' d' t :
  dbe_recal_flags dev ctrl d = (Ret ctrl', d', t) ->
  num_instance ctrl' = num_instance ctrl
  /\ (overall_cal_status ctrl = false -> overall_cal_status ctrl' = false).
Proof.
  intros H. unfold dbe_recal_flags in H.
  apply mbind_inv in H as (l & d1 & t1 & t2 & _ & H & ->).
  apply mbind_inv in H as (inst & d2 & t3 & t4 & _ & H & ->).
  apply mret_inv in H as (-> & _).
  cbn [num_instance overall_cal_status set_overall_cal_status set_io96b].
  split; [reflexivity|]. intros ->. reflexivity.
Qed.

(** X20: when the calibration block of [sdram_mmr_init_full] (lines
    966-978) is passed, the overall flag is set.  With no double-bit error
    flagged and the overall flag already set, nothing is done but the read
    of the scratch register.  When the block is entered with the overall
    flag cleared, every instance in use is calibrated afterwards. *)
Theorem sdram_mmr_init_full_recal_result ctrl d ctrl' d' t :
  0 <= num_instance ctrl ->
  sdram_mmr_init_full_recal dev ctrl d = (Ret ctrl', d', t) ->
  overall_cal_status ctrl' = true
  /\ num_instance ctrl' = num_instance ctrl
  /\ (overall_cal_status ctrl = false -> all_cal_passed ctrl' = true)
  /\ exists v t',
       t = EvRead (SOCFPGA_SYSMGR_ADDRESS + SYSMGR_SOC64_BOOT_SCRATCH_COLD8) v :: t'
       /\ (Z.land v ALT_SYSMGR_SCRATCH_REG_8_DDR_DBE_MASK = 0 ->
           overall_cal_status ctrl = true -> ctrl' = ctrl /\ t' = []).
Proof.
  intros Hn H. unfold sdram_mmr_init_full_recal in H.
  apply mbind_inv in H as (dbe & d1 & t1 & t2 & Hd & H & ->).
  unfold ddr_ecc_dbe_status in Hd.
  apply mbind_inv in Hd as (v & d0 & ta & tb & Hv & Hd & ->).
  apply readl_inv in Hv as (_ & -> & ->). apply mret_inv in Hd as (-> & -> & ->).
  apply mbind_inv in H as (c1 & d2 & t3 & t4 & H1 & H & ->).
  assert (K : num_instance c1 = num_instance ctrl
              /\ (overall_cal_status ctrl = false -> overall_cal_status c1 = false)
              /\ (Z.land v ALT_SYSMGR_SCRATCH_REG_8_DDR_DBE_MASK = 0 -> c1 = ctrl /\ t3 = [])).
  { destruct (Z.eqb_spec (Z.land v ALT_SYSMGR_SCRATCH_REG_8_DDR_DBE_MASK) 0) as [E|E];
      cbn [negb] in H1.
    - apply mret_inv in H1 as (-> & _ & ->). auto.
    - apply dbe_recal_flags_inv in H1 as (? & ?). split; [auto|]. split; [auto|]. tauto. }
  destruct K as (Kn & Ko & Kd).
  destruct (overall_cal_status c1) eqn:Ho; cbn [negb] in H.
  - apply mret_inv in H as (-> & -> & ->). split; [exact Ho|]. split; [exact Kn|]. split.
    + intros Hf. pose proof (Ko Hf). congruence.
    + exists v, t3. split; [cbn [app]; rewrite app_nil_r; reflexivity|].
      intros Hz _. apply Kd. exact Hz.
  - apply init_mem_cal_run in H as (H1' & H2' & H3' & _); [|lia].
    split; [exact H1'|]. split; [rewrite H3'; exact Kn|]. split; [auto|].
    exists v, (t3 ++ t4). split; [reflexivity|].
    intros Hz Ht. destruct (Kd Hz) as (-> & _). congruence.
Qed.

(** *** The interface enumerator *)

Lemma for_range_inv_idx {St} (body : nat -> St -> M dev St) (I : nat -> St -> Prop) :
  (forall i s d s' d' t, I i s -> body i s d = (Ret s', d', t) -> I (S i) s') ->
  forall n i0 s d s' d' t, I i0 s -> for_range dev body i0 n s d = (Ret s', d', t) ->
    I (i0 + n)%nat s'.
Proof.
  intros Hb. induction n as [|n IH]; intros i0 s d s' d' t Hs H; cbn [for_range] in H.
  - apply mret_inv in H as (-> & _). rewrite Nat.add_0_r. exact Hs.
  - apply mbind_inv in H as (s1 & d1 & t1 & t2 & H1 & H & ->).
    replace (i0 + S n)%nat with (S i0 + n)%nat by lia. eapply IH; eauto.
Qed.

Lemma store_inv {A} (l : list A) i v d l' d' t :
  store dev l i v d = (Ret l', d', t) -> l' = <[i := v]> l /\ d' = d /\ t = [].
Proof.
  unfold store. case_decide; [|discriminate]. intros Hr.
  apply mret_inv in Hr as (-> & -> & ->). auto.
Qed.

Lemma mb_init_intf_inv usr_resp mb0 k s d s' d' t :
  same_shape mb0 (snd s) ->
  mb_init_intf dev usr_resp k s d = (Ret s', d', t) ->
  same_shape mb0 (snd s').
Proof.
  destruct s as [j mb]. unfold same_shape. cbn [snd]. intros (Hn & Ht & Hi) H.
  unfold mb_init_intf in H.
  apply mbind_inv in H as (w & d1 & t1 & t2 & _ & H & ->).
  destruct (negb (u8 (FIELD_GET INTF_IP_TYPE_MASK w) =? 0)).
  - apply mbind_inv in H as (ty & d2 & t3 & t4 & Hty & H & ->).
    apply store_inv in Hty as (-> & _).
    apply mbind_inv in H as (ids & d3 & t5 & t6 & Hids & H & ->).
    apply store_inv in Hids as (-> & _).
    apply mret_inv in H as (-> & _).
    cbn [snd num_mem_interface ip_type ip_instance_id]. rewrite !length_insert. auto.
  - apply mret_inv in H as (-> & _). cbn [snd]. auto.
Qed.

Lemma mb_init_instance_inv ctrl i c d c' d' t :
  enumerated ctrl i c ->
  mb_init_instance dev i c d = (Ret c', d', t) ->
  enumerated ctrl (S i) c'.
Proof.
  intros (Hc & Hk) H. unfold mb_init_instance in H.
  apply mbind_inv in H as (inst & d1 & t1 & t2 & Hi & H & ->).
  apply idx_inv in Hi as (Hinst & _).
  apply mbind_inv in H as ([ret resp] & d2 & t3 & t4 & _ & H & ->).
  destruct (negb (ret =? 0)); [discriminate H|].
  cbv zeta in H.
  apply mbind_inv in H as ([j mb'] & d3 & t5 & t6 & Hl & H & ->).
  apply mret_inv in H as (-> & _).
  match type of Hl with
  | for_range _ _ _ ?n (?j0, ?mb0) _ = _ =>
      pose proof (for_range_inv_idx (mb_init_intf dev resp)
                    (fun _ s => same_shape mb0 (snd s))
                    (fun k s d s' d' t Hs Hr => mb_init_intf_inv resp mb0 k s d s' d' t Hs Hr)
                    n 0%nat (j0, mb0) _ _ _ _
                    (conj eq_refl (conj eq_refl eq_refl)) Hl) as (Sn & St & Si)
  end.
  cbn [snd num_mem_interface ip_type ip_instance_id] in Sn, St, Si.
  split.
  - cbn [io96b set_io96b]. eapply set_io96b_frame. exact Hc.
  - intros k. specialize (Hk k). cbn [io96b set_io96b snd].
    destruct (io96b ctrl !! k) as [x|] eqn:Hx.
    + destruct Hk as (mb & Hmb & Ht & Hid & Hd).
      destruct (decide (k = i)) as [->|Hne].
      * rewrite Hinst in Hmb. inversion Hmb; subst inst. clear Hmb.
        rewrite list_lookup_insert_eq by (eapply lookup_lt_Some; eauto).
        exists mb'. cbn [mb_ctrl set_mb_ctrl] in St, Si.
        split; [reflexivity|]. case_decide; [lia|]. subst mb.
        split; [congruence|]. split; [congruence|].
        case_decide; [|lia]. rewrite Sn. apply land_3_range.
      * rewrite list_lookup_insert_ne by lia. exists mb.
        split; [exact Hmb|]. split; [exact Ht|]. split; [exact Hid|].
        repeat case_decide; try lia; assumption.
    + destruct (decide (k = i)) as [->|Hne]; [congruence|].
      rewrite list_lookup_insert_ne by lia. exact Hk.
Qed.

(** X21: [io96b_mb_init] changes nothing but the mailbox tables of the
    instances in use.  Addresses, sizes and calibration flags of all
    instances and all other fields of the controller data stay; the tables
    keep their lengths, and the interface count of every instance in use is
    between 0 and 3.  (A command that fails ends in [hang].) *)
Theorem io96b_mb_init_frame ctrl d ctrl' d' t :
  io96b_mb_init dev ctrl d = (Ret ctrl', d', t) ->
  ctrl' = set_io96b (io96b ctrl') ctrl
  /\ forall k,
       match io96b ctrl !! k with
       | Some x =>
           exists mb, io96b ctrl' !! k = Some (set_mb_ctrl mb x)
             /\ length (ip_type mb) = length (ip_type (mb_ctrl x))
             /\ length (ip_instance_id mb) = length (ip_instance_id (mb_ctrl x))
             /\ (if decide (k < Z.to_nat (num_instance ctrl))%nat
                 then 0 <= num_mem_interface mb <= 3
                 else mb = mb_ctrl x)
       | None => io96b ctrl' !! k = None
       end.
Proof.
  intros H. unfold io96b_mb_init in H.
  apply (for_range_inv_idx (mb_init_instance dev) (enumerated ctrl)
           (fun i s d s' d' t => mb_init_instance_inv ctrl i s d s' d' t)
           _ 0%nat ctrl _ _ _ _) in H; [exact H|].
  split; [symmetry; apply set_io96b_eta|].
  intros k. destruct (io96b ctrl !! k) as [x|] eqn:Hx; [|reflexivity].
  exists (mb_ctrl x). split; [destruct x; reflexivity|].
  split; [reflexivity|]. split; [reflexivity|]. case_decide; [lia|reflexivity].
Qed.

(** *** The enumeration of all instances *)

Lemma mb_init_loop mid : forall pre post resps c0 d d' t,
  Forall (fun inst => (2 <= length (ip_type (mb_ctrl inst)))%nat
                      /\ (2 <= length (ip_instance_id (mb_ctrl inst)))%nat) mid ->
  intf_info_answers dev mid d = Some (resps, d', t) ->
  for_range dev (mb_init_instance dev) (length pre) (length mid)
    (set_io96b (pre ++ mid ++ post) c0) d
  = (Ret (set_io96b (pre ++ zip_with intf_recorded mid resps ++ post) c0), d', t)
  /\ Forall (fun r => (length (intf_found r) <= 2)%nat /\ 0 <= intf_count r <= 3) resps.
Proof.
  induction mid as [|inst mid IH]; intros pre post resps c0 d d' t Hok Ha.
  - cbn [intf_info_answers] in Ha. inversion Ha; subst. split; [reflexivity|constructor].
  - cbn [intf_info_answers] in Ha.
    destruct (io96b_mb_req dev (io96b_csr_addr inst) 0 0 CMD_GET_SYS_INFO GET_MEM_INTF_INFO
                0 0 0 0 0 0 0 2 usr_resp_decl d) as [[[[ret r]| |] d1] t1] eqn:Hreq;
      try discriminate.
    destruct (Z.eqb_spec ret 0) as [->|]; [|discriminate].
    destruct (intf_info_answers dev mid d1) as [[[rs d2] t2]|] eqn:Hrest; [|discriminate].
    inversion Ha; subst resps d' t. clear Ha.
    apply List.Forall_cons_iff in Hok as ((Hty & Hid) & Hok).
    assert (Hlk : io96b (set_io96b (pre ++ (inst :: mid) ++ post) c0) !! length pre
                  = Some inst).
    { cbn [io96b set_io96b]. rewrite lookup_app_r by lia.
      rewrite Nat.sub_diag. reflexivity. }
    pose proof (io96b_mb_init_records dev (length pre) _ inst r d d1 t1 Hlk Hty Hid Hreq)
      as Hrec.
    cbv zeta in Hrec. destruct Hrec as (Hstep & Hfound & _).
    assert (Hstep' : mb_init_instance dev (length pre)
                       (set_io96b (pre ++ (inst :: mid) ++ post) c0) d
                     = (Ret (set_io96b (<[length pre := intf_recorded inst r]>
                                          (pre ++ (inst :: mid) ++ post)) c0), d1, t1))
      by exact Hstep.
    assert (Hins : <[length pre := intf_recorded inst r]> (pre ++ (inst :: mid) ++ post)
                   = (pre ++ [intf_recorded inst r]) ++ mid ++ post).
    { rewrite insert_app_r_alt by lia. rewrite Nat.sub_diag. cbn [app].
      rewrite <- app_assoc. reflexivity. }
    rewrite Hins in Hstep'.
    cbn [length for_range]. rewrite (mbind_ret _ _ _ _ _ _ Hstep').
    destruct (IH (pre ++ [intf_recorded inst r]) post rs c0 d1 d2 t2 Hok Hrest)
      as (Hloop & Hall).
    rewrite length_app in Hloop. cbn [length] in Hloop.
    rewrite Nat.add_1_r in Hloop. rewrite Hloop. split.
    + cbn [zip_with app]. rewrite <- app_assoc. reflexivity.
    + constructor; [|exact Hall]. split; [exact Hfound|apply land_3_range].
Qed.

(** C4: what [io96b_mb_init] records, for every number of instances.  When
    the hardware answers the GET_MEM_INTF_INFO command of each instance in
    use, the call returns with, for each of them, the table [intf_table]:
    the pairs (IP type from bits 29-31, instance id from bits 24-28) of
    those of the first [n] data words whose IP type is not 0, stored from
    slot 0 on in their order, the other slots as they were, and as the
    interface count the [n] that the status word reported.  The count is
    not the number of entries stored: after a response with [n = 2] whose
    second word has IP type 0, one entry is stored and the count is 2, so
    that the second interface in use is what slot 1 held before. *)
Theorem io96b_mb_init_tables ctrl d resps d' t :
  (Z.to_nat (num_instance ctrl) <= length (io96b ctrl))%nat ->
  Forall (fun inst => (2 <= length (ip_type (mb_ctrl inst)))%nat
                      /\ (2 <= length (ip_instance_id (mb_ctrl inst)))%nat)
    (take (Z.to_nat (num_instance ctrl)) (io96b ctrl)) ->
  intf_info_answers dev (take (Z.to_nat (num_instance ctrl)) (io96b ctrl)) d
    = Some (resps, d', t) ->
  io96b_mb_init dev ctrl d
  = (Ret (set_io96b
            (zip_with intf_recorded (take (Z.to_nat (num_instance ctrl)) (io96b ctrl)) resps
             ++ drop (Z.to_nat (num_instance ctrl)) (io96b ctrl)) ctrl), d', t)
  /\ Forall (fun usr_resp =>
               (length (intf_found usr_resp) <= 2)%nat /\ 0 <= intf_count usr_resp <= 3)
       resps.
Proof.
  intros Hn Hok Ha. unfold io96b_mb_init.
  pose proof (mb_init_loop (take (Z.to_nat (num_instance ctrl)) (io96b ctrl)) []
                (drop (Z.to_nat (num_instance ctrl)) (io96b ctrl)) resps ctrl d d' t Hok Ha)
    as (Hloop & Hall).
  cbn [app length] in Hloop. rewrite take_drop, set_io96b_eta in Hloop.
  rewrite length_take, Nat.min_l in Hloop by exact Hn.
  split; [exact Hloop|exact Hall].
Qed.

(** *** The retry, from what the hardware answers *)

Lemma idx_some {A} (l : list A) i a (d : dstate dev) :
  l !! i = Some a -> idx dev l i d = (Ret a, d, []).
Proof. intros H. unfold idx. rewrite H. reflexivity. Qed.

Lemma readl_eq a d :
  readl dev a d
  = (Ret (u32 (fst (dev_readl dev d a))), snd (dev_readl dev d a),
     [EvRead a (u32 (fst (dev_readl dev d a)))]).
Proof. unfold readl. destruct (dev_readl dev d a); reflexivity. Qed.

(** A failed attempt is a round of the retry loop that goes on. *)
Lemma failed_attempt_retry inst j kk r b ret d r' d' t :
  failed_attempt dev inst j r d = Some (r', d', t) ->
  trig_mem_cal_retry dev inst j kk (r, b, ret) d = (Ret (Continue (r', b, 0)), d', t).
Proof.
  unfold failed_attempt, live_success, live_after, live_read.
  destruct (ip_type (mb_ctrl inst) !! j) as [ip|] eqn:Hip; [|discriminate].
  destruct (ip_instance_id (mb_ctrl inst) !! j) as [id|] eqn:Hid; [|discriminate].
  destruct (cmd_resp_data r !! j) as [off|] eqn:Hoff; [|discriminate].
  destruct (u8 (u32 (fst (dev_readl dev d (reg (io96b_csr_addr inst) off))))
            =? INTF_MEM_CAL_STATUS_SUCCESS) eqn:Hs; [discriminate|].
  destruct (io96b_mb_req dev (io96b_csr_addr inst) ip id CMD_TRIG_MEM_CAL_OP TRIG_MEM_CAL
              0 0 0 0 0 0 0 2 r (snd (dev_readl dev d (reg (io96b_csr_addr inst) off))))
    as [[[[ret1 r1]| |] d2] t2] eqn:H1; try discriminate.
  destruct (Z.eqb_spec ret1 0) as [->|]; [|discriminate].
  destruct (io96b_mb_req dev (io96b_csr_addr inst) 0 0 CMD_TRIG_MEM_CAL_OP GET_MEM_CAL_STATUS
              0 0 0 0 0 0 0 2 r1 d2) as [[[[ret2 r2]| |] d3] t3] eqn:H2; try discriminate.
  destruct (Z.eqb_spec ret2 0) as [->|]; [|discriminate].
  intros H. inversion H; subst r' d' t. clear H.
  unfold trig_mem_cal_retry.
  rewrite (mbind_ret _ _ _ _ _ _ (idx_some _ _ _ _ Hoff)).
  rewrite (mbind_ret _ _ _ _ _ _ (readl_eq _ _)). rewrite Hs.
  rewrite (mbind_ret _ _ _ _ _ _ (idx_some _ _ _ _ Hip)).
  rewrite (mbind_ret _ _ _ _ _ _ (idx_some _ _ _ _ Hid)).
  rewrite (mbind_ret _ _ _ _ _ _ H1). change (negb (0 =? 0)) with false. cbv beta iota.
  rewrite (mbind_ret _ _ _ _ _ _ H2). change (negb (0 =? 0)) with false. cbv beta iota.
  unfold mret. cbn [app]. rewrite app_nil_r. reflexivity.
Qed.

Lemma failed_attempts_rounds inst j k : forall i0 r d rk dk tk,
  failed_attempts dev inst j k r d = Some (rk, dk, tk) ->
  rounds dev (trig_mem_cal_retry dev inst j) i0 k (r, false, 0) d
  = Some ((rk, false, 0), dk, tk).
Proof.
  induction k as [|k IH]; intros i0 r d rk dk tk H; cbn [failed_attempts] in H.
  - inversion H; subst. reflexivity.
  - destruct (failed_attempt dev inst j r d) as [[[r1 d1] t1]|] eqn:H1; [|discriminate].
    destruct (failed_attempts dev inst j k r1 d1) as [[[r2 d2] t2]|] eqn:H2; [|discriminate].
    inversion H; subst rk dk tk. clear H.
    cbn [rounds]. rewrite (failed_attempt_retry _ _ i0 _ false 0 _ _ _ _ H1).
    rewrite (IH (S i0) _ _ _ _ _ H2). reflexivity.
Qed.

Lemma retry_loop_recovers inst j r0 d1 k rk dk tk :
  rounds dev (trig_mem_cal_retry dev inst j) 0 k (r0, false, 0) d1
    = Some ((rk, false, 0), dk, tk) ->
  (k < 3)%nat ->
  live_success dev inst j rk dk = true ->
  for_ctl dev (trig_mem_cal_retry dev inst j) 0 MAX_RETRY_COUNT (r0, false, 0) d1
  = (Ret (Done (rk, true, 0)), live_after dev inst j rk dk,
     tk ++ live_read dev inst j rk dk).
Proof.
  intros Hr Hlt Hs. unfold MAX_RETRY_COUNT.
  destruct (Nat.le_exists_sub (S k) 3 Hlt) as (m & E & _).
  replace 3%nat with (k + S m)%nat by lia.
  rewrite (for_ctl_rounds dev _ _ _ _ _ _ _ _ _ Hr). cbn [Nat.add].
  unfold live_success in Hs. unfold live_read, live_after.
  destruct (cmd_resp_data rk !! j) as [off|] eqn:Eoff; [|discriminate].
  assert (Eb : trig_mem_cal_retry dev inst j k (rk, false, 0) dk
               = (Ret (Break (rk, true, 0)),
                  snd (dev_readl dev dk (reg (io96b_csr_addr inst) off)),
                  [EvRead (reg (io96b_csr_addr inst) off)
                     (u32 (fst (dev_readl dev dk (reg (io96b_csr_addr inst) off))))])).
  { unfold trig_mem_cal_retry.
    rewrite (mbind_ret _ _ _ _ _ _ (idx_some _ _ _ _ Eoff)).
    rewrite (mbind_ret _ _ _ _ _ _ (readl_eq _ _)). rewrite Hs.
    unfold mret. cbn [app]. reflexivity. }
  rewrite ?Nat.add_0_l. rewrite (for_ctl_break dev _ _ _ _ _ _ _ _ Eb). reflexivity.
Qed.

(** An interface that recovers is a round of the interface loop that goes
    on. *)
Lemma recovers_intf inst j k u ret d u' d' t :
  recovers dev inst j k u d = Some (u', d', t) ->
  (k < 3)%nat ->
  trig_mem_cal_intf dev inst j (u, ret) d = (Ret (Continue (u', 0)), d', t).
Proof.
  unfold recovers. intros H Hk.
  destruct (io96b_mb_req dev (io96b_csr_addr inst) 0 0 CMD_TRIG_MEM_CAL_OP GET_MEM_CAL_STATUS
              0 0 0 0 0 0 0 2 u d) as [[[[ret0 r0]| |] d1] t1] eqn:Hq; try discriminate.
  destruct (Z.eqb_spec ret0 0) as [->|]; [|discriminate].
  destruct (failed_attempts dev inst j k r0 d1) as [[[rk dk] tk]|] eqn:Hf; [|discriminate].
  destruct (live_success dev inst j rk dk) eqn:Hs; [|discriminate].
  inversion H; subst u' d' t. clear H.
  unfold trig_mem_cal_intf.
  rewrite (mbind_ret _ _ _ _ _ _ Hq). change (negb (0 =? 0)) with false. cbv beta iota.
  rewrite (mbind_ret _ _ _ _ _ _
             (retry_loop_recovers _ _ _ _ _ _ _ _
                (failed_attempts_rounds _ _ _ 0%nat _ _ _ _ _ Hf) Hk Hs)).
  cbn [negb]. unfold mret. rewrite app_nil_r. reflexivity.
Qed.

Lemma interfaces_recover_rounds inst ks : forall j0 u d u' d' t,
  interfaces_recover dev inst j0 ks u d = Some (u', d', t) ->
  rounds dev (trig_mem_cal_intf dev inst) j0 (length ks) (u, 0) d = Some ((u', 0), d', t).
Proof.
  induction ks as [|k ks IH]; intros j0 u d u' d' t H; cbn [interfaces_recover] in H.
  - inversion H; subst. reflexivity.
  - unfold MAX_RETRY_COUNT in H. destruct (Nat.ltb_spec k 3) as [Hk|]; [|discriminate].
    destruct (recovers dev inst j0 k u d) as [[[r1 d1] t1]|] eqn:H1; [|discriminate].
    destruct (interfaces_recover dev inst (S j0) ks r1 d1) as [[[r2 d2] t2]|] eqn:H2;
      [|discriminate].
    inversion H; subst u' d' t. clear H.
    cbn [length rounds]. rewrite (recovers_intf _ _ _ _ 0 _ _ _ _ H1 Hk).
    rewrite (IH _ _ _ _ _ _ H2). reflexivity.
Qed.

(** The instances that are passed are rounds of the instance loop that go
    on; they leave the instances after them as they were. *)
Lemma instances_pass_rounds l : forall kss i0 c u cnt d u' d' t,
  (forall m inst, l !! m = Some inst -> io96b c !! (i0 + m)%nat = Some inst) ->
  instances_pass dev l kss u d = Some (u', d', t) ->
  exists c' cnt',
    rounds dev (trig_mem_cal_instance dev) i0 (length l) (c, u, 0, cnt) d
    = Some ((c', u', 0, cnt'), d', t)
    /\ num_instance c' = num_instance c
    /\ (forall m, (i0 + length l <= m)%nat -> io96b c' !! m = io96b c !! m).
Proof.
  induction l as [|inst l IH]; intros kss i0 c u cnt d u' d' t Hl H.
  - destruct kss; [|discriminate]. cbn [instances_pass] in H. inversion H; subst.
    exists c, cnt. split; [reflexivity|]. split; [reflexivity|]. reflexivity.
  - destruct kss as [|ks kss]; [discriminate|]. cbn [instances_pass] in H.
    assert (Hinst : io96b c !! i0 = Some inst).
    { specialize (Hl 0%nat inst eq_refl). rewrite Nat.add_0_r in Hl. exact Hl. }
    destruct (cal_status inst) eqn:Hcal.
    + assert (Estep : trig_mem_cal_instance dev i0 (c, u, 0, cnt) d
                      = (Ret (Continue (c, u, 0, cnt)), d, [])).
      { unfold trig_mem_cal_instance.
        rewrite (mbind_ret _ _ _ _ _ _ (idx_some _ _ _ _ Hinst)). rewrite Hcal.
        reflexivity. }
      destruct (IH kss (S i0) c u cnt d u' d' t) as (c' & cnt' & Hr & Hn & Hk); [|exact H|].
      { intros m x Hm. replace (S i0 + m)%nat with (i0 + S m)%nat by lia. apply Hl. exact Hm. }
      exists c', cnt'. split; [|split; [exact Hn|]].
      * cbn [length rounds]. rewrite Estep, Hr. reflexivity.
      * intros m Hm. apply Hk. cbn [length] in Hm. lia.
    + destruct (Nat.eqb_spec (length ks) (Z.to_nat (num_mem_interface (mb_ctrl inst))))
        as [Hlen|]; [|discriminate].
      destruct (interfaces_recover dev inst 0 ks u d) as [[[r1 d1] t1]|] eqn:H1;
        [|discriminate].
      destruct (instances_pass dev l kss r1 d1) as [[[r2 d2] t2]|] eqn:H2; [|discriminate].
      inversion H; subst u' d' t. clear H.
      pose proof (interfaces_recover_rounds _ _ _ _ _ _ _ _ H1) as Hr1.
      assert (Eloop : for_ctl dev (trig_mem_cal_intf dev inst) 0
                        (Z.to_nat (num_mem_interface (mb_ctrl inst))) (u, 0) d
                      = (Ret (Done (r1, 0)), d1, t1)).
      { rewrite <- Hlen. rewrite <- (Nat.add_0_r (length ks)).
        rewrite (for_ctl_rounds dev _ _ _ _ _ _ _ _ _ Hr1). cbn [for_ctl]. unfold mret.
        rewrite app_nil_r. reflexivity. }
      set (c1 := set_overall_cal_status (cal_status (set_cal_status true inst))
                   (set_io96b (<[i0 := set_cal_status true inst]> (io96b c)) c)).
      assert (Estep : trig_mem_cal_instance dev i0 (c, u, 0, cnt) d
                      = (Ret (Continue (c1, r1, 0, cnt + 1)), d1, t1)).
      { unfold trig_mem_cal_instance.
        rewrite (mbind_ret _ _ _ _ _ _ (idx_some _ _ _ _ Hinst)). rewrite Hcal.
        cbn [negb]. rewrite (mbind_ret _ _ _ _ _ _ Eloop). unfold mret.
        rewrite app_nil_r. reflexivity. }
      destruct (IH kss (S i0) c1 r1 (cnt + 1) d1 r2 d2 t2) as (c' & cnt' & Hr & Hn & Hk);
        [|exact H2|].
      { intros m x Hm. subst c1. cbn [io96b set_io96b set_overall_cal_status].
        rewrite list_lookup_insert_ne by lia.
        replace (S i0 + m)%nat with (i0 + S m)%nat by lia. apply Hl. exact Hm. }
      exists c', cnt'. split; [|split; [exact Hn|]].
      * cbn [length rounds]. rewrite Estep, Hr. reflexivity.
      * intros m Hm. cbn [length] in Hm. rewrite Hk by lia. subst c1.
        cbn [io96b set_io96b set_overall_cal_status].
        apply list_lookup_insert_ne. lia.
Qed.

(** C1: the retry of [trig_mem_cal] on a memory interface, from what the
    hardware answers.  Take an instance [i] in use whose calibration flag
    is not set and its interface [j]; the instances before it are passed
    (calibrated, or with all their interfaces recovering) and so are the
    interfaces of the instance before [j].  Let the status query of the
    interface be answered and the first [k <= 3] reads of its live status
    fail to report success, each followed by a trigger command and a
    status query that are answered, and, when [k < 3], let read [k + 1]
    report success.  Then exactly [k] trigger commands are sent for the
    interface.  With [k < 3] the interface is recovered and the loop over
    the interfaces goes on.  With [k = 3] there is no fourth read: the
    interface ends in [-EPERM], and [trig_mem_cal] returns [-EPERM] right
    after the third failed attempt, the flag of the instance still not
    set. *)
Theorem trig_mem_cal_retry_bound io96b_ctrl d_init i inst kss ua da ti
    j ks u0 d0 tj r0 d1 t1 k rk dk tk :
  NoDup (mailbox_regs (io96b_csr_addr inst)) ->
  u16 TRIG_MEM_CAL <> u16 GET_MEM_CAL_STATUS ->
  (i < Z.to_nat (num_instance io96b_ctrl))%nat ->
  io96b io96b_ctrl !! i = Some inst ->
  cal_status inst = false ->
  instances_pass dev (take i (io96b io96b_ctrl)) kss usr_resp_decl d_init
    = Some (ua, da, ti) ->
  (j < Z.to_nat (num_mem_interface (mb_ctrl inst)))%nat ->
  length ks = j ->
  interfaces_recover dev inst 0 ks ua da = Some (u0, d0, tj) ->
  io96b_mb_req dev (io96b_csr_addr inst) 0 0 CMD_TRIG_MEM_CAL_OP GET_MEM_CAL_STATUS
    0 0 0 0 0 0 0 2 u0 d0 = (Ret (0, r0), d1, t1) ->
  failed_attempts dev inst j k r0 d1 = Some (rk, dk, tk) ->
  (k <= 3)%nat ->
  ((k < 3)%nat -> live_success dev inst j rk dk = true) ->
  let t := t1 ++ tk ++ (if (k <? 3)%nat then live_read dev inst j rk dk else []) in
  trigger_count (io96b_csr_addr inst) t = k
  /\ (exists d_end,
        trig_mem_cal_intf dev inst j (u0, 0) d0
          = (Ret (if (k <? 3)%nat then Continue (rk, 0)
                  else GotoErr (rk, - EPERM)), d_end, t))
  /\ (k = 3%nat ->
        exists io96b_ctrl',
          trig_mem_cal dev io96b_ctrl d_init
            = (Ret (- EPERM, io96b_ctrl'), dk, ti ++ tj ++ t1 ++ tk)
          /\ (cal_status <$> io96b io96b_ctrl' !! i) = Some false).
Proof.
  intros Hnd Hop Hi Hinst Hcal Hpass Hj Hks Hrec Hq Hfail Hk Hs.
  pose proof (lookup_lt_Some _ _ _ Hinst) as Hlen.
  destruct (instances_pass_rounds (take i (io96b io96b_ctrl)) kss 0 io96b_ctrl
              usr_resp_decl 0 d_init ua da ti) as (c' & cnt' & Hri & Hn & Hsame);
    [|exact Hpass|].
  { intros m x Hm. rewrite Nat.add_0_l. apply lookup_take_Some in Hm as (Hm & _). exact Hm. }
  rewrite length_take, Nat.min_l in Hri, Hsame by lia.
  assert (Hinst' : io96b c' !! i = Some inst).
  { rewrite Hsame by lia. exact Hinst. }
  pose proof (interfaces_recover_rounds _ _ _ _ _ _ _ _ Hrec) as Hrj. rewrite Hks in Hrj.
  pose proof (failed_attempts_rounds _ _ _ 0%nat _ _ _ _ _ Hfail) as Hrk.
  destruct (retry_bound_rounds dev io96b_ctrl d_init i c' ua 0 cnt' da ti inst j u0 0 d0 tj
              r0 d1 t1 k rk false 0 dk tk Hnd Hop Hri Hi Hinst' Hcal Hrj Hj Hq Hrk Hk Hs)
    as (Hcount & Hintf & Hex).
  split; [exact Hcount|]. split; [exact Hintf|].
  intros Hk3. destruct (Hex Hk3) as (Hcall & Hflag). exists c'. auto.
Qed.

(** *** The handoff *)

(** X23: [update_io96b_assigned_to_hps] reads the scratch register and
    writes it back once; in the word written, the bits of the field mask
    carry the number given (from the lowest bit of the mask on) and every
    other bit is as it was read. *)
Theorem update_io96b_assigned_to_hps_bits n d :
  exists v x d',
    update_io96b_assigned_to_hps dev n d
    = (Ret tt, d',
       [EvRead (SOCFPGA_SYSMGR_ADDRESS + SYSMGR_SOC64_BOOT_SCRATCH_COLD8) v;
        EvWrite (SOCFPGA_SYSMGR_ADDRESS + SYSMGR_SOC64_BOOT_SCRATCH_COLD8) x])
    /\ forall k, 0 <= k < 32 ->
         Z.testbit x k =
         if Z.testbit ALT_SYSMGR_SCRATCH_REG_8_IO96B_HPS_MASK k
         then Z.testbit (u8 n) (k - bf_shf ALT_SYSMGR_SCRATCH_REG_8_IO96B_HPS_MASK)
         else Z.testbit v k.
Proof.
  unfold update_io96b_assigned_to_hps, mbind, writel.
  destruct (readl_run dev (SOCFPGA_SYSMGR_ADDRESS + SYSMGR_SOC64_BOOT_SCRATCH_COLD8) d)
    as (v & d1 & -> & _).
  do 3 eexists. split; [reflexivity|].
  intros k Hk. unfold FIELD_PREP.
  assert (Hs : 0 <= bf_shf ALT_SYSMGR_SCRATCH_REG_8_IO96B_HPS_MASK)
    by (unfold bf_shf; apply Z.log2_nonneg).
  rewrite u32_testbit, Z.lor_spec, !Z.land_spec, u32_testbit, Z.lnot_spec, Z.shiftl_spec by lia.
  replace (k <? 32) with true by (symmetry; apply Z.ltb_lt; lia).
  destruct (Z.testbit ALT_SYSMGR_SCRATCH_REG_8_IO96B_HPS_MASK k); cbn [negb andb orb];
    rewrite ?andb_true_r, ?andb_false_r, ?orb_false_r; reflexivity.
Qed.

Lemma update_io96b_assigned_to_hps_run n d :
  exists d' t, update_io96b_assigned_to_hps dev n d = (Ret tt, d', t).
Proof.
  unfold update_io96b_assigned_to_hps, mbind, writel.
  destruct (readl_run dev (SOCFPGA_SYSMGR_ADDRESS + SYSMGR_SOC64_BOOT_SCRATCH_COLD8) d)
    as (v & d1 & -> & _).
  do 2 eexists. reflexivity.
Qed.

Lemma enabled_slots_S w i :
  enabled_slots w (S i)
  = enabled_slots w i ++ (if Z.testbit w (Z.of_nat i) then [i] else []).
Proof.
  unfold enabled_slots. rewrite seq_S, List.filter_app. cbn [List.filter Nat.add].
  destruct (Z.testbit w (Z.of_nat i)); reflexivity.
Qed.

Lemma u8_succ c : u8 (u8 c + 1) = u8 (c + 1).
Proof. unfold u8. rewrite Zplus_mod_idemp_l. reflexivity. Qed.

Lemma BIT_nonzero k : 0 <= k -> BIT k <> 0.
Proof. intros Hk. unfold BIT. rewrite Z.shiftl_1_l. lia. Qed.

Section Handoff.
Variable dev_read_addr_index : Z -> Z.
Variable handoff_table : list Z.
Variable ctrl : io96b_info.

Lemma populate_io96b_slot_ctl n i s d c d' t :
  (i < n)%nat ->
  handoff_done dev_read_addr_index handoff_table ctrl i s ->
  populate_io96b_slot dev dev_read_addr_index handoff_table i s d = (Ret c, d', t) ->
  d' = d /\ t = []
  /\ match c with
     | Continue s' => handoff_done dev_read_addr_index handoff_table ctrl (S i) s'
     | Break s' => False
     | GotoErr s' => handoff_failed dev_read_addr_index handoff_table ctrl n (fst s')
     end.
Proof.
  destruct s as [c0 count]. unfold handoff_done. cbn [fst snd].
  intros Hin (Hc & Hf & Ha & Hk) H.
  unfold populate_io96b_slot in H.
  destruct (Z.eqb_spec (dev_read_addr_index (Z.of_nat i + 1)) FDT_ADDR_T_NONE) as [En|En].
  { apply mret_inv in H as (-> & -> & ->). split; [reflexivity|]. split; [reflexivity|].
    split; [exact Hf|]. exists i. auto. }
  assert (Ha' : forall j, (j < S i)%nat ->
                  dev_read_addr_index (Z.of_nat j + 1) <> FDT_ADDR_T_NONE).
  { intros j Hj. destruct (decide (j = i)) as [->|Hne]; [exact En|apply Ha; lia]. }
  apply mbind_inv in H as (w & d1 & t1 & t2 & Hw & H & ->).
  apply idx_inv in Hw as (Hw & -> & ->). rewrite Hw in *.
  change (default 0 (Some w)) with w in *.
  rewrite enabled_slots_S. rewrite land_bit in H by lia.
  destruct (Z.testbit w (Z.of_nat i)) eqn:Hb.
  - rewrite (proj2 (Z.eqb_neq _ _) (BIT_nonzero (Z.of_nat i) (Nat2Z.is_nonneg i))) in H.
    cbn [negb] in H.
    apply mbind_inv in H as (inst & d2 & t3 & t4 & Hi & H & ->).
    apply idx_inv in Hi as (Hi & -> & ->). apply mret_inv in H as (-> & -> & ->).
    split; [reflexivity|]. split; [reflexivity|]. cbn [fst snd io96b set_io96b].
    split; [|split; [|split; [exact Ha'|]]].
    + rewrite Hc, u8_succ, length_app. cbn [length]. rewrite Nat2Z.inj_add. reflexivity.
    + eapply set_io96b_frame. exact Hf.
    + intros k. destruct (decide (k = i)) as [->|Hne].
      * rewrite list_lookup_insert_eq by (eapply lookup_lt_Some; eauto).
        case_decide as Hd; [|exfalso; apply Hd; split; [lia|exact Hb]].
        rewrite Hk in Hi. case_decide as Hd'; [lia|]. rewrite Hi. reflexivity.
      * rewrite list_lookup_insert_ne by lia. rewrite Hk.
        repeat case_decide; try reflexivity; exfalso;
          match goal with
          | Hn : ~ _, Hp : _ /\ _ |- _ => apply Hn; destruct Hp; split; [lia|assumption]
          end.
  - cbn [Z.eqb negb] in H. apply mret_inv in H as (-> & -> & ->).
    split; [reflexivity|]. split; [reflexivity|]. cbn [fst snd].
    split; [|split; [|split; [exact Ha'|]]].
    + rewrite app_nil_r. exact Hc.
    + exact Hf.
    + intros k. rewrite Hk. repeat case_decide; try reflexivity; exfalso;
        match goal with
        | Hn : ~ _, Hp : _ /\ _ |- _ =>
            destruct Hp as (Hp1 & Hp2);
            destruct (decide (k = i)) as [->|Hne];
              [congruence|apply Hn; split; [lia|assumption]]
        end.
Qed.

Lemma populate_loop N n : forall i0 s d f d' t,
  (i0 + n <= N)%nat ->
  handoff_done dev_read_addr_index handoff_table ctrl i0 s ->
  for_ctl dev (populate_io96b_slot dev dev_read_addr_index handoff_table) i0 n s d
    = (Ret f, d', t) ->
  d' = d /\ t = []
  /\ match f with
     | Done s' => handoff_done dev_read_addr_index handoff_table ctrl (i0 + n) s'
     | Err s' => handoff_failed dev_read_addr_index handoff_table ctrl N (fst s')
     end.
Proof.
  induction n as [|n IH]; intros i0 s d f d' t Hn Hs H; cbn [for_ctl] in H.
  - apply mret_inv in H as (-> & -> & ->). rewrite Nat.add_0_r. auto.
  - apply mbind_inv in H as (c & d1 & t1 & t2 & H1 & H & ->).
    assert (Hlt : (i0 < N)%nat) by lia.
    destruct (populate_io96b_slot_ctl N i0 _ _ _ _ _ Hlt Hs H1) as (-> & -> & Hc).
    destruct c as [s1|s1|s1]; [|destruct Hc|].
    + replace (i0 + S n)%nat with (S i0 + n)%nat by lia.
      assert (Hle : (S i0 + n <= N)%nat) by lia.
      destruct (IH (S i0) _ _ _ _ _ Hle Hc H) as (-> & -> & Hf). auto.
    + apply mret_inv in H as (-> & -> & ->). auto.
Qed.

(** X22: the IO96B branch of [populate_ddr_handoff] returns 0 or
    [-EINVAL], and of the controller data it changes only the instance
    count and addresses of instances.  It returns 0 when no register block
    of the first [MAX_IO96B_SUPPORTED] is missing.  Then the instance count
    is the number of instances that the handoff word enables, but their
    addresses are stored at the slot of their own index, not one after the
    other: slot [k] gets the address of register block [k + 1] when bit [k]
    of the word is set, and keeps what it held otherwise.  It returns
    [-EINVAL] at the first register block [i] that is missing: the instance
    count is left as it was and no register is touched, but the enabled
    slots below [i] have their addresses stored already. *)
Theorem populate_ddr_handoff_io96b_result d ret ctrl' d' t :
  populate_ddr_handoff_io96b dev dev_read_addr_index handoff_table ctrl d
    = (Ret (ret, ctrl'), d', t) ->
  let w := default 0 (handoff_table !! 1%nat) in
  let n := Z.to_nat MAX_IO96B_SUPPORTED in
  ctrl' = set_num_instance (num_instance ctrl') (set_io96b (io96b ctrl') ctrl)
  /\ exists i,
       (forall j, (j < i)%nat -> dev_read_addr_index (Z.of_nat j + 1) <> FDT_ADDR_T_NONE)
       /\ (forall k, io96b ctrl' !! k =
             if decide (k < i /\ Z.testbit w (Z.of_nat k) = true)%nat
             then set_io96b_csr_addr (dev_read_addr_index (Z.of_nat k + 1))
                    <$> io96b ctrl !! k
             else io96b ctrl !! k)
       /\ (ret = 0 /\ i = n
           /\ num_instance ctrl' = u8 (Z.of_nat (length (enabled_slots w n)))
           \/ ret = - EINVAL /\ (i < n)%nat
              /\ dev_read_addr_index (Z.of_nat i + 1) = FDT_ADDR_T_NONE
              /\ num_instance ctrl' = num_instance ctrl /\ d' = d /\ t = []).
Proof.
  intros H w n. unfold populate_ddr_handoff_io96b in H.
  apply mbind_inv in H as (f & d1 & t1 & t2 & Hf & H & ->).
  apply (populate_loop n) in Hf; [|lia|].
  2: { split; [reflexivity|]. split; [symmetry; apply set_io96b_eta|].
       split; [intros j Hj; lia|]. intros k. case_decide; [lia|reflexivity]. }
  destruct Hf as (-> & -> & Hf). destruct f as [[c1 count]|[c1 count]].
  - destruct Hf as (Hc & Hfr & Ha & Hk). cbn [fst snd] in Hc, Hfr, Ha, Hk.
    apply mbind_inv in H as ([] & d2 & t3 & t4 & _ & H & ->).
    apply mret_inv in H as (E & _). inversion E; subst ret ctrl'. clear E.
    cbn [num_instance io96b set_num_instance]. split.
    + rewrite <- Hfr. reflexivity.
    + exists n. split; [exact Ha|]. split; [exact Hk|]. left. auto.
  - cbn [fst] in Hf. destruct Hf as (Hfr & i & Hi & Hnone & Ha & Hk).
    apply mret_inv in H as (E & -> & ->). inversion E; subst ret ctrl'.
    split.
    + rewrite <- Hfr. destruct c1; reflexivity.
    + exists i. split; [exact Ha|]. split; [exact Hk|]. right.
      split; [reflexivity|]. split; [exact Hi|]. split; [exact Hnone|].
      split; [rewrite Hfr; reflexivity|auto].
Qed.

End Handoff.

End MoreProofs.

(** * Runs on concrete inputs *)

Lemma sample_regs_distinct :
  NoDup (mailbox_regs 0x1000) /\ NoDup (mailbox_regs 0x1000 ++ mailbox_regs 0x2000).
Proof. split; apply (bool_decide_eq_true_1 _); vm_compute; reflexivity. Qed.

(** C7, as the code has it: when the first interface reports the type code
    of "UNKNOWN" and the second one "DDR4", the call returns 0 with "DDR4"
    as the type of the set: the second report is taken as a new seed and
    the mismatch goes unnoticed. *)
Theorem get_mem_technology_unknown_first :
  fst (fst (get_mem_technology script_dev tech_ctrl (tech_script 6 0)))
  = Ret (0, set_ddr_type "DDR4" tech_ctrl).
Proof. vm_compute. reflexivity. Qed.

(** The other order is a mismatch. *)
Example get_mem_technology_unknown_second :
  fst (fst (get_mem_technology script_dev tech_ctrl (tech_script 0 6)))
  = Ret (- ENOEXEC, set_ddr_type "DDR4" tech_ctrl).
Proof. vm_compute. reflexivity. Qed.

Example get_mem_technology_ddr4_ddr5 :
  fst (fst (get_mem_technology script_dev tech_ctrl (tech_script 0 1)))
  = Ret (- ENOEXEC, set_ddr_type "DDR4" tech_ctrl).
Proof. vm_compute. reflexivity. Qed.

Example get_mem_technology_ddr5_ddr5 :
  fst (fst (get_mem_technology script_dev tech_ctrl (tech_script 1 1)))
  = Ret (0, set_ddr_type "DDR5" tech_ctrl).
Proof. vm_compute. reflexivity. Qed.

(** C3, as the code has it.  [trig_mem_cal]: two instances that are not
    calibrated, the first recovers and the second runs out of retries; the
    call returns [-EPERM] with the overall flag set although the second
    instance has not passed.  The DBE block of [sdram_mmr_init_full]: with
    one instance in use, the flag of the instance is cleared and the overall
    flag is and-ed with the flag of the array slot after it; the overall
    flag stays set. *)
Theorem overall_cal_status_from_one_instance :
  match fst (fst (trig_mem_cal script_dev recal_ctrl recal_script)) with
  | Ret (ret, io96b_ctrl) =>
      ret = - EPERM /\ overall_cal_status io96b_ctrl = true
      /\ all_cal_passed io96b_ctrl = false
  | _ => False
  end
  /\ match fst (fst (dbe_recal_flags script_dev dbe_ctrl [])) with
     | Ret io96b_ctrl =>
         overall_cal_status io96b_ctrl = true /\ all_cal_passed io96b_ctrl = false
     | _ => False
     end.
Proof. vm_compute. auto. Qed.

(** C9, the claim refuted: a call with [resp_data_len = 4] returns 0. *)
Lemma io96b_mb_req_len_4_returns_0 :
  fst (fst (io96b_mb_req script_dev 0x1000 0 0 1 1 0 0 0 0 0 0 0 4 usr_resp_decl
              (ok_reads (status_word 0) [7; 8; 9])))
  = Ret (0, {| cmd_resp_status := status_word 0; cmd_resp_data := [7; 8; 9] |}).
Proof. vm_compute. reflexivity. Qed.

(** ** The theorems at concrete inputs *)

Lemma io96b_mb_req_doorbell_witness :
  NoDup (mailbox_regs 0x1000)
  /\ wait_for_bit_le32 script_dev (reg 0x1000 IOSSM_CMD_REQ_OFFSET) (GENMASK 31 0) false
       TIMEOUT (ok_reads (status_word 0) [7; 8])
     = (Ret 0, drop 1 (ok_reads (status_word 0) [7; 8]),
        [] ++ [EvRead (reg 0x1000 IOSSM_CMD_REQ_OFFSET) 0])
  /\ exists t0 tq word,
       snd (io96b_mb_req script_dev 0x1000 3 5 2 4 0 0 0 0 0 0 0 2 usr_resp_decl
              (ok_reads (status_word 0) [7; 8]))
         = t0 ++ [EvRead (reg 0x1000 IOSSM_CMD_REQ_OFFSET) 0] ++ tq
       /\ [] ++ [EvRead (reg 0x1000 IOSSM_CMD_REQ_OFFSET) 0]
          = t0 ++ [EvRead (reg 0x1000 IOSSM_CMD_REQ_OFFSET) 0]
       /\ Forall (fun e => exists v, e = EvRead (reg 0x1000 IOSSM_CMD_REQ_OFFSET) v) t0
       /\ writes_to (reg 0x1000 IOSSM_CMD_REQ_OFFSET) tq = [word]
       /\ 0 <= word < 2 ^ 32
       /\ forall n, 0 <= n < 32 ->
            Z.testbit word n =
            Z.testbit 4 n || Z.testbit 2 (n - 16) || Z.testbit 5 (n - 24)
            || Z.testbit 3 (n - 29).
Proof.
  split; [apply sample_regs_distinct|]. split; [vm_compute; reflexivity|].
  apply (io96b_mb_req_doorbell script_dev 0x1000 3 5 2 4 0 0 0 0 0 0 0 2 usr_resp_decl
           (ok_reads (status_word 0) [7; 8]) (drop 1 (ok_reads (status_word 0) [7; 8]))
           ([] ++ [EvRead (reg 0x1000 IOSSM_CMD_REQ_OFFSET) 0]));
    [apply sample_regs_distinct|vm_compute; reflexivity].
Defined.

Lemma mbox_dev_status_holds :
  status_holds (mbox_dev 0x1000 (status_word 2)) 0x1000.
Proof.
  intros dq v. cbn [dev_readl dev_writel mbox_dev fst].
  change (reg 0x1000 IOSSM_CMD_RESPONSE_STATUS_OFFSET =? reg 0x1000 IOSSM_CMD_REQ_OFFSET)
    with false.
  cbv iota. rewrite Z.eqb_refl. reflexivity.
Qed.

Lemma io96b_mb_req_ack_witness :
  io96b_mb_req (mbox_dev 0x1000 (status_word 2)) 0x1000 3 5 2 4 0 0 0 0 0 0 0 2
    usr_resp_decl (fun _ => 0)
  = (Ret (0, {| cmd_resp_status := status_word 2; cmd_resp_data := [0; 0; 0] |}),
     snd (fst (io96b_mb_req (mbox_dev 0x1000 (status_word 2)) 0x1000 3 5 2 4 0 0 0 0 0 0 0 2
                 usr_resp_decl (fun _ => 0))),
     snd (io96b_mb_req (mbox_dev 0x1000 (status_word 2)) 0x1000 3 5 2 4 0 0 0 0 0 0 0 2
            usr_resp_decl (fun _ => 0)))
  /\ status_holds (mbox_dev 0x1000 (status_word 2)) 0x1000
  /\ exists t0 v v',
       snd (io96b_mb_req (mbox_dev 0x1000 (status_word 2)) 0x1000 3 5 2 4 0 0 0 0 0 0 0 2
              usr_resp_decl (fun _ => 0))
       = t0 ++ [EvRead (reg 0x1000 IOSSM_CMD_RESPONSE_STATUS_OFFSET) v;
                EvWrite (reg 0x1000 IOSSM_CMD_RESPONSE_STATUS_OFFSET) (ack_value v);
                EvRead (reg 0x1000 IOSSM_CMD_RESPONSE_STATUS_OFFSET) v']
       /\ Z.land (ack_value v) IOSSM_STATUS_COMMAND_RESPONSE_READY = 0
       /\ (status_holds (mbox_dev 0x1000 (status_word 2)) 0x1000 ->
           Z.land v' IOSSM_STATUS_COMMAND_RESPONSE_READY = 0).
Proof.
  assert (E : io96b_mb_req (mbox_dev 0x1000 (status_word 2)) 0x1000 3 5 2 4 0 0 0 0 0 0 0 2
                usr_resp_decl (fun _ => 0)
              = (Ret (0, {| cmd_resp_status := status_word 2; cmd_resp_data := [0; 0; 0] |}),
                 snd (fst (io96b_mb_req (mbox_dev 0x1000 (status_word 2)) 0x1000 3 5 2 4
                             0 0 0 0 0 0 0 2 usr_resp_decl (fun _ => 0))),
                 snd (io96b_mb_req (mbox_dev 0x1000 (status_word 2)) 0x1000 3 5 2 4
                        0 0 0 0 0 0 0 2 usr_resp_decl (fun _ => 0)))).
  { vm_compute. reflexivity. }
  split; [exact E|]. split; [exact mbox_dev_status_holds|].
  exact (io96b_mb_req_ack _ _ _ _ _ _ _ _ _ _ _ _ _ _ _ _ _ _ _ E).
Defined.

Lemma io96b_mb_req_zeroes_resp_witness :
  length (cmd_resp_data {| cmd_resp_status := 5; cmd_resp_data := [1; 2; 3] |})
  = NUM_CMD_RESPONSE_DATA
  /\ (io96b_mb_req script_dev 0x1000 3 5 2 4 0 0 0 0 0 0 0 1
        {| cmd_resp_status := 5; cmd_resp_data := [1; 2; 3] |}
        (ok_reads (status_word 0) [7])
      = io96b_mb_req script_dev 0x1000 3 5 2 4 0 0 0 0 0 0 0 1
          {| cmd_resp_status := 0; cmd_resp_data := [0; 0; 0] |}
          (ok_reads (status_word 0) [7])
      /\ exists ret resp' d' t,
           io96b_mb_req script_dev 0x1000 3 5 2 4 0 0 0 0 0 0 0 1
             {| cmd_resp_status := 5; cmd_resp_data := [1; 2; 3] |}
             (ok_reads (status_word 0) [7])
           = (Ret (ret, resp'), d', t)
           /\ length (cmd_resp_data resp') = NUM_CMD_RESPONSE_DATA
           /\ (forall k, (Z.to_nat 1 <= k < NUM_CMD_RESPONSE_DATA)%nat ->
                 cmd_resp_data resp' !! k = Some 0)
           /\ (ret <> 0 ->
               resp' = {| cmd_resp_status := 0; cmd_resp_data := [0; 0; 0] |})).
Proof.
  split; [reflexivity|].
  apply (io96b_mb_req_zeroes_resp script_dev 0x1000 3 5 2 4 0 0 0 0 0 0 0 1
           {| cmd_resp_status := 5; cmd_resp_data := [1; 2; 3] |}
           (ok_reads (status_word 0) [7])).
  reflexivity.
Defined.

Lemma io96b_mb_req_len_above_3_witness :
  3 <= 4
  /\ io96b_mb_req script_dev 0x1000 0 0 1 1 0 0 0 0 0 0 0 4 usr_resp_decl
       (ok_reads (status_word 0) [7; 8; 9])
     = io96b_mb_req script_dev 0x1000 0 0 1 1 0 0 0 0 0 0 0 3 usr_resp_decl
         (ok_reads (status_word 0) [7; 8; 9]).
Proof.
  split; [lia|].
  apply (io96b_mb_req_len_above_3 script_dev 0x1000 0 0 1 1 0 0 0 0 0 0 0 4 usr_resp_decl
           (ok_reads (status_word 0) [7; 8; 9])).
  lia.
Defined.

Lemma io96b_mb_req_param_6_unwritten_witness :
  NoDup (mailbox_regs 0x1000)
  /\ writes_to (reg 0x1000 IOSSM_CMD_PARAM_6_OFFSET)
       (snd (io96b_mb_req script_dev 0x1000 0 0 1 1 0 0 0 0 0 0 1 2 usr_resp_decl
               (ok_reads (status_word 0) [7; 8]))) = [].
Proof.
  split; [apply sample_regs_distinct|].
  apply (io96b_mb_req_param_6_unwritten script_dev 0x1000 0 0 1 1 0 0 0 0 0 0 1 2
           usr_resp_decl (ok_reads (status_word 0) [7; 8])).
  apply sample_regs_distinct.
Defined.

Lemma io96b_mb_init_tables_witness :
  (Z.to_nat (num_instance intf_ctrl) <= length (io96b intf_ctrl))%nat
  /\ Forall (fun inst => (2 <= length (ip_type (mb_ctrl inst)))%nat
                         /\ (2 <= length (ip_instance_id (mb_ctrl inst)))%nat)
       (take (Z.to_nat (num_instance intf_ctrl)) (io96b intf_ctrl))
  /\ intf_info_answers script_dev (take (Z.to_nat (num_instance intf_ctrl)) (io96b intf_ctrl))
       intf_script
     = Some ([intf_resp], [], snd (io96b_mb_init script_dev intf_ctrl intf_script))
  /\ io96b_mb_init script_dev intf_ctrl intf_script
     = (Ret (set_io96b
               (zip_with intf_recorded
                  (take (Z.to_nat (num_instance intf_ctrl)) (io96b intf_ctrl)) [intf_resp]
                ++ drop (Z.to_nat (num_instance intf_ctrl)) (io96b intf_ctrl)) intf_ctrl),
        [], snd (io96b_mb_init script_dev intf_ctrl intf_script))
  /\ Forall (fun usr_resp =>
               (length (intf_found usr_resp) <= 2)%nat /\ 0 <= intf_count usr_resp <= 3)
       [intf_resp].
Proof.
  assert (Hn : (Z.to_nat (num_instance intf_ctrl) <= length (io96b intf_ctrl))%nat)
    by (vm_compute; lia).
  assert (Hok : Forall (fun inst => (2 <= length (ip_type (mb_ctrl inst)))%nat
                                    /\ (2 <= length (ip_instance_id (mb_ctrl inst)))%nat)
                  (take (Z.to_nat (num_instance intf_ctrl)) (io96b intf_ctrl))).
  { change (take (Z.to_nat (num_instance intf_ctrl)) (io96b intf_ctrl)) with [intf_instance].
    constructor; [|constructor]. split; vm_compute; lia. }
  assert (Ha : intf_info_answers script_dev
                 (take (Z.to_nat (num_instance intf_ctrl)) (io96b intf_ctrl)) intf_script
               = Some ([intf_resp], [], snd (io96b_mb_init script_dev intf_ctrl intf_script)))
    by (vm_compute; reflexivity).
  split; [exact Hn|]. split; [exact Hok|]. split; [exact Ha|].
  apply (io96b_mb_init_tables script_dev intf_ctrl intf_script [intf_resp] []
           (snd (io96b_mb_init script_dev intf_ctrl intf_script)) Hn Hok Ha).
Defined.

(** The table the enumerator leaves for that response: one entry stored,
    the count of the hardware kept. *)
Example io96b_mb_init_second_word_absent :
  fst (fst (io96b_mb_init script_dev intf_ctrl intf_script))
  = Ret (set_io96b
           [set_mb_ctrl {| num_mem_interface := 2; ip_type := [1; 7; 7];
                           ip_instance_id := [2; 9; 9] |}
              intf_instance] intf_ctrl).
Proof. vm_compute. reflexivity. Qed.

(** The interfaces in use after that enumeration are two: the one found,
    and what the second slot of the tables held before. *)
Example io96b_mb_init_interfaces_in_use :
  match fst (fst (io96b_mb_init script_dev intf_ctrl intf_script)) with
  | Ret io96b_ctrl => (fun inst => interfaces_in_use (mb_ctrl inst)) <$> io96b io96b_ctrl
  | _ => []
  end = [[(1, 2); (7, 9)]].
Proof. vm_compute. reflexivity. Qed.

(** A query that follows sends its second command to that left-over
    interface (IP type 7, instance id 9). *)
Example get_mem_technology_after_enumeration :
  match fst (fst (io96b_mb_init script_dev intf_ctrl intf_script)) with
  | Ret io96b_ctrl =>
      writes_to (reg 0x1000 IOSSM_CMD_REQ_OFFSET)
        (snd (get_mem_technology script_dev io96b_ctrl (tech_script 0 0)))
  | _ => []
  end = [cmd_req_word 1 2 CMD_GET_MEM_INFO GET_MEM_TECHNOLOGY;
         cmd_req_word 7 9 CMD_GET_MEM_INFO GET_MEM_TECHNOLOGY].
Proof. vm_compute. reflexivity. Qed.

Lemma get_mem_width_info_sums_witness :
  NoDup (all_mailbox_regs (take (Z.to_nat (num_instance width_ctrl)) (io96b width_ctrl)))
  /\ get_mem_width_info script_dev width_ctrl width_script
     = (Ret (0, width_result), [],
        snd (get_mem_width_info script_dev width_ctrl width_script))
  /\ (forall i inst,
        (i < Z.to_nat (num_instance width_ctrl))%nat -> io96b width_ctrl !! i = Some inst ->
        let widths :=
          widths_read (io96b_csr_addr inst)
            (snd (get_mem_width_info script_dev width_ctrl width_script)) in
        io96b width_result !! i = Some (set_size (u16 (Zsum widths)) inst)
        /\ length widths = Z.to_nat (num_mem_interface (mb_ctrl inst))
        /\ (Zsum widths < 2 ^ 16 -> u16 (Zsum widths) = Zsum widths))
  /\ (let sizes :=
        size <$> take (Z.to_nat (num_instance width_ctrl)) (io96b width_result) in
      overall_size width_result = u16 (Zsum sizes)
      /\ (Zsum sizes < 2 ^ 16 -> overall_size width_result = Zsum sizes)).
Proof.
  assert (Hnd : NoDup (all_mailbox_regs
                         (take (Z.to_nat (num_instance width_ctrl)) (io96b width_ctrl)))).
  { apply (bool_decide_eq_true_1 _). vm_compute. reflexivity. }
  assert (E : get_mem_width_info script_dev width_ctrl width_script
              = (Ret (0, width_result), [],
                 snd (get_mem_width_info script_dev width_ctrl width_script))).
  { vm_compute. reflexivity. }
  split; [exact Hnd|]. split; [exact E|].
  exact (get_mem_width_info_sums script_dev width_ctrl width_script width_result [] _ Hnd E).
Defined.

(** Sizes 8, 8 and 4 make an instance of size 20; with a second instance of
    size 6 the overall size is 26. *)
Example get_mem_width_info_8_8_4 :
  widths_read 0x1000 (snd (get_mem_width_info script_dev width_ctrl width_script)) = [8; 8; 4]
  /\ widths_read 0x2000 (snd (get_mem_width_info script_dev width_ctrl width_script)) = [6]
  /\ size <$> io96b width_result = [20; 6]
  /\ overall_size width_result = 26.
Proof. vm_compute. auto. Qed.

Lemma trig_mem_cal_retry_bound_witness :
  (NoDup (mailbox_regs (io96b_csr_addr retry_inst))
   /\ u16 TRIG_MEM_CAL <> u16 GET_MEM_CAL_STATUS
   /\ (0 < Z.to_nat (num_instance retry_ctrl))%nat
   /\ io96b retry_ctrl !! 0%nat = Some retry_inst
   /\ cal_status retry_inst = false
   /\ instances_pass script_dev (take 0 (io96b retry_ctrl)) [] usr_resp_decl retry_script
      = Some (usr_resp_decl, retry_script, [])
   /\ (0 < Z.to_nat (num_mem_interface (mb_ctrl retry_inst)))%nat
   /\ interfaces_recover script_dev retry_inst 0 [] usr_resp_decl retry_script
      = Some (usr_resp_decl, retry_script, [])
   /\ io96b_mb_req script_dev (io96b_csr_addr retry_inst) 0 0 CMD_TRIG_MEM_CAL_OP
        GET_MEM_CAL_STATUS 0 0 0 0 0 0 0 2 usr_resp_decl retry_script
      = (Ret (0, retry_resp), retry_d1, retry_t1)
   /\ failed_attempts script_dev retry_inst 0 2 retry_resp retry_d1
      = Some (retry_resp, [1], retry_tk)
   /\ live_success script_dev retry_inst 0 retry_resp [1] = true
   /\ trigger_count 0x1000
        (retry_t1 ++ retry_tk ++ live_read script_dev retry_inst 0 retry_resp [1]) = 2%nat
   /\ (exists d_end,
         trig_mem_cal_intf script_dev retry_inst 0 (usr_resp_decl, 0) retry_script
         = (Ret (Continue (retry_resp, 0)), d_end,
            retry_t1 ++ retry_tk ++ live_read script_dev retry_inst 0 retry_resp [1])))
  /\ (NoDup (mailbox_regs (io96b_csr_addr recal_inst))
      /\ (1 < Z.to_nat (num_instance recal_ctrl))%nat
      /\ io96b recal_ctrl !! 1%nat = Some recal_inst
      /\ cal_status recal_inst = false
      /\ instances_pass script_dev (take 1 (io96b recal_ctrl)) [[0%nat]] usr_resp_decl
           recal_script
         = Some (retry_resp, recal_d0, recal_ti)
      /\ (0 < Z.to_nat (num_mem_interface (mb_ctrl recal_inst)))%nat
      /\ interfaces_recover script_dev recal_inst 0 [] retry_resp recal_d0
         = Some (retry_resp, recal_d0, [])
      /\ io96b_mb_req script_dev (io96b_csr_addr recal_inst) 0 0 CMD_TRIG_MEM_CAL_OP
           GET_MEM_CAL_STATUS 0 0 0 0 0 0 0 2 retry_resp recal_d0
         = (Ret (0, retry_resp), recal_d1, recal_t1)
      /\ failed_attempts script_dev recal_inst 0 3 retry_resp recal_d1
         = Some (retry_resp, [], recal_tk)
      /\ trigger_count 0x2000 (recal_t1 ++ recal_tk ++ []) = 3%nat
      /\ (exists d_end,
            trig_mem_cal_intf script_dev recal_inst 0 (retry_resp, 0) recal_d0
            = (Ret (GotoErr (retry_resp, - EPERM)), d_end, recal_t1 ++ recal_tk ++ []))
      /\ (exists io96b_ctrl',
            trig_mem_cal script_dev recal_ctrl recal_script
            = (Ret (- EPERM, io96b_ctrl'), [], recal_ti ++ [] ++ recal_t1 ++ recal_tk)
            /\ (cal_status <$> io96b io96b_ctrl' !! 1%nat) = Some false)).
Proof.
  assert (A1 : NoDup (mailbox_regs (io96b_csr_addr retry_inst)))
    by apply sample_regs_distinct.
  assert (A2 : u16 TRIG_MEM_CAL <> u16 GET_MEM_CAL_STATUS) by (vm_compute; discriminate).
  assert (A3 : instances_pass script_dev (take 0 (io96b retry_ctrl)) [] usr_resp_decl
                 retry_script = Some (usr_resp_decl, retry_script, []))
    by (vm_compute; reflexivity).
  assert (A4 : interfaces_recover script_dev retry_inst 0 [] usr_resp_decl retry_script
               = Some (usr_resp_decl, retry_script, [])) by (vm_compute; reflexivity).
  assert (A5 : io96b_mb_req script_dev (io96b_csr_addr retry_inst) 0 0 CMD_TRIG_MEM_CAL_OP
                 GET_MEM_CAL_STATUS 0 0 0 0 0 0 0 2 usr_resp_decl retry_script
               = (Ret (0, retry_resp), retry_d1, retry_t1)) by (vm_compute; reflexivity).
  assert (A6 : failed_attempts script_dev retry_inst 0 2 retry_resp retry_d1
               = Some (retry_resp, [1], retry_tk)) by (vm_compute; reflexivity).
  assert (A7 : live_success script_dev retry_inst 0 retry_resp [1] = true)
    by (vm_compute; reflexivity).
  assert (B1 : NoDup (mailbox_regs (io96b_csr_addr recal_inst)))
    by (apply (bool_decide_eq_true_1 _); vm_compute; reflexivity).
  assert (B3 : instances_pass script_dev (take 1 (io96b recal_ctrl)) [[0%nat]] usr_resp_decl
                 recal_script = Some (retry_resp, recal_d0, recal_ti))
    by (vm_compute; reflexivity).
  assert (B4 : interfaces_recover script_dev recal_inst 0 [] retry_resp recal_d0
               = Some (retry_resp, recal_d0, [])) by (vm_compute; reflexivity).
  assert (B5 : io96b_mb_req script_dev (io96b_csr_addr recal_inst) 0 0 CMD_TRIG_MEM_CAL_OP
                 GET_MEM_CAL_STATUS 0 0 0 0 0 0 0 2 retry_resp recal_d0
               = (Ret (0, retry_resp), recal_d1, recal_t1)) by (vm_compute; reflexivity).
  assert (B6 : failed_attempts script_dev recal_inst 0 3 retry_resp recal_d1
               = Some (retry_resp, [], recal_tk)) by (vm_compute; reflexivity).
  pose proof (trig_mem_cal_retry_bound script_dev retry_ctrl retry_script 0 retry_inst []
                usr_resp_decl retry_script [] 0 [] usr_resp_decl retry_script []
                retry_resp retry_d1 retry_t1 2 retry_resp [1] retry_tk
                A1 A2 ltac:(vm_compute; lia) eq_refl eq_refl A3 ltac:(vm_compute; lia)
                eq_refl A4 A5 A6 ltac:(lia) (fun _ => A7)) as (R1 & R2 & _).
  pose proof (trig_mem_cal_retry_bound script_dev recal_ctrl recal_script 1 recal_inst
                [[0%nat]] retry_resp recal_d0 recal_ti 0 [] retry_resp recal_d0 []
                retry_resp recal_d1 recal_t1 3 retry_resp [] recal_tk
                B1 A2 ltac:(vm_compute; lia) eq_refl eq_refl B3 ltac:(vm_compute; lia)
                eq_refl B4 B5 B6 ltac:(lia) (fun H => ltac:(lia))) as (S1 & S2 & S3).
  split.
  - repeat (split; [first [assumption | reflexivity | vm_compute; lia]|]).
    exact R2.
  - repeat (split; [first [assumption | reflexivity | vm_compute; lia]|]).
    exact (S3 eq_refl).
Defined.

(** Three failed reads: three trigger commands, no fourth read, [-EPERM]. *)
Example trig_mem_cal_exhausted :
  let '(r, d, t) := trig_mem_cal script_dev recal_ctrl recal_script in
  (exists io96b_ctrl, r = Ret (- EPERM, io96b_ctrl)) /\ d = []
  /\ trigger_count 0x2000 t = 3%nat /\ trigger_count 0x1000 t = 0%nat.
Proof. vm_compute. eauto. Qed.

(** * Further runs on concrete inputs *)

Lemma io96b_mb_req_params_0_5_witness :
  NoDup (mailbox_regs 0x1000)
  /\ wait_for_bit_le32 script_dev (reg 0x1000 IOSSM_CMD_REQ_OFFSET) (GENMASK 31 0) false
       TIMEOUT (ok_reads (status_word 0) [7; 8])
     = (Ret 0, drop 1 (ok_reads (status_word 0) [7; 8]),
        [EvRead (reg 0x1000 IOSSM_CMD_REQ_OFFSET) 0])
  /\ exists ta tb,
       snd param_run
       = ta ++ EvWrite (reg 0x1000 IOSSM_CMD_REQ_OFFSET) (cmd_req_word 3 5 2 4) :: tb
       /\ Forall (fun '(p, off) =>
                    writes_to (reg 0x1000 off) ta = (if p =? 0 then [] else [u32 p])
                    /\ writes_to (reg 0x1000 off) tb = [])
            [(0x40, IOSSM_CMD_PARAM_0_OFFSET); (0, IOSSM_CMD_PARAM_1_OFFSET);
             (9, IOSSM_CMD_PARAM_2_OFFSET); (0, IOSSM_CMD_PARAM_3_OFFSET);
             (0, IOSSM_CMD_PARAM_4_OFFSET); (7, IOSSM_CMD_PARAM_5_OFFSET)].
Proof.
  split; [apply sample_regs_distinct|]. split; [vm_compute; reflexivity|].
  apply (io96b_mb_req_params_0_5 script_dev 0x1000 3 5 2 4 0x40 0 9 0 0 7 0 2 usr_resp_decl
           (ok_reads (status_word 0) [7; 8]) (drop 1 (ok_reads (status_word 0) [7; 8]))
           [EvRead (reg 0x1000 IOSSM_CMD_REQ_OFFSET) 0]);
    [apply sample_regs_distinct|vm_compute; reflexivity].
Defined.

Lemma io96b_mb_req_not_ready_witness :
  length (cmd_resp_data usr_resp_decl) = NUM_CMD_RESPONSE_DATA
  /\ wait_for_bit_le32 script_dev (reg 0x1000 IOSSM_CMD_REQ_OFFSET) (GENMASK 31 0) false
       TIMEOUT [5]
     = (Ret (- ETIMEDOUT), [], [EvRead (reg 0x1000 IOSSM_CMD_REQ_OFFSET) 5])
  /\ - ETIMEDOUT <> 0
  /\ io96b_mb_req script_dev 0x1000 3 5 2 4 0x40 0 0 0 0 0 0 2 usr_resp_decl [5]
     = (Ret (- ETIMEDOUT, {| cmd_resp_status := 0; cmd_resp_data := [0; 0; 0] |}), [],
        [EvRead (reg 0x1000 IOSSM_CMD_REQ_OFFSET) 5])
  /\ Forall (fun e => exists v, e = EvRead (reg 0x1000 IOSSM_CMD_REQ_OFFSET) v)
       [EvRead (reg 0x1000 IOSSM_CMD_REQ_OFFSET) 5].
Proof.
  split; [reflexivity|]. split; [vm_compute; reflexivity|]. split; [discriminate|].
  apply (io96b_mb_req_not_ready script_dev 0x1000 3 5 2 4 0x40 0 0 0 0 0 0 2 usr_resp_decl
           [5] (- ETIMEDOUT) [] [EvRead (reg 0x1000 IOSSM_CMD_REQ_OFFSET) 5]);
    [reflexivity|vm_compute; reflexivity|discriminate].
Defined.

Lemma io96b_mb_req_failure_no_ack_witness :
  NoDup (mailbox_regs 0x1000)
  /\ exists ret resp' d' t,
       io96b_mb_req script_dev 0x1000 3 5 2 4 0x40 0 0 0 0 0 0 2 usr_resp_decl [0; 0]
       = (Ret (ret, resp'), d', t)
       /\ (ret = 0 \/ ret = - ETIMEDOUT)
       /\ (length (writes_to (reg 0x1000 IOSSM_CMD_REQ_OFFSET) t) <= 1)%nat
       /\ length (writes_to (reg 0x1000 IOSSM_CMD_RESPONSE_STATUS_OFFSET) t)
          = (if ret =? 0 then 1%nat else 0%nat).
Proof.
  split; [apply sample_regs_distinct|].
  apply (io96b_mb_req_failure_no_ack script_dev 0x1000 3 5 2 4 0x40 0 0 0 0 0 0 2
           usr_resp_decl [0; 0]).
  apply sample_regs_distinct.
Defined.

Lemma io96b_mb_req_data_words_witness :
  NoDup (mailbox_regs 0x1000)
  /\ length (cmd_resp_data usr_resp_decl) = NUM_CMD_RESPONSE_DATA
  /\ param_run
     = (Ret (0, {| cmd_resp_status := status_word 0; cmd_resp_data := [7; 8; 0] |}),
        [], snd param_run)
  /\ Forall (fun '(k, off) =>
               if k <? 2
               then exists w, reads_of (reg 0x1000 off) (snd param_run) = [w]
                              /\ [7; 8; 0] !! Z.to_nat k = Some w
               else reads_of (reg 0x1000 off) (snd param_run) = []
                    /\ [7; 8; 0] !! Z.to_nat k = Some 0)
       [(0, IOSSM_CMD_RESPONSE_DATA_0_OFFSET); (1, IOSSM_CMD_RESPONSE_DATA_1_OFFSET);
        (2, IOSSM_CMD_RESPONSE_DATA_2_OFFSET)].
Proof.
  split; [apply sample_regs_distinct|]. split; [reflexivity|].
  split; [vm_compute; reflexivity|].
  apply (io96b_mb_req_data_words script_dev 0x1000 3 5 2 4 0x40 0 9 0 0 7 0 2 usr_resp_decl
           (ok_reads (status_word 0) [7; 8])
           {| cmd_resp_status := status_word 0; cmd_resp_data := [7; 8; 0] |}
           [] (snd param_run));
    [apply sample_regs_distinct|reflexivity|vm_compute; reflexivity].
Defined.

Lemma cmd_req_word_fields_witness :
  0 <= 3 < 2 ^ 3 /\ 0 <= 5 < 2 ^ 5 /\ 0 <= 2 < 2 ^ 8 /\ 0 <= 4 < 2 ^ 16
  /\ intf_ip_type (cmd_req_word 3 5 2 4) = 3
  /\ intf_instance_id (cmd_req_word 3 5 2 4) = 5
  /\ FIELD_GET (GENMASK 23 16) (cmd_req_word 3 5 2 4) = 2
  /\ FIELD_GET (GENMASK 15 0) (cmd_req_word 3 5 2 4) = 4.
Proof.
  split; [lia|]. split; [lia|]. split; [lia|]. split; [lia|].
  apply (cmd_req_word_fields 3 5 2 4); lia.
Defined.

Lemma init_mem_cal_all_passed_witness :
  0 <= num_instance retry_ctrl
  /\ init_mem_cal script_dev retry_ctrl [1; 0]
     = (Ret cal_result, [], snd (init_mem_cal script_dev retry_ctrl [1; 0]))
  /\ overall_cal_status cal_result = true
  /\ all_cal_passed cal_result = true
  /\ cal_result = set_overall_cal_status true (set_io96b (io96b cal_result) retry_ctrl)
  /\ (forall k, io96b cal_result !! k =
                if decide (k < Z.to_nat (num_instance retry_ctrl))%nat
                then set_cal_status true <$> io96b retry_ctrl !! k
                else io96b retry_ctrl !! k).
Proof.
  split; [vm_compute; discriminate|]. split; [vm_compute; reflexivity|].
  apply (init_mem_cal_all_passed script_dev retry_ctrl [1; 0] cal_result []
           (snd (init_mem_cal script_dev retry_ctrl [1; 0])));
    [vm_compute; discriminate|vm_compute; reflexivity].
Defined.

Lemma trig_mem_cal_result_witness :
  trig_mem_cal script_dev recal_ctrl recal_script
  = (Ret (- EPERM, recal_result), snd (fst (trig_mem_cal script_dev recal_ctrl recal_script)),
     snd (trig_mem_cal script_dev recal_ctrl recal_script))
  /\ all_cal_passed recal_result = (- EPERM =? 0)
  /\ (- EPERM = 0 \/ - EPERM = - ETIMEDOUT \/ - EPERM = - EPERM)
  /\ num_instance recal_result = num_instance recal_ctrl.
Proof.
  split; [vm_compute; reflexivity|].
  apply (trig_mem_cal_result script_dev recal_ctrl recal_script (- EPERM) recal_result
           (snd (fst (trig_mem_cal script_dev recal_ctrl recal_script)))
           (snd (trig_mem_cal script_dev recal_ctrl recal_script))).
  vm_compute; reflexivity.
Defined.

Lemma trig_mem_cal_nothing_to_do_witness :
  (forall k, (k < Z.to_nat (num_instance dbe_ctrl))%nat ->
     exists x, io96b dbe_ctrl !! k = Some x /\ cal_status x = true)
  /\ trig_mem_cal script_dev dbe_ctrl [] = (Ret (0, dbe_ctrl), [], []).
Proof.
  assert (H : forall k, (k < Z.to_nat (num_instance dbe_ctrl))%nat ->
                exists x, io96b dbe_ctrl !! k = Some x /\ cal_status x = true).
  { intros k Hk. change (Z.to_nat (num_instance dbe_ctrl)) with 1%nat in Hk.
    destruct k as [|k]; [|lia]. eexists. split; reflexivity. }
  split; [exact H|].
  apply (trig_mem_cal_nothing_to_do script_dev dbe_ctrl []). exact H.
Defined.

Lemma get_mem_width_info_result_witness :
  get_mem_width_info script_dev width_ctrl width_script
  = (Ret (0, width_result), [], snd (get_mem_width_info script_dev width_ctrl width_script))
  /\ (0 = 0 \/ 0 = - ETIMEDOUT \/ 0 = - ENOEXEC)
  /\ width_result
     = set_overall_size (overall_size width_result)
         (set_io96b (io96b width_result) width_ctrl)
  /\ (forall k,
        match io96b width_ctrl !! k with
        | Some x =>
            exists sz, io96b width_result !! k = Some (set_size sz x)
              /\ (if decide (k < Z.to_nat (num_instance width_ctrl))%nat
                  then 0 = 0 -> 0 < sz < 2 ^ 16
                  else sz = size x)
        | None => io96b width_result !! k = None
        end)
  /\ (if 0 =? 0
      then 0 < overall_size width_result < 2 ^ 16 /\ 0 < num_instance width_ctrl
      else overall_size width_result = overall_size width_ctrl)
  /\ (num_instance width_ctrl <= 0 ->
      0 = - ENOEXEC /\ width_result = width_ctrl
      /\ snd (get_mem_width_info script_dev width_ctrl width_script) = []).
Proof.
  split; [vm_compute; reflexivity|].
  apply (get_mem_width_info_result script_dev width_ctrl width_script 0 width_result []
           (snd (get_mem_width_info script_dev width_ctrl width_script))).
  vm_compute; reflexivity.
Defined.

(** Without instances the call fails and nothing is touched. *)
Example get_mem_width_info_no_instance :
  get_mem_width_info script_dev (sample_ctrl true [] 0) []
  = (Ret (- ENOEXEC, sample_ctrl true [] 0), [], []).
Proof. vm_compute. reflexivity. Qed.

Lemma get_mem_technology_result_witness :
  get_mem_technology script_dev tech_ctrl (tech_script 1 1)
  = (Ret (0, set_ddr_type "DDR5" tech_ctrl), [],
     snd (get_mem_technology script_dev tech_ctrl (tech_script 1 1)))
  /\ (0 = 0 \/ 0 = - ETIMEDOUT \/ 0 = - ENOEXEC)
  /\ set_ddr_type "DDR5" tech_ctrl
     = set_ddr_type (ddr_type (set_ddr_type "DDR5" tech_ctrl)) tech_ctrl
  /\ ddr_type (set_ddr_type "DDR5" tech_ctrl) ∈ ddr_type_list.
Proof.
  split; [vm_compute; reflexivity|].
  apply (get_mem_technology_result script_dev tech_ctrl (tech_script 1 1) 0
           (set_ddr_type "DDR5" tech_ctrl) []
           (snd (get_mem_technology script_dev tech_ctrl (tech_script 1 1)))).
  vm_compute; reflexivity.
Defined.

Lemma get_mem_technology_code_7_witness :
  ip_type (mb_ctrl (sample_instance 0x1000 true 2)) !! 0%nat = Some 1
  /\ ip_instance_id (mb_ctrl (sample_instance 0x1000 true 2)) !! 0%nat = Some 0
  /\ io96b_mb_req script_dev (io96b_csr_addr (sample_instance 0x1000 true 2)) 1 0
       CMD_GET_MEM_INFO GET_MEM_TECHNOLOGY 0 0 0 0 0 0 0 0 usr_resp_decl
       (ok_reads (status_word 7) [])
     = (Ret (0, {| cmd_resp_status := status_word 7; cmd_resp_data := [0; 0; 0] |}), [],
        snd (io96b_mb_req script_dev 0x1000 1 0 CMD_GET_MEM_INFO GET_MEM_TECHNOLOGY
               0 0 0 0 0 0 0 0 usr_resp_decl (ok_reads (status_word 7) [])))
  /\ u8 (Z.land (IOSSM_CMD_RESPONSE_DATA_SHORT (status_word 7)) (GENMASK 2 0)) = 7
  /\ get_mem_technology_intf script_dev (sample_instance 0x1000 true 2) 0 (tech_ctrl, 0)
       (ok_reads (status_word 7) [])
     = (Undef, [],
        snd (io96b_mb_req script_dev 0x1000 1 0 CMD_GET_MEM_INFO GET_MEM_TECHNOLOGY
               0 0 0 0 0 0 0 0 usr_resp_decl (ok_reads (status_word 7) []))).
Proof.
  split; [reflexivity|]. split; [reflexivity|]. split; [vm_compute; reflexivity|].
  split; [vm_compute; reflexivity|].
  apply (get_mem_technology_code_7 script_dev (sample_instance 0x1000 true 2) 0%nat tech_ctrl 0
           1 0 (ok_reads (status_word 7) [])
           {| cmd_resp_status := status_word 7; cmd_resp_data := [0; 0; 0] |} []
           (snd (io96b_mb_req script_dev 0x1000 1 0 CMD_GET_MEM_INFO GET_MEM_TECHNOLOGY
                   0 0 0 0 0 0 0 0 usr_resp_decl (ok_reads (status_word 7) []))));
    [reflexivity|reflexivity|vm_compute; reflexivity|vm_compute; reflexivity].
Defined.

Lemma ecc_enable_status_result_witness :
  ecc_enable_status script_dev tech_ctrl (tech_script 1 1)
  = (Ret (0, set_ecc_status true tech_ctrl), [],
     snd (ecc_enable_status script_dev tech_ctrl (tech_script 1 1)))
  /\ (0 = 0 \/ 0 = - ETIMEDOUT \/ 0 = - ENOEXEC)
  /\ set_ecc_status true tech_ctrl
     = set_ecc_status (ecc_status (set_ecc_status true tech_ctrl)) tech_ctrl.
Proof.
  split; [vm_compute; reflexivity|].
  apply (ecc_enable_status_result script_dev tech_ctrl (tech_script 1 1) 0
           (set_ecc_status true tech_ctrl) []
           (snd (ecc_enable_status script_dev tech_ctrl (tech_script 1 1)))).
  vm_compute; reflexivity.
Defined.

(** The BIST on two interfaces, answered at once. *)
Example bist_mem_init_start_two_interfaces :
  fst (fst (bist_mem_init_start script_dev tech_ctrl bist_script)) = Ret 0.
Proof. vm_compute. reflexivity. Qed.

Lemma regfile_dev_holds a : reg_holds regfile_dev a.
Proof. intros d v. cbn [dev_readl dev_writel regfile_dev fst]. rewrite Z.eqb_refl. reflexivity. Qed.

Lemma ddr_init_inprogress_read_back_witness :
  reg_holds regfile_dev (SOCFPGA_SYSMGR_ADDRESS + SYSMGR_SOC64_BOOT_SCRATCH_COLD8)
  /\ 0 < ALT_SYSMGR_SCRATCH_REG_8_DDR_PROGRESS_MASK < 2 ^ 32
  /\ fst (fst (mbind regfile_dev (ddr_init_inprogress regfile_dev true)
                 (fun _ => is_ddr_init_hang regfile_dev) (fun _ => 0)))
     = Ret true.
Proof.
  split; [apply regfile_dev_holds|]. split; [vm_compute; split; reflexivity|].
  apply (ddr_init_inprogress_read_back regfile_dev true (fun _ => 0));
    [apply regfile_dev_holds|vm_compute; split; reflexivity].
Defined.

Lemma sdram_mmr_init_full_recal_result_witness :
  0 <= num_instance retry_ctrl
  /\ sdram_mmr_init_full_recal script_dev retry_ctrl [0; 1; 0]
     = (Ret cal_result, [], snd (sdram_mmr_init_full_recal script_dev retry_ctrl [0; 1; 0]))
  /\ overall_cal_status cal_result = true
  /\ num_instance cal_result = num_instance retry_ctrl
  /\ (overall_cal_status retry_ctrl = false -> all_cal_passed cal_result = true)
  /\ exists v t',
       snd (sdram_mmr_init_full_recal script_dev retry_ctrl [0; 1; 0])
       = EvRead (SOCFPGA_SYSMGR_ADDRESS + SYSMGR_SOC64_BOOT_SCRATCH_COLD8) v :: t'
       /\ (Z.land v ALT_SYSMGR_SCRATCH_REG_8_DDR_DBE_MASK = 0 ->
           overall_cal_status retry_ctrl = true -> cal_result = retry_ctrl /\ t' = []).
Proof.
  split; [vm_compute; discriminate|]. split; [vm_compute; reflexivity|].
  apply (sdram_mmr_init_full_recal_result script_dev retry_ctrl [0; 1; 0] cal_result []
           (snd (sdram_mmr_init_full_recal script_dev retry_ctrl [0; 1; 0])));
    [vm_compute; discriminate|vm_compute; reflexivity].
Defined.

Lemma io96b_mb_init_frame_witness :
  io96b_mb_init script_dev intf_ctrl intf_script
  = (Ret intf_result, [], snd (io96b_mb_init script_dev intf_ctrl intf_script))
  /\ intf_result = set_io96b (io96b intf_result) intf_ctrl
  /\ forall k,
       match io96b intf_ctrl !! k with
       | Some x =>
           exists mb, io96b intf_result !! k = Some (set_mb_ctrl mb x)
             /\ length (ip_type mb) = length (ip_type (mb_ctrl x))
             /\ length (ip_instance_id mb) = length (ip_instance_id (mb_ctrl x))
             /\ (if decide (k < Z.to_nat (num_instance intf_ctrl))%nat
                 then 0 <= num_mem_interface mb <= 3
                 else mb = mb_ctrl x)
       | None => io96b intf_result !! k = None
       end.
Proof.
  split; [vm_compute; reflexivity|].
  apply (io96b_mb_init_frame script_dev intf_ctrl intf_script intf_result []
           (snd (io96b_mb_init script_dev intf_ctrl intf_script))).
  vm_compute; reflexivity.
Defined.

Lemma populate_ddr_handoff_io96b_result_witness :
  populate_ddr_handoff_io96b script_dev handoff_addr handoff_words handoff_ctrl []
  = (Ret (0, handoff_result), [],
     snd (populate_ddr_handoff_io96b script_dev handoff_addr handoff_words handoff_ctrl []))
  /\ (let w := default 0 (handoff_words !! 1%nat) in
      let n := Z.to_nat MAX_IO96B_SUPPORTED in
      handoff_result
      = set_num_instance (num_instance handoff_result)
          (set_io96b (io96b handoff_result) handoff_ctrl)
      /\ exists i,
           (forall j, (j < i)%nat -> handoff_addr (Z.of_nat j + 1) <> FDT_ADDR_T_NONE)
           /\ (forall k, io96b handoff_result !! k =
                 if decide (k < i /\ Z.testbit w (Z.of_nat k) = true)%nat
                 then set_io96b_csr_addr (handoff_addr (Z.of_nat k + 1))
                        <$> io96b handoff_ctrl !! k
                 else io96b handoff_ctrl !! k)
           /\ (0 = 0 /\ i = n
               /\ num_instance handoff_result = u8 (Z.of_nat (length (enabled_slots w n)))
               \/ 0 = - EINVAL /\ (i < n)%nat
                  /\ handoff_addr (Z.of_nat i + 1) = FDT_ADDR_T_NONE
                  /\ num_instance handoff_result = num_instance handoff_ctrl
                  /\ @nil Z = []
                  /\ snd (populate_ddr_handoff_io96b script_dev handoff_addr handoff_words
                            handoff_ctrl []) = [])).
Proof.
  split; [vm_compute; reflexivity|].
  apply (populate_ddr_handoff_io96b_result script_dev handoff_addr handoff_words handoff_ctrl
           [] 0 handoff_result []
           (snd (populate_ddr_handoff_io96b script_dev handoff_addr handoff_words
                   handoff_ctrl []))).
  vm_compute; reflexivity.
Defined.

(** A missing second register block: the call fails, the count is still
    the old one, and the address of the first instance has been stored. *)
Example populate_ddr_handoff_io96b_einval :
  populate_ddr_handoff_io96b script_dev handoff_addr_short handoff_words_both handoff_ctrl []
  = (Ret (- EINVAL, handoff_partial), [], [])
  /\ num_instance handoff_partial = 0
  /\ io96b_csr_addr <$> io96b handoff_partial = [0x1000; 0].
Proof. vm_compute. auto. Qed.

(** With that handoff the one instance counted is the second one, while
    the loops of the driver, which run over the slots below the count, use
    the first slot, whose address was not assigned. *)
Example populate_ddr_handoff_io96b_second_only :
  num_instance handoff_result = 1
  /\ io96b_csr_addr <$> io96b handoff_result = [0; 0x2000]
  /\ io96b_csr_addr <$> take (Z.to_nat (num_instance handoff_result)) (io96b handoff_result)
     = [0].
Proof. vm_compute. auto. Qed.
